(** * xwrf: diagnostics, grid projection and coordinate clean-up

    A shallow embedding of [xwrf/diagnostics.py], [xwrf/grid.py] and
    [xwrf/io_plugin.py], and the properties of the pipeline proved on it.

    Modelling conventions.
    - A Python exception is a value of [exn]; a call that can raise returns
      a [result].
    - An [xarray.Dataset] is mutated in place by item assignment, attribute
      assignment and [del]; such code is written in the monad [M], which
      threads the dataset object and stops at the first exception (the
      dataset it carries at that point is the partially mutated object the
      caller is left with).
    - Numbers are kept abstract behind the class [PyNum] (the dtype of the
      arrays): the diagnostics only move numbers through [+] and [/], so
      what is proved of them holds for any arithmetic, binary floating
      point included.  Statements that need algebra are made on the
      instance of exact rationals.
    - An n-dimensional array is an index function; the size of every
      dimension is kept once, by the dataset (xarray refuses a dataset in
      which a dimension has two sizes, so the shape of a variable is the
      sizes of its dimensions). *)

From Stdlib Require Import ZArith QArith Ascii String List Lia.
From stdpp Require Import gmap strings list fin_maps.

Local Open Scope string_scope.

(** ** Exceptions and results *)

Inductive exn : Type :=
  | KeyError (key : string)
  | AttributeError (name : string)
  | ValueError (msg : string)
  | TypeError (msg : string)
  | IndexError (msg : string)
  | NotImplementedError (msg : string)
  | CRSError (msg : string).

Inductive result (A : Type) : Type :=
  | Ok (a : A)
  | Raise (e : exn).
Arguments Ok {A} a.
Arguments Raise {A} e.

Definition is_ok {A} (r : result A) : bool :=
  match r with Ok _ => true | Raise _ => false end.

Definition rbind {A B} (r : result A) (k : A -> result B) : result B :=
  match r with Ok a => k a | Raise e => Raise e end.

Notation "'let?' x := r 'in' k" := (rbind r (fun x => k))
  (at level 10, x pattern, r at level 100, k at level 200).

(** ** Numbers *)

Class PyNum (num : Type) : Type := {
  num_lit : Q -> num;           (* a float literal of the source: 9.81, 0.5, 90. *)
  num_of_Z : Z -> num;          (* an int operand in float arithmetic *)
  num_add : num -> num -> num;
  num_sub : num -> num -> num;
  num_mul : num -> num -> num;
  num_div : num -> num -> num;
  num_eqb : num -> num -> bool  (* Python's == on numbers *)
}.

#[export] Instance PyNum_Q : PyNum Q := {|
  num_lit := fun q => q;
  num_of_Z := inject_Z;
  num_add := Qplus;
  num_sub := Qminus;
  num_mul := Qmult;
  num_div := Qdiv;
  num_eqb := Qeq_bool
|}.

(** ** Time stamps

    [pd.to_datetime(strings, format='%Y-%m-%d_%H:%M:%S')] as pandas
    defines it for ASCII text: every string is matched against the
    regular expression of the format (the alternatives of a field are
    tried in order and the first match of the whole format is kept), the
    whole string must have been consumed, the date must exist and the
    instant must fit [datetime64[ns]].  The empty string and the NaT
    words give NaT.  The result is the number of nanoseconds since
    1970-01-01; the first string that fails makes the call raise. *)

Module Strptime.

Local Open Scope Z_scope.

Definition digit (c : ascii) : option Z :=
  let n := Z.of_nat (nat_of_ascii c) in
  if ((48 <=? n) && (n <=? 57))%Z then Some (n - 48)%Z else None.

(** a digit between [lo] and [hi] *)
Definition digit_in (lo hi : Z) (c : ascii) : option Z :=
  match digit c with
  | Some d => if ((lo <=? d) && (d <=? hi))%Z then Some d else None
  | None => None
  end.

(** the matches of a two-character alternative [[a-b][c-d]] *)
Definition two (r1 r2 : Z * Z) (s : string) : list (Z * string) :=
  match s with
  | String c1 (String c2 rest) =>
      match digit_in (fst r1) (snd r1) c1, digit_in (fst r2) (snd r2) c2 with
      | Some d1, Some d2 => [((10 * d1 + d2)%Z, rest)]
      | _, _ => []
      end
  | _ => []
  end.

(** the matches of a one-character alternative [[a-b]] *)
Definition one (r : Z * Z) (s : string) : list (Z * string) :=
  match s with
  | String c rest =>
      match digit_in (fst r) (snd r) c with
      | Some d => [(d, rest)]
      | None => []
      end
  | _ => []
  end.

(** a literal character of the format *)
Definition lit (c : ascii) (s : string) : list string :=
  match s with
  | String c' rest => if Ascii.eqb c c' then [rest] else []
  | _ => []
  end.

(** [%Y]: [\d\d\d\d] *)
Definition field_Y (s : string) : list (Z * string) :=
  match s with
  | String c1 (String c2 (String c3 (String c4 rest))) =>
      match digit c1, digit c2, digit c3, digit c4 with
      | Some d1, Some d2, Some d3, Some d4 =>
          [((1000 * d1 + 100 * d2 + 10 * d3 + d4)%Z, rest)]
      | _, _, _, _ => []
      end
  | _ => []
  end.

(** [%m]: [1[0-2]|0[1-9]|[1-9]] *)
Definition field_m (s : string) : list (Z * string) :=
  two (1, 1) (0, 2) s ++ two (0, 0) (1, 9) s ++ one (1, 9) s.

(** [%d]: [3[0-1]|[1-2]\d|0[1-9]|[1-9]| [1-9]] *)
Definition field_d (s : string) : list (Z * string) :=
  two (3, 3) (0, 1) s ++ two (1, 2) (0, 9) s ++ two (0, 0) (1, 9) s ++ one (1, 9) s ++
  flat_map (one (1, 9)) (lit " " s).

(** [%H]: [2[0-3]|[0-1]\d|\d] *)
Definition field_H (s : string) : list (Z * string) :=
  two (2, 2) (0, 3) s ++ two (0, 1) (0, 9) s ++ one (0, 9) s.

(** [%M]: [[0-5]\d|\d] *)
Definition field_M (s : string) : list (Z * string) :=
  two (0, 5) (0, 9) s ++ one (0, 9) s.

(** [%S]: [6[0-1]|[0-5]\d|\d] *)
Definition field_S (s : string) : list (Z * string) :=
  two (6, 6) (0, 1) s ++ two (0, 5) (0, 9) s ++ one (0, 9) s.

Record fields : Type := mk_fields {
  year : Z; month : Z; day : Z; hour : Z; minute : Z; second : Z
}.

(** all the matches of the format at the start of [s], in the order in
    which a backtracking matcher finds them *)
Definition matches (s : string) : list (fields * string) :=
  flat_map (fun '(yr, s) => flat_map (fun s =>
  flat_map (fun '(mo, s) => flat_map (fun s =>
  flat_map (fun '(dy, s) => flat_map (fun s =>
  flat_map (fun '(hr, s) => flat_map (fun s =>
  flat_map (fun '(mi, s) => flat_map (fun s =>
  map (fun '(se, s) => (mk_fields yr mo dy hr mi se, s))
    (field_S s)) (lit ":" s)) (field_M s)) (lit ":" s)) (field_H s)) (lit "_" s))
    (field_d s)) (lit "-" s)) (field_m s)) (lit "-" s)) (field_Y s).

Definition is_leap (y : Z) : bool :=
  ((y mod 4 =? 0) && (negb (y mod 100 =? 0) || (y mod 400 =? 0)))%Z.

Definition days_in_month (y m : Z) : Z :=
  if (m =? 2)%Z then (if is_leap y then 29 else 28)%Z
  else if ((m =? 4) || (m =? 6) || (m =? 9) || (m =? 11))%Z then 30%Z
  else 31%Z.

(** days from 1970-01-01 to the civil date *)
Definition days_from_civil (y m d : Z) : Z :=
  let y' := (if (m <=? 2) then y - 1 else y)%Z in
  let era := (y' / 400)%Z in
  let yoe := (y' - era * 400)%Z in
  let doy := ((153 * (if (m >? 2) then m - 3 else m + 9) + 2) / 5 + d - 1)%Z in
  let doe := (yoe * 365 + yoe / 4 - yoe / 100 + doy)%Z in
  (era * 146097 + doe - 719468)%Z.

Definition epoch_ns (f : fields) : Z :=
  ((((days_from_civil (year f) (month f) (day f) * 24 + hour f) * 60 + minute f) * 60
    + second f) * 1000000000)%Z.

Definition NaT : Z := (- 2 ^ 63)%Z.

Definition nat_strings : list string := ["NaT"; "nat"; "NAT"; "nan"; "NaN"; "NAN"].

Definition parse (s : string) : option Z :=
  if bool_decide (s = "") || bool_decide (s ∈ nat_strings) then Some NaT
  else
    match matches s with
    | (f, "") :: _ =>
        if ((1 <=? year f) && (day f <=? days_in_month (year f) (month f)))%Z
        then
          let ns := epoch_ns f in
          if ((NaT <? ns) && (ns <? 2 ^ 63))%Z then Some ns else None
        else None
    | _ => None
    end.

Fixpoint to_datetime (l : list string) : option (list Z) :=
  match l with
  | [] => Some []
  | s :: l' =>
      match parse s with
      | Some t =>
          match to_datetime l' with
          | Some ts => Some (t :: ts)
          | None => None
          end
      | None => None
      end
  end.

End Strptime.

(** ** Arrays, variables, datasets *)

Section Model.

Context {num : Type} `{PyNum num}.

(** What [pyproj] provides is taken as given: the type of CRS objects, the
    constructor [pyproj.CRS(pargs)] (which may raise), [crs.to_cf()] and
    the transformation of a lon/lat pair from WGS84 into a CRS. *)
Context {CRS : Type}.

(** Attribute values: netCDF attributes and the values of [pargs]. *)
Inductive attrval : Type :=
  | AStr (s : string)
  | AInt (z : Z)
  | ANum (x : num).

Variable pyproj_CRS : gmap string attrval -> result CRS.
Variable crs_to_cf : CRS -> gmap string attrval.
Variable pyproj_transform : CRS -> num -> num -> result (num * num).

(** The elements of an array, by dtype: numbers, byte strings ([S19]),
    [datetime64[ns]] (nanoseconds since the epoch), text, or CRS objects. *)
Inductive payload : Type :=
  | PNum (f : list nat -> num)
  | PBytes (f : list nat -> string)
  | PTime (f : list nat -> Z)
  | PStr (f : list nat -> string)
  | PCrs (f : list nat -> CRS).

(** [xarray.Variable]: named dimensions over an array, with attributes
    and encoding. *)
Record XVariable : Type := mk_XVariable {
  var_dims : list string;
  var_elems : payload;
  var_attrs : gmap string attrval;
  var_encoding : gmap string attrval
}.

Definition var_ndim (v : XVariable) : nat := length (var_dims v).

Definition is_numeric (v : XVariable) : bool :=
  match var_elems v with PNum _ => true | _ => false end.

(** [xarray.Dataset]: the variables by name, which of them are
    coordinates, the size of each dimension, and the global attributes.
    The dimensions of a dataset are those its variables use. *)
Record Dataset : Type := mk_Dataset {
  variables : gmap string XVariable;
  coord_names : gset string;
  sizes : gmap string nat;
  ds_attrs : gmap string attrval
}.

Definition with_variables (ds : Dataset) (vs : gmap string XVariable) : Dataset :=
  {| variables := vs; coord_names := coord_names ds;
     sizes := sizes ds; ds_attrs := ds_attrs ds |}.

(** [d in dataset.dims] *)
Definition in_dims (d : string) (ds : Dataset) : bool :=
  bool_decide (map_Exists (fun _ v => d ∈ var_dims v) (variables ds)).

(** [name in dataset.coords] *)
Definition in_coords (name : string) (ds : Dataset) : bool :=
  bool_decide (name ∈ coord_names ds) && bool_decide (is_Some (variables ds !! name)).

(** ** The dataset monad *)

Definition M (A : Type) : Type := Dataset -> Dataset * result A.

Definition mret {A} (a : A) : M A := fun ds => (ds, Ok a).

Definition mraise {A} (e : exn) : M A := fun ds => (ds, Raise e).

Definition mbind' {A B} (c : M A) (k : A -> M B) : M B :=
  fun ds =>
    match c ds with
    | (ds', Ok a) => k a ds'
    | (ds', Raise e) => (ds', Raise e)
    end.

Definition mlift {A} (r : result A) : M A := fun ds => (ds, r).

Notation "x <- c ;; k" := (mbind' c (fun x => k))
  (at level 20, c at level 99, k at level 200).
Notation "c ;; k" := (mbind' c (fun _ => k))
  (at level 100, k at level 200, right associativity).

Definition when (b : bool) (c : M unit) : M unit :=
  if b then c else mret tt.

(** [dataset[name]]: the variable of that name or, for the name of a
    dimension that has no variable, the default index [0 .. n-1] that
    xarray makes up for it. *)
Definition virtual_index (name : string) : XVariable :=
  {| var_dims := [name];
     var_elems := PNum (fun idx => num_of_Z (Z.of_nat (hd 0%nat idx)));
     var_attrs := ∅;
     var_encoding := ∅ |}.

Definition item (ds : Dataset) (name : string) : option XVariable :=
  match variables ds !! name with
  | Some v => Some v
  | None => if in_dims name ds then Some (virtual_index name) else None
  end.

Definition getitem (name : string) : M XVariable :=
  fun ds =>
    match item ds name with
    | Some v => (ds, Ok v)
    | None => (ds, Raise (KeyError name))
    end.

(** [dataset[name] = v] for a variable [v] of the dataset's own sizes: a
    variable named as its only dimension becomes an index coordinate, and
    xarray refuses a variable of another rank that is named as one of its
    dimensions. *)
Definition ds_insert (name : string) (v : XVariable) (ds : Dataset) : Dataset :=
  {| variables := <[name := v]> (variables ds);
     coord_names :=
       if bool_decide (var_dims v = [name])
       then {[name]} ∪ coord_names ds else coord_names ds;
     sizes := sizes ds;
     ds_attrs := ds_attrs ds |}.

Definition index_conflict (name : string) (dims : list string) : bool :=
  bool_decide (name ∈ dims) && negb (Nat.eqb (length dims) 1).

Definition dimension_error : exn :=
  ValueError "variable has more than 1-dimension and the same name as one of its dimensions".

Definition setitem (name : string) (v : XVariable) : M unit :=
  fun ds =>
    if index_conflict name (var_dims v) then (ds, Raise dimension_error)
    else (ds_insert name v ds, Ok tt).

(** [dataset[name].attrs = attrs]: the variable inside the dataset is the
    object whose attributes are replaced (a default index is made up anew
    at every access, so that nothing is kept of the assignment). *)
Definition set_var_attrs (attrs : gmap string attrval) (v : XVariable) : XVariable :=
  {| var_dims := var_dims v; var_elems := var_elems v;
     var_attrs := attrs; var_encoding := var_encoding v |}.

Definition setattrs (name : string) (attrs : gmap string attrval) : M unit :=
  fun ds =>
    match variables ds !! name with
    | Some v => (with_variables ds (<[name := set_var_attrs attrs v]> (variables ds)), Ok tt)
    | None => if in_dims name ds then (ds, Ok tt) else (ds, Raise (KeyError name))
    end.

(** [del dataset[name]] *)
Definition ds_delete (name : string) (ds : Dataset) : Dataset :=
  {| variables := delete name (variables ds);
     coord_names := coord_names ds ∖ {[name]};
     sizes := sizes ds;
     ds_attrs := ds_attrs ds |}.

Definition delitem (name : string) : M unit :=
  fun ds =>
    match variables ds !! name with
    | Some _ => (ds_delete name ds, Ok tt)
    | None => (ds, Raise (KeyError name))
    end.

(** ** Arithmetic on variables

    xarray broadcasts by dimension name: the result has the dimensions of
    the left operand followed by those the right operand adds.  The
    result of a binary operation carries neither attributes nor encoding.
    Arithmetic on the other dtypes is outside what the diagnostics are
    for; it is a [TypeError] here. *)

Fixpoint index_of (d : string) (l : list string) : nat :=
  match l with
  | [] => 0
  | x :: l' => if bool_decide (d = x) then 0 else S (index_of d l')
  end.

(** the index of an operand with dimensions [dims], out of the index
    [idx] over [out_dims] *)
Definition project_index (out_dims : list string) (idx : list nat)
    (dims : list string) : list nat :=
  map (fun d => nth (index_of d out_dims) idx 0) dims.

Definition broadcast_dims (a b : list string) : list string :=
  a ++ filter (fun d => d ∉ a) b.

Definition var_binop (f : num -> num -> num) (a b : XVariable) : result XVariable :=
  match var_elems a, var_elems b with
  | PNum fa, PNum fb =>
      let dims := broadcast_dims (var_dims a) (var_dims b) in
      Ok {| var_dims := dims;
            var_elems := PNum (fun idx =>
              f (fa (project_index dims idx (var_dims a)))
                (fb (project_index dims idx (var_dims b))));
            var_attrs := ∅;
            var_encoding := ∅ |}
  | _, _ => Raise (TypeError "unsupported operand type(s)")
  end.

Definition var_scalar_op (f : num -> num -> num) (a : XVariable) (c : num)
    : result XVariable :=
  match var_elems a with
  | PNum fa =>
      Ok {| var_dims := var_dims a;
            var_elems := PNum (fun idx => f (fa idx) c);
            var_attrs := ∅;
            var_encoding := ∅ |}
  | _ => Raise (TypeError "unsupported operand type(s)")
  end.

(** ** diagnostics.py *)

Definition _check_if_dask (dataarray : XVariable) : bool := true.

Definition attrs_get (attrs : gmap string attrval) (key : string) (default : attrval)
    : attrval :=
  match attrs !! key with Some a => a | None => default end.

Definition potential_temperature_attrs : gmap string attrval :=
  <["units" := AStr "K"]>
  (<["standard_name" := AStr "air_potential_temperature"]> ∅).

Definition pressure_attrs (units : attrval) : gmap string attrval :=
  <["units" := units]> (<["standard_name" := AStr "air_pressure"]> ∅).

Definition geopotential_attrs : gmap string attrval :=
  <["units" := AStr "m**2 s**-2"]> (<["standard_name" := AStr "geopotential"]> ∅).

Definition geopotential_height_attrs : gmap string attrval :=
  <["units" := AStr "m"]> (<["standard_name" := AStr "geopotential_height"]> ∅).

(** [a and b] on the two guards: [b] is evaluated only when [a] holds. *)
Definition py_and (a b : M bool) : M bool :=
  x <- a ;; if x then b else mret false.

(** [_check_if_dask(dataset[name])] *)
Definition checked (name : string) : M bool :=
  v <- getitem name ;; mret (_check_if_dask v).

(** The three blocks of [calc_base_diagnostics], in the order of the source. *)
Definition calc_potential_temperature (drop : bool) : M unit :=
  c <- checked "T" ;;
  when c (
    t <- getitem "T" ;;
    theta <- mlift (var_scalar_op num_add t (num_of_Z 300)) ;;
    setitem "air_potential_temperature" theta ;;
    setattrs "air_potential_temperature" potential_temperature_attrs ;;
    when drop (delitem "T")).

Definition calc_pressure (drop : bool) : M unit :=
  c <- py_and (checked "P") (checked "PB") ;;
  when c (
    p <- getitem "P" ;;
    pb <- getitem "PB" ;;
    pres <- mlift (var_binop num_add p pb) ;;
    setitem "air_pressure" pres ;;
    p <- getitem "P" ;;
    setattrs "air_pressure"
      (pressure_attrs (attrs_get (var_attrs p) "units" (AStr "Pa"))) ;;
    when drop (delitem "P" ;; delitem "PB")).

Definition calc_geopotential (drop : bool) : M unit :=
  c <- py_and (checked "PH") (checked "PHB") ;;
  when c (
    ph <- getitem "PH" ;;
    phb <- getitem "PHB" ;;
    geo <- mlift (var_binop num_add ph phb) ;;
    setitem "geopotential" geo ;;
    setattrs "geopotential" geopotential_attrs ;;
    geo <- getitem "geopotential" ;;
    z <- mlift (var_scalar_op num_div geo (num_lit (981 # 100))) ;;
    setitem "geopotential_height" z ;;
    setattrs "geopotential_height" geopotential_height_attrs ;;
    when drop (delitem "PH" ;; delitem "PHB")).

(** [calc_base_diagnostics(dataset, drop)]: the dataset object is changed
    in place and returned. *)
Definition calc_base_diagnostics (drop : bool) : M unit :=
  calc_potential_temperature drop ;;
  calc_pressure drop ;;
  calc_geopotential drop.

(** ** grid.py *)

Definition _HORIZONTAL_DIMS : list string :=
  ["south_north"; "west_east"; "south_north_stag"; "west_east_stag"].

(** [ds.NAME] and [hasattr(ds, NAME)] for a global attribute.  (The names
    read below are global attributes of the file and name none of its
    variables or dimensions.) *)
Definition getattr (ds : Dataset) (name : string) : result attrval :=
  match ds_attrs ds !! name with
  | Some a => Ok a
  | None => Raise (AttributeError name)
  end.

Definition hasattr (ds : Dataset) (name : string) : bool :=
  bool_decide (is_Some (ds_attrs ds !! name)).

(** [a == k] for an int literal [k] *)
Definition py_eq_int (a : attrval) (k : Z) : bool :=
  match a with
  | AInt z => Z.eqb z k
  | ANum x => num_eqb x (num_of_Z k)
  | AStr _ => false
  end.

(** [a in names] for a list of string literals *)
Definition py_in_strs (a : attrval) (names : list string) : bool :=
  match a with
  | AStr s => bool_decide (s ∈ names)
  | _ => false
  end.

(** a number out of an attribute, as arithmetic takes it *)
Definition as_num (a : attrval) : result num :=
  match a with
  | AInt z => Ok (num_of_Z z)
  | ANum x => Ok x
  | AStr _ => Raise (TypeError "unsupported operand type(s)")
  end.

(** [del pargs[key]] *)
Definition dict_del (key : string) (d : gmap string attrval)
    : result (gmap string attrval) :=
  match d !! key with
  | Some _ => Ok (delete key d)
  | None => Raise (KeyError key)
  end.

(** [pargs[key]] *)
Definition dict_get (key : string) (d : gmap string attrval) : result attrval :=
  match d !! key with
  | Some a => Ok a
  | None => Raise (KeyError key)
  end.

(** What the first half of [_wrf_grid_from_dataset] reads from the file:
    the projection arguments, the projection id, the grid spacing and,
    for a normal WRF file, the centre of the grid. *)
Record projection_inputs : Type := mk_projection_inputs {
  pi_pargs : gmap string attrval;
  pi_proj_id : attrval;
  pi_dx : attrval;
  pi_dy : attrval;
  pi_center : option (attrval * attrval)   (* cen_lon, cen_lat *)
}.

Definition initial_pargs : gmap string attrval :=
  <["x_0" := AInt 0]> (<["y_0" := AInt 0]>
  (<["a" := AInt 6370000]> (<["b" := AInt 6370000]> ∅))).

Definition read_projection_inputs (ds : Dataset) : result projection_inputs :=
  let pargs := initial_pargs in
  if hasattr ds "PROJ_ENVI_STRING" then
    (* HAR and other TU Berlin files *)
    let? dx := getattr ds "GRID_DX" in
    let? dy := getattr ds "GRID_DY" in
    let? lat_1 := getattr ds "PROJ_STANDARD_PAR1" in
    let pargs := <["lat_1" := lat_1]> pargs in
    let? lat_2 := getattr ds "PROJ_STANDARD_PAR2" in
    let pargs := <["lat_2" := lat_2]> pargs in
    let? lat_0 := getattr ds "PROJ_CENTRAL_LAT" in
    let pargs := <["lat_0" := lat_0]> pargs in
    let? lon_0 := getattr ds "PROJ_CENTRAL_LON" in
    let pargs := <["lon_0" := lon_0]> pargs in
    let? center_lon := getattr ds "PROJ_CENTRAL_LON" in
    let pargs := <["center_lon" := center_lon]> pargs in
    let? proj_name := getattr ds "PROJ_NAME" in
    let proj_id :=
      if py_in_strs proj_name ["Lambert Conformal Conic"; "WRF Lambert Conformal"]
      then AInt 1 else AInt 99 in
    Ok {| pi_pargs := pargs; pi_proj_id := proj_id;
          pi_dx := dx; pi_dy := dy; pi_center := None |}
  else
    (* Normal WRF file *)
    let? cen_lon := getattr ds "CEN_LON" in
    let? cen_lat := getattr ds "CEN_LAT" in
    let? dx := getattr ds "DX" in
    let? dy := getattr ds "DY" in
    let? lat_1 := getattr ds "TRUELAT1" in
    let pargs := <["lat_1" := lat_1]> pargs in
    let? lat_2 := getattr ds "TRUELAT2" in
    let pargs := <["lat_2" := lat_2]> pargs in
    let? lat_0 := getattr ds "MOAD_CEN_LAT" in
    let pargs := <["lat_0" := lat_0]> pargs in
    let? lon_0 := getattr ds "STAND_LON" in
    let pargs := <["lon_0" := lon_0]> pargs in
    let? center_lon := getattr ds "CEN_LON" in
    let pargs := <["center_lon" := center_lon]> pargs in
    let? proj_id := getattr ds "MAP_PROJ" in
    Ok {| pi_pargs := pargs; pi_proj_id := proj_id;
          pi_dx := dx; pi_dy := dy; pi_center := Some (cen_lon, cen_lat) |}.

(** The branch on [proj_id].  (The message of the last branch also
    prints the id.) *)
Definition select_projection (proj_id : attrval) (pargs : gmap string attrval)
    : result (gmap string attrval) :=
  if py_eq_int proj_id 1 then
    (* Lambert *)
    let pargs := <["proj" := AStr "lcc"]> pargs in
    dict_del "center_lon" pargs
  else if py_eq_int proj_id 2 then
    (* Polar stereo *)
    let pargs := <["proj" := AStr "stere"]> pargs in
    let? lat_1 := dict_get "lat_1" pargs in
    let pargs := <["lat_ts" := lat_1]> pargs in
    let pargs := <["lat_0" := ANum (num_lit 90)]> pargs in
    let? pargs := dict_del "lat_1" pargs in
    let? pargs := dict_del "lat_2" pargs in
    dict_del "center_lon" pargs
  else if py_eq_int proj_id 3 then
    (* Mercator *)
    let pargs := <["proj" := AStr "merc"]> pargs in
    let? lat_1 := dict_get "lat_1" pargs in
    let pargs := <["lat_ts" := lat_1]> pargs in
    let? center_lon := dict_get "center_lon" pargs in
    let pargs := <["lon_0" := center_lon]> pargs in
    let? pargs := dict_del "lat_0" pargs in
    let? pargs := dict_del "lat_1" pargs in
    let? pargs := dict_del "lat_2" pargs in
    dict_del "center_lon" pargs
  else
    Raise (NotImplementedError "WRF proj not implemented yet").

(** The projection arguments handed to [pyproj.CRS]: lines 22 to 72. *)
Definition projection_pargs (ds : Dataset) : result (gmap string attrval) :=
  let? inp := read_projection_inputs ds in
  select_projection (pi_proj_id inp) (pi_pargs inp).

(** Python values that the second half of the module passes around: a
    string, a 1-D numpy array, a CRS object, or a DataArray. *)
Inductive pyval : Type :=
  | VStr (s : string)
  | VArr (l : list num)
  | VCrs (c : CRS)
  | VDataArray (v : XVariable).

(** xarray's arithmetic between a DataArray of one or more dimensions and
    a 1-D numpy array (numpy broadcasting under the names of the
    DataArray) is taken as given. *)
Variable dataarray_add_ndarray : XVariable -> list num -> result pyval.

(** [ds.dims[d]] *)
Definition dims_getitem (ds : Dataset) (d : string) : result nat :=
  if in_dims d ds then
    match sizes ds !! d with
    | Some n => Ok n
    | None => Raise (KeyError d)
    end
  else Raise (KeyError d).

Definition payload_reindex (g : list nat -> list nat) (p : payload) : payload :=
  match p with
  | PNum f => PNum (fun idx => f (g idx))
  | PBytes f => PBytes (fun idx => f (g idx))
  | PTime f => PTime (fun idx => f (g idx))
  | PStr f => PStr (fun idx => f (g idx))
  | PCrs f => PCrs (fun idx => f (g idx))
  end.

(** [v[0]]: index 0 along the leading dimension *)
Definition take_first (ds : Dataset) (v : XVariable) : result XVariable :=
  match var_dims v with
  | [] => Raise (IndexError "too many indices for array")
  | d :: rest =>
      match sizes ds !! d with
      | Some (S _) =>
          Ok {| var_dims := rest;
                var_elems := payload_reindex (cons 0%nat) (var_elems v);
                var_attrs := var_attrs v;
                var_encoding := var_encoding v |}
      | _ => Raise (IndexError "index 0 is out of bounds for axis 0 with size 0")
      end
  end.

(** [ds[name][0]] *)
Definition first_of (ds : Dataset) (name : string) : result XVariable :=
  match item ds name with
  | Some v => take_first ds v
  | None => Raise (KeyError name)
  end.

(** [x0 + arr] for a DataArray [x0]: the result keeps the dimensions of
    [x0], so a 0-d [x0] cannot hold the 1-D sum. *)
Definition dataarray_plus (x0 : XVariable) (arr : list num) : result pyval :=
  match var_dims x0 with
  | [] => Raise (ValueError
            "dimensions () must have the same length as the number of data dimensions, ndim=1")
  | _ => dataarray_add_ndarray x0 arr
  end.

Definition arange (n : nat) : list Z := map Z.of_nat (seq 0 n).

(** [np.arange(n) * d] and [(np.arange(n + 1) - 0.5) * d] *)
Definition steps (n : nat) (d : num) : list num :=
  map (fun i => num_mul (num_of_Z i) d) (arange n).

Definition steps_stag (n : nat) (d : num) : list num :=
  map (fun i => num_mul (num_sub (num_of_Z i) (num_lit (1 # 2))) d) (arange (n + 1)).

(** [x0 + arr] for a number [x0] *)
Definition offset (x0 : num) (arr : list num) : list num := map (num_add x0) arr.

(** [-(n - 1) / 2. * d + e], the lower left corner *)
Definition corner (n : nat) (d e : num) : num :=
  num_add (num_mul (num_div (num_of_Z (- (Z.of_nat n - 1))) (num_lit 2)) d) e.

Definition _wrf_grid_from_dataset (ds : Dataset) : result (list (string * pyval)) :=
  let? inp := read_projection_inputs ds in
  let? pargs := select_projection (pi_proj_id inp) (pi_pargs inp) in
  (* Construct the pyproj CRS (letting errors fail through) *)
  let? crs := pyproj_CRS pargs in
  (* Get grid specifications *)
  let? nx := dims_getitem ds "west_east" in
  let? ny := dims_getitem ds "south_north" in
  match pi_center inp with
  | None =>
      (* HAR *)
      let? x0 := first_of ds "west_east" in
      let? y0 := first_of ds "south_north" in
      let? dy := as_num (pi_dy inp) in
      let? south_north := dataarray_plus y0 (steps ny dy) in
      let? dx := as_num (pi_dx inp) in
      let? west_east := dataarray_plus x0 (steps nx dx) in
      let? south_north_stag := dataarray_plus y0 (steps_stag ny dy) in
      let? west_east_stag := dataarray_plus x0 (steps_stag nx dx) in
      Ok [("crs", VCrs crs);
          ("south_north", south_north);
          ("west_east", west_east);
          ("south_north_stag", south_north_stag);
          ("west_east_stag", west_east_stag)]
  | Some (cen_lon, cen_lat) =>
      (* Normal WRF file *)
      let? lon := as_num cen_lon in
      let? lat := as_num cen_lat in
      let? (e, n) := pyproj_transform crs lon lat in
      let? dx := as_num (pi_dx inp) in
      let x0 := corner nx dx e in
      let? dy := as_num (pi_dy inp) in
      let y0 := corner ny dy n in
      Ok [("crs", VCrs crs);
          ("south_north", VArr (offset y0 (steps ny dy)));
          ("west_east", VArr (offset x0 (steps nx dx)));
          ("south_north_stag", VArr (offset y0 (steps_stag ny dy)));
          ("west_east_stag", VArr (offset x0 (steps_stag nx dx)))]
  end.

(** [dataset[name] = (dims, data, attrs)]: xarray builds a Variable out
    of the tuple, which needs as many dimension names as the data has
    dimensions, and refuses a size that differs from the size the
    dimension has in the rest of the dataset. *)
Definition pyval_shape (ds : Dataset) (data : pyval) : list nat :=
  match data with
  | VStr _ => []
  | VCrs _ => []
  | VArr l => [length l]
  | VDataArray v => map (fun d => default 0%nat (sizes ds !! d)) (var_dims v)
  end.

Definition pyval_elems (data : pyval) : payload :=
  match data with
  | VStr s => PStr (fun _ => s)
  | VCrs c => PCrs (fun _ => c)
  | VArr l => PNum (fun idx => nth (hd 0%nat idx) l (num_of_Z 0))
  | VDataArray v => var_elems v
  end.

Definition used_elsewhere (d name : string) (ds : Dataset) : bool :=
  bool_decide (map_Exists (fun n v => n ≠ name ∧ d ∈ var_dims v) (variables ds)).

Definition size_conflict (name : string) (ds : Dataset) (dn : string * nat) : bool :=
  used_elsewhere (fst dn) name ds && negb (bool_decide (sizes ds !! fst dn = Some (snd dn))).

Definition assign_tuple (name : string) (dims : list string) (data : pyval)
    (attrs : gmap string attrval) : M unit :=
  fun ds =>
    let shp := pyval_shape ds data in
    if negb (Nat.eqb (length dims) (length shp)) then
      (ds, Raise (ValueError
         "Could not convert tuple of form (dims, data[, attrs, encoding]) to Variable."))
    else if existsb (size_conflict name ds) (zip dims shp) then
      (ds, Raise (ValueError "conflicting sizes for dimension"))
    else
      let v := {| var_dims := dims; var_elems := pyval_elems data;
                  var_attrs := attrs; var_encoding := ∅ |} in
      ({| variables := <[name := v]> (variables ds);
          coord_names :=
            if bool_decide (dims = [name])
            then {[name]} ∪ coord_names ds else coord_names ds;
          sizes := foldr (fun dn m => <[fst dn := snd dn]> m) (sizes ds) (zip dims shp);
          ds_attrs := ds_attrs ds |}, Ok tt).

(** The dict returned by [_wrf_grid_from_dataset] is unpacked into five
    names: iterating a dict yields its keys. *)
Definition unpack5 (d : list (string * pyval))
    : result (pyval * pyval * pyval * pyval * pyval) :=
  match map fst d with
  | [k1; k2; k3; k4; k5] => Ok (VStr k1, VStr k2, VStr k3, VStr k4, VStr k5)
  | _ => Raise (ValueError "wrong number of values to unpack")
  end.

(** [crs.to_cf()] *)
Definition to_cf (crs : pyval) : result (gmap string attrval) :=
  match crs with
  | VCrs c => Ok (crs_to_cf c)
  | _ => Raise (AttributeError "to_cf")
  end.

Definition projection_y_attrs : gmap string attrval :=
  <["units" := AStr "m"]> (<["standard_name" := AStr "projection_y_coordinate"]>
  (<["axis" := AStr "Y"]> ∅)).

Definition projection_x_attrs : gmap string attrval :=
  <["units" := AStr "m"]> (<["standard_name" := AStr "projection_x_coordinate"]>
  (<["axis" := AStr "X"]> ∅)).

Definition staggered (attrs : gmap string attrval) : gmap string attrval :=
  <["c_grid_axis_shift" := ANum (num_lit (1 # 2))]> attrs.

Definition has_horizontal_dim (v : XVariable) : bool :=
  existsb (fun dim => bool_decide (dim ∈ var_dims v)) _HORIZONTAL_DIMS.

(** the loop over [dataset.data_vars] *)
Definition tag_grid_mapping : M unit :=
  fun ds =>
    (with_variables ds
       (map_imap (fun varname v =>
          Some (if negb (bool_decide (varname ∈ coord_names ds)) && has_horizontal_dim v
                then set_var_attrs (<["grid_mapping" := AStr "wrf_projection"]> (var_attrs v)) v
                else v))
          (variables ds)),
     Ok tt).

Definition gets {A} (f : Dataset -> A) : M A := fun ds => (ds, Ok (f ds)).

Definition add_horizontal_projection_coordinates : M unit :=
  grid <- (fun ds => (ds, _wrf_grid_from_dataset ds)) ;;
  names <- mlift (unpack5 grid) ;;
  let '(crs, south_north, west_east, south_north_stag, west_east_stag) := names in
  (* Add grid center coordinates *)
  assign_tuple "south_north" ["south_north"] south_north projection_y_attrs ;;
  assign_tuple "west_east" ["west_east"] south_north projection_x_attrs ;;
  (* Optionally add staggered grid (cell boundary) coordinates *)
  c <- gets (in_dims "south_north_stag") ;;
  when c (assign_tuple "south_north_stag" ["south_north_stag"] south_north_stag
            (staggered projection_y_attrs)) ;;
  c <- gets (in_dims "west_east_stag") ;;
  when c (assign_tuple "west_east_stag" ["west_east_stag"] west_east_stag
            (staggered projection_x_attrs)) ;;
  (* Add CF grid mapping *)
  cf <- mlift (to_cf crs) ;;
  assign_tuple "wrf_projection" [] crs cf ;;
  tag_grid_mapping.

(** ** io_plugin.py *)

Definition _LAT_COORDS : list string :=
  ["XLAT"; "XLAT_M"; "XLAT_U"; "XLAT_V"; "CLAT"; "XLAT_C"].

Definition _LON_COORDS : list string :=
  ["XLONG"; "XLONG_M"; "XLONG_U"; "XLONG_V"; "CLONG"; "XLONG_C"].

Definition _VERTICAL_COORDS : list string := ["ZNU"; "ZNW"].

Definition _TIME_COORD_VARS : list string := ["XTIME"; "Times"; "Time"; "time"].

Definition _ALL_COORDS : gset string :=
  list_to_set (_LAT_COORDS ++ _LON_COORDS ++ _VERTICAL_COORDS ++ _TIME_COORD_VARS)%list.

(** [^[a-z][a-z0-9]*(\://|\:\:)] *)
Definition is_lower (c : ascii) : bool :=
  let n := nat_of_ascii c in (97 <=? n)%nat && (n <=? 122)%nat.

Definition is_lower_or_digit (c : ascii) : bool :=
  let n := nat_of_ascii c in is_lower c || ((48 <=? n)%nat && (n <=? 57)%nat).

Fixpoint scheme_rest (s : string) : bool :=
  match s with
  | String c rest =>
      if is_lower_or_digit c then scheme_rest rest
      else String.prefix "://" s || String.prefix "::" s
  | EmptyString => false
  end.

Definition is_remote_uri (path : string) : bool :=
  match path with
  | String c rest => is_lower c && scheme_rest rest
  | EmptyString => false
  end.

(** [os.path.abspath(os.path.expanduser(path))] and the netCDF reader
    (the store and its entry point, with the decoding options passed
    through) are what the plugin is given. *)
Variable abspath_expanduser : string -> string.
Variable decode_options : Type.
Variable open_store : string -> decode_options -> result Dataset.

Definition _normalize_path (path : string) : string :=
  if negb (is_remote_uri path) then abspath_expanduser path else path.

(** [dataset.set_coords(names)] *)
Definition set_coords (names : gset string) (ds : Dataset) : Dataset :=
  {| variables := variables ds;
     coord_names := coord_names ds ∪ names;
     sizes := sizes ds;
     ds_attrs := ds_attrs ds |}.

(** the names [for coord in dataset.coords] goes through *)
Definition coords_of (ds : Dataset) : list string :=
  filter (fun name => is_Some (variables ds !! name)) (elements (coord_names ds)).

Definition size_of (ds : Dataset) (d : string) : nat := default 0%nat (sizes ds !! d).

(** The body of the [try]: the strings of a 1-D array of bytes are
    decoded and parsed, and the result is assigned to [.data].  Whatever
    else the variable holds makes one of the calls raise: [tolist()] of
    another dtype or rank gives elements without [decode], and xarray
    refuses to assign to the data of a dimension coordinate. *)
Definition is_ascii (s : string) : bool :=
  forallb (fun c => (nat_of_ascii c <? 128)%nat) (list_ascii_of_string s).

Definition decode_utf8 (b : string) : result string :=
  if is_ascii b then Ok b else Raise (ValueError "invalid or non-ASCII utf-8").

Fixpoint decode_all (l : list string) : result (list string) :=
  match l with
  | [] => Ok []
  | b :: l' =>
      let? s := decode_utf8 b in
      let? ss := decode_all l' in
      Ok (s :: ss)
  end.

Definition tolist1 {A} (n : nat) (f : list nat -> A) : list A :=
  map (fun i => f [i]) (seq 0 n).

Definition parse_time_coord (ds : Dataset) (coord : string) (v : XVariable)
    : result XVariable :=
  match var_elems v, var_dims v with
  | PBytes f, [d] =>
      let? strings := decode_all (tolist1 (size_of ds d) f) in
      match Strptime.to_datetime strings with
      | Some ts =>
          if bool_decide (d = coord) then
            Raise (ValueError "Cannot assign to the .data attribute of dimension coordinate")
          else
            Ok {| var_dims := var_dims v;
                  var_elems := PTime (fun idx => nth (hd 0%nat idx) ts Strptime.NaT);
                  var_attrs := var_attrs v;
                  var_encoding := var_encoding v |}
      | None => Raise (ValueError "time data does not match format")
      end
  | _, _ => Raise (AttributeError "decode")
  end.

(** [dataset.assign_coords({coord: (dims[1:], data[0, ...])})] *)
Definition drop_leading (coord : string) (v : XVariable) (ds : Dataset)
    : result Dataset :=
  let? v0 := take_first ds v in
  if index_conflict coord (var_dims v0) then Raise dimension_error else
  Ok {| variables :=
          <[coord := {| var_dims := var_dims v0; var_elems := var_elems v0;
                        var_attrs := ∅; var_encoding := ∅ |}]> (variables ds);
        coord_names := {[coord]} ∪ coord_names ds;
        sizes := sizes ds;
        ds_attrs := ds_attrs ds |}.

Definition restore_meta (attrs encoding : gmap string attrval) (v : XVariable)
    : XVariable :=
  {| var_dims := var_dims v; var_elems := var_elems v;
     var_attrs := attrs; var_encoding := encoding |}.

(** One turn of the loop over the coordinates (which are variables of the
    dataset): the dataset and the warnings emitted so far. *)
Definition fix_coord (coord : string) (st : Dataset * list string)
    : result (Dataset * list string) :=
  let '(dataset, warnings) := st in
  match variables dataset !! coord with
  | None => Raise (KeyError coord)
  | Some v =>
      let attrs := var_attrs v in
      let encoding := var_encoding v in
      let? st' :=
        if bool_decide (coord ∈ _TIME_COORD_VARS) then
          match parse_time_coord dataset coord v with
          | Ok v' => Ok (with_variables dataset (<[coord := v']> (variables dataset)), warnings)
          | Raise _ =>
              Ok (dataset,
                  (warnings ++ [("Failed to parse time coordinate: " ++ coord)%string])%list)
          end
        else if bool_decide (coord ∈ (_LON_COORDS ++ _LAT_COORDS)%list) && Nat.eqb (var_ndim v) 3 then
          let? ds' := drop_leading coord v dataset in Ok (ds', warnings)
        else if bool_decide (coord ∈ _VERTICAL_COORDS) && Nat.eqb (var_ndim v) 2 then
          let? ds' := drop_leading coord v dataset in Ok (ds', warnings)
        else Ok (dataset, warnings) in
      let '(dataset, warnings) := st' in
      match variables dataset !! coord with
      | None => Raise (KeyError coord)
      | Some v' =>
          Ok (with_variables dataset
                (<[coord := restore_meta attrs encoding v']> (variables dataset)),
              warnings)
      end
  end.

(** The loop: the warnings emitted, and the dataset it ends with unless
    a turn raises. *)
Fixpoint fix_coords (coords : list string) (st : Dataset * list string)
    : list string * result Dataset :=
  match coords with
  | [] => (snd st, Ok (fst st))
  | coord :: rest =>
      match fix_coord coord st with
      | Ok st' => fix_coords rest st'
      | Raise e => (snd st, Raise e)
      end
  end.

(** The conditional promotion of a coordinate to the dimension coordinate
    of [dim], and the three of them at the end of [fixup_coords]. *)
Definition promote (name dim : string) (ds : Dataset) : Dataset :=
  match variables ds !! name with
  | Some v =>
      if in_coords name ds && in_dims dim ds && Nat.eqb (var_ndim v) 1
      then ds_delete name (ds_insert dim v ds)
      else ds
  | None => ds
  end.

Definition promote_dimension_coords (ds : Dataset) : Dataset :=
  promote "XTIME" "Time" (promote "ZNW" "bottom_top_stag" (promote "ZNU" "bottom_top" ds)).

(** [fixup_coords(dataset)]: the warnings emitted and the outcome. *)
Definition fixup_coords (dataset : Dataset) : list string * result Dataset :=
  (* Promote coordinate-like data variables to coordinates *)
  let coords := dom (variables dataset) ∩ _ALL_COORDS in
  let dataset := set_coords coords dataset in
  (* Fix time coords and reduce time in lat/lon and vertical coords *)
  match fix_coords (coords_of dataset) (dataset, []) with
  | (warnings, Raise e) => (warnings, Raise e)
  | (warnings, Ok dataset) =>
      (* Handle horizontal projection coordinates *)
      match add_horizontal_projection_coordinates dataset with
      | (_, Raise e) => (warnings, Raise e)
      | (dataset, Ok _) =>
          (* Clean up vertical and time coordinates if able *)
          (warnings, Ok (promote_dimension_coords dataset))
      end
  end.

(** What [open_dataset] hands back to its caller. *)
Inductive returned : Type :=
  | RetDataset (ds : Dataset)
  | RetException (e : exn).

Definition open_dataset (filename_or_obj : string) (options : decode_options)
    (destagger drop_diagnostic_origin_components : bool)
    : list string * result returned :=
  let filename_or_obj := _normalize_path filename_or_obj in
  match open_store filename_or_obj options with
  | Raise e => ([], Raise e)
  | Ok dataset =>
      match calc_base_diagnostics drop_diagnostic_origin_components dataset with
      | (_, Raise e) => ([], Raise e)
      | (dataset, Ok _) =>
          if destagger then
            ([], Ok (RetException
                       (NotImplementedError "Automatic destaggering not yet implemented")))
          else
            match fixup_coords dataset with
            | (warnings, Ok ds) => (warnings, Ok (RetDataset ds))
            | (warnings, Raise e) => (warnings, Raise e)
            end
      end
  end.

(** ** Vocabulary of the statements *)

Definition diagnostic_inputs : list string := ["T"; "P"; "PB"; "PH"; "PHB"].

Definition derived_fields : list string :=
  ["air_potential_temperature"; "air_pressure"; "geopotential"; "geopotential_height"].

(** the element of a numeric variable at an index *)
Definition elem_at (v : XVariable) (idx : list nat) : option num :=
  match var_elems v with
  | PNum f => Some (f idx)
  | _ => None
  end.

(** No dimension of the dataset bears the name of an input or of a
    derived field (the dimensions of a WRF file are [Time], [bottom_top],
    [south_north], [west_east] and the like). *)
Definition no_reserved_dims (ds : Dataset) : Prop :=
  forall name, name ∈ (diagnostic_inputs ++ derived_fields)%list -> in_dims name ds = false.

(** No dimension of the dataset bears the name of a derived field. *)
Definition no_derived_dims (ds : Dataset) : Prop :=
  forall name, name ∈ derived_fields -> in_dims name ds = false.

(** the first of the five inputs that the dataset lacks *)
Definition first_missing (ds : Dataset) : option string :=
  List.find (fun name => bool_decide (variables ds !! name = None)) diagnostic_inputs.

Definition inputs_numeric (ds : Dataset) : Prop :=
  forall name v, name ∈ diagnostic_inputs ->
    variables ds !! name = Some v -> is_numeric v = true.

(** The dataset object after each block of [calc_base_diagnostics] has
    run to its end. *)
Definition after_potential_temperature (drop : bool) (theta : XVariable)
    (ds : Dataset) : Dataset :=
  let ds1 := ds_insert "air_potential_temperature"
               (set_var_attrs potential_temperature_attrs theta) ds in
  if drop then ds_delete "T" ds1 else ds1.

Definition after_pressure (drop : bool) (p pres : XVariable) (ds : Dataset) : Dataset :=
  let ds1 := ds_insert "air_pressure"
               (set_var_attrs (pressure_attrs (attrs_get (var_attrs p) "units" (AStr "Pa"))) pres)
               ds in
  if drop then ds_delete "PB" (ds_delete "P" ds1) else ds1.

Definition after_geopotential (drop : bool) (geo z : XVariable) (ds : Dataset) : Dataset :=
  let ds1 := ds_insert "geopotential" (set_var_attrs geopotential_attrs geo) ds in
  let ds2 := ds_insert "geopotential_height"
               (set_var_attrs geopotential_height_attrs z) ds1 in
  if drop then ds_delete "PHB" (ds_delete "PH" ds2) else ds2.

Definition after_diagnostics (drop : bool) (p theta pres geo z : XVariable)
    (ds : Dataset) : Dataset :=
  after_geopotential drop geo z
    (after_pressure drop p pres (after_potential_temperature drop theta ds)).

(** The diagnostics raise nothing but these. *)
Definition diagnostics_error (e : exn) : Prop :=
  (exists key, e = KeyError key) \/ (exists msg, e = TypeError msg) \/
  e = dimension_error.

(** [c] raises nothing but exceptions of [P], in whatever state it runs. *)
Definition raises_only {A} (P : exn -> Prop) (c : M A) : Prop :=
  forall ds ds' e, c ds = (ds', Raise e) -> P e.

(** The keys of the dict that [_wrf_grid_from_dataset] returns, in order. *)
Definition grid_keys : list string :=
  ["crs"; "south_north"; "west_east"; "south_north_stag"; "west_east_stag"].

Definition tuple_error : exn :=
  ValueError "Could not convert tuple of form (dims, data[, attrs, encoding]) to Variable.".

Definition destagger_error : exn :=
  NotImplementedError "Automatic destaggering not yet implemented".

Definition parse_warning (coord : string) : string :=
  "Failed to parse time coordinate: " ++ coord.

(** the variable that holds the decoded times [ts] in place of [v] *)
Definition decoded (v : XVariable) (ts : list Z) : XVariable :=
  {| var_dims := var_dims v;
     var_elems := PTime (fun idx => nth (hd 0%nat idx) ts Strptime.NaT);
     var_attrs := var_attrs v;
     var_encoding := var_encoding v |}.

(** the condition under which [promote] acts *)
Definition promotable (name dim : string) (ds : Dataset) : bool :=
  match variables ds !! name with
  | Some v => in_coords name ds && in_dims dim ds && Nat.eqb (var_ndim v) 1
  | None => false
  end.

End Model.

(** * Example datasets

    A small file of a normal WRF run (Lambert, 10 by 8 cells of 3 km) on
    exact rationals, with a stand-in for [pyproj]: a CRS is its arguments
    and the centre of the grid is the origin of the projection. *)

Module Examples.

Abbreviation crs := (gmap string (@attrval Q)).
Abbreviation variable := (@XVariable Q crs).
Abbreviation dataset := (@Dataset Q crs).

Definition pyproj_CRS (pargs : gmap string (@attrval Q)) : result crs := Ok pargs.

Definition crs_to_cf (c : crs) : gmap string (@attrval Q) := c.

Definition pyproj_transform (c : crs) (lon lat : Q) : result (Q * Q) := Ok (0, 0)%Q.

Definition dataarray_add_ndarray (x0 : variable) (arr : list Q) : result (@pyval Q crs) :=
  Raise (ValueError "operands could not be broadcast together").

Definition constant (dims : list string) (x : Q) : variable :=
  {| var_dims := dims; var_elems := PNum (fun _ => x);
     var_attrs := {["units" := AStr "1"]}; var_encoding := ∅ |}.

Definition mass_dims : list string := ["Time"; "bottom_top"; "south_north"; "west_east"].

Definition stag_dims : list string := ["Time"; "bottom_top_stag"; "south_north"; "west_east"].

Definition var_T : variable := constant mass_dims 5.
Definition var_P : variable := constant mass_dims 120.
Definition var_PB : variable := constant mass_dims 90000.
Definition var_PH : variable := constant stag_dims 40.
Definition var_PHB : variable := constant stag_dims 9810.
Definition var_HGT : variable := constant ["Time"; "south_north"; "west_east"] 1200.

Definition stamps (l : list string) (idx : list nat) : string :=
  nth (hd 0%nat idx) l "".

Definition times_of (dim : string) (l : list string) : variable :=
  {| var_dims := [dim]; var_elems := PBytes (stamps l);
     var_attrs := ∅; var_encoding := ∅ |}.

Definition two_stamps : list string := ["2020-01-01_00:00:00"; "2020-01-01_01:00:00"].

Definition var_Times : variable := times_of "Time" two_stamps.

Definition var_ZNU : variable :=
  {| var_dims := ["bottom_top"]; var_elems := PNum (fun _ => (1 # 2)%Q);
     var_attrs := ∅; var_encoding := ∅ |}.

Definition wrf_attrs : gmap string (@attrval Q) :=
  list_to_map
    [("CEN_LON", ANum 10%Q); ("CEN_LAT", ANum 50%Q);
     ("DX", ANum 3000%Q); ("DY", ANum 3000%Q);
     ("TRUELAT1", ANum 30%Q); ("TRUELAT2", ANum 60%Q);
     ("MOAD_CEN_LAT", ANum 50%Q); ("STAND_LON", ANum 10%Q);
     ("MAP_PROJ", AInt 1)].

Definition wrf_sizes : gmap string nat :=
  list_to_map
    [("Time", 2%nat); ("bottom_top", 3%nat); ("bottom_top_stag", 4%nat);
     ("south_north", 8%nat); ("west_east", 10%nat)].

Definition wrfout : dataset :=
  {| variables :=
       list_to_map
         [("T", var_T); ("P", var_P); ("PB", var_PB); ("PH", var_PH);
          ("PHB", var_PHB); ("HGT", var_HGT); ("Times", var_Times);
          ("ZNU", var_ZNU)];
     coord_names := {["Times"; "ZNU"]};
     sizes := wrf_sizes;
     ds_attrs := wrf_attrs |}.

(** the same file written without the geopotential *)
Definition wrfout_no_geopotential : dataset :=
  ds_delete "PHB" (ds_delete "PH" wrfout).

(** a dataset whose time axis is a dimension coordinate of byte strings *)
Definition time_indexed : dataset :=
  {| variables := {["Time" := times_of "Time" two_stamps]};
     coord_names := {["Time"]};
     sizes := {["Time" := 2%nat]};
     ds_attrs := ∅ |}.

(** a time coordinate with a string that is no time stamp *)
Definition var_bad_Times : variable :=
  times_of "Time" ["2020-01-01_00:00:00"; "not-a-date"].

Definition wrfout_bad_times : dataset :=
  with_variables wrfout (<["Times" := var_bad_Times]> (variables wrfout)).

(** the reader of the examples: one file *)
Definition abspath_expanduser (path : string) : string := path.

Definition open_store (path : string) (options : unit) : result dataset :=
  if String.eqb path "/data/wrfout_d01" then Ok wrfout
  else Raise (ValueError "no such file").

Definition grid_of (ds : dataset) : result (list (string * @pyval Q crs)) :=
  _wrf_grid_from_dataset pyproj_CRS pyproj_transform dataarray_add_ndarray ds.

Definition add_coords : M unit :=
  add_horizontal_projection_coordinates pyproj_CRS crs_to_cf pyproj_transform
    dataarray_add_ndarray.

Definition open_wrf (path : string) (destagger drop : bool)
    : list string * result (@returned Q crs) :=
  open_dataset pyproj_CRS crs_to_cf pyproj_transform dataarray_add_ndarray
    abspath_expanduser unit open_store path tt destagger drop.

(** the grid of [wrfout], computed *)
Definition wrfout_grid : list (string * @pyval Q crs) :=
  Eval vm_compute in match grid_of wrfout with Ok g => g | Raise _ => [] end.

(** a dataset whose level coordinate is ready to be promoted *)
Definition levels : dataset :=
  {| variables := {["ZNU" := var_ZNU]};
     coord_names := {["ZNU"]};
     sizes := {["bottom_top" := 3%nat]};
     ds_attrs := ∅ |}.

End Examples.

(** ** More vocabulary *)

Section MoreVocabulary.

Context {num : Type} `{PyNum num} {CRS : Type}.

(** The global attributes that [_wrf_grid_from_dataset] reads from a
    normal WRF file and from a HAR file, in the order of reading. *)
Definition normal_attributes : list string :=
  ["CEN_LON"; "CEN_LAT"; "DX"; "DY"; "TRUELAT1"; "TRUELAT2"; "MOAD_CEN_LAT";
   "STAND_LON"; "MAP_PROJ"].

Definition har_attributes : list string :=
  ["GRID_DX"; "GRID_DY"; "PROJ_STANDARD_PAR1"; "PROJ_STANDARD_PAR2";
   "PROJ_CENTRAL_LAT"; "PROJ_CENTRAL_LON"; "PROJ_NAME"].

(** the first of [names] that is no global attribute of the dataset *)
Definition first_absent (ds : @Dataset num CRS) (names : list string) : option string :=
  List.find (fun name => negb (hasattr ds name)) names.

Definition lambert_names : list string :=
  ["Lambert Conformal Conic"; "WRF Lambert Conformal"].

Definition unsupported_projection : exn :=
  NotImplementedError "WRF proj not implemented yet".

Definition scalar_sum_error : exn :=
  ValueError
    "dimensions () must have the same length as the number of data dimensions, ndim=1".

(** [[a-z][a-z0-9]*], the whole string *)
Definition is_scheme (s : string) : bool :=
  match s with
  | String c rest => is_lower c && forallb is_lower_or_digit (list_ascii_of_string rest)
  | EmptyString => false
  end.

(** The coordinates of which the loop of [fixup_coords] keeps the first
    time step only: a latitude or longitude of three dimensions, a
    vertical coordinate of two. *)
Definition reduces (coord : string) (v : @XVariable num CRS) : Prop :=
  (coord ∈ (_LON_COORDS ++ _LAT_COORDS)%list /\ var_ndim v = 3%nat) \/
  (coord ∈ _VERTICAL_COORDS /\ var_ndim v = 2%nat).

(** [v[0]] with the dimensions [rest] that follow the leading one *)
Definition first_step (v : @XVariable num CRS) (rest : list string) : @XVariable num CRS :=
  {| var_dims := rest;
     var_elems := payload_reindex (cons 0%nat) (var_elems v);
     var_attrs := var_attrs v;
     var_encoding := var_encoding v |}.

Definition empty_axis_error : exn :=
  IndexError "index 0 is out of bounds for axis 0 with size 0".

End MoreVocabulary.
(** * More example datasets *)

Module Cases.

Import Examples.

(** the file of [wrfout] written without its grid spacing in x *)
Definition wrfout_no_dx : dataset :=
  {| variables := variables wrfout; coord_names := coord_names wrfout;
     sizes := sizes wrfout; ds_attrs := delete "DX" wrf_attrs |}.

(** a HAR file: Lambert, 10 by 8 cells of 10 km, with its two axes as
    dimension coordinates *)
Definition har_attrs : gmap string (@attrval Q) :=
  list_to_map
    [("PROJ_ENVI_STRING", AStr "{9, 6370000.0, 6370000.0, 30.0, 87.0}");
     ("GRID_DX", ANum 10000%Q); ("GRID_DY", ANum 10000%Q);
     ("PROJ_STANDARD_PAR1", ANum 30%Q); ("PROJ_STANDARD_PAR2", ANum 35%Q);
     ("PROJ_CENTRAL_LAT", ANum 30%Q); ("PROJ_CENTRAL_LON", ANum 87%Q);
     ("PROJ_NAME", AStr "Lambert Conformal Conic")].

Definition har_axis (name : string) : variable :=
  {| var_dims := [name];
     var_elems := PNum (fun idx => (inject_Z (Z.of_nat (hd 0%nat idx)) * 10000)%Q);
     var_attrs := ∅; var_encoding := ∅ |}.

Definition har_file : dataset :=
  {| variables :=
       list_to_map
         [("west_east", har_axis "west_east"); ("south_north", har_axis "south_north");
          ("t2", constant ["time"; "south_north"; "west_east"] 280)];
     coord_names := {["west_east"; "south_north"]};
     sizes := list_to_map [("time", 1%nat); ("south_north", 8%nat); ("west_east", 10%nat)];
     ds_attrs := har_attrs |}.

(** a file whose latitude has the time dimension *)
Definition var_XLAT : variable :=
  {| var_dims := ["Time"; "south_north"; "west_east"];
     var_elems := PNum (fun idx => inject_Z (Z.of_nat (nth 1 idx 0%nat)));
     var_attrs := {["units" := AStr "degree_north"]};
     var_encoding := {["dtype" := AStr "float32"]} |}.

Definition with_latitude : dataset :=
  {| variables := <["XLAT" := var_XLAT]> (variables wrfout);
     coord_names := {["XLAT"]} ∪ coord_names wrfout;
     sizes := sizes wrfout; ds_attrs := ds_attrs wrfout |}.

(** the same file with no time step in it *)
Definition no_time_steps : dataset :=
  {| variables := variables with_latitude; coord_names := coord_names with_latitude;
     sizes := <["Time" := 0%nat]> (sizes wrfout); ds_attrs := ds_attrs wrfout |}.

(** a file with the attributes of [wrfout] and no horizontal dimension *)
Definition no_horizontal : dataset :=
  {| variables := {["ZNU" := var_ZNU]};
     coord_names := {["ZNU"]};
     sizes := {["bottom_top" := 3%nat]};
     ds_attrs := wrf_attrs |}.

(** a file whose [XTIME] holds numbers (minutes since the start) *)
Definition var_XTIME : variable :=
  {| var_dims := ["Time"];
     var_elems := PNum (fun idx => (inject_Z (Z.of_nat (hd 0%nat idx)) * 60)%Q);
     var_attrs := {["units" := AStr "minutes"]}; var_encoding := ∅ |}.

Definition with_minutes : dataset :=
  {| variables := <["XTIME" := var_XTIME]> (variables wrfout);
     coord_names := {["XTIME"]} ∪ coord_names wrfout;
     sizes := sizes wrfout; ds_attrs := ds_attrs wrfout |}.

(** the dataset the loop over the coordinates of [wrfout] ends with *)
Definition wrfout_looped : dataset :=
  Eval vm_compute in
    match fix_coords ["Times"; "ZNU"] (wrfout, []) with
    | (_, Ok ds) => ds
    | (_, Raise _) => wrfout
    end.

(** a reader that finds the file without the geopotential *)
Definition open_partial (path : string) (options : unit) : result dataset :=
  Ok wrfout_no_geopotential.

End Cases.
(** * Properties of the diagnostics *)

Section DiagnosticsProperties.

Context {num : Type} `{PyNum num} {CRS : Type}.
Implicit Types (ds : @Dataset num CRS).
Implicit Types (v t p pb ph phb theta pres geo z : @XVariable num CRS).

(** ** Running the monad *)

Lemma bind_ok {A B} (c : M A) (k : A -> M B) ds ds' a :
  c ds = (ds', Ok a) -> mbind' c k ds = k a ds'.
Proof. intros Hc. unfold mbind'. now rewrite Hc. Qed.

Lemma bind_raise {A B} (c : M A) (k : A -> M B) ds ds' e :
  c ds = (ds', Raise e) -> mbind' c k ds = (ds', Raise e).
Proof. intros Hc. unfold mbind'. now rewrite Hc. Qed.

Lemma raise_here {A B} (c : M A) (k : A -> M B) ds ds' e r :
  c ds = (ds', Raise e) -> r = (ds', Raise e) -> mbind' c k ds = r.
Proof. intros Hc ->. now apply bind_raise. Qed.

Lemma getitem_ok name ds v :
  variables ds !! name = Some v -> getitem name ds = (ds, Ok v).
Proof. intros Hv. unfold getitem, item. now rewrite Hv. Qed.

Lemma getitem_missing name ds :
  variables ds !! name = None -> in_dims name ds = false ->
  getitem name ds = (ds, Raise (KeyError name)).
Proof. intros Hv Hd. unfold getitem, item. now rewrite Hv, Hd. Qed.

Lemma setitem_ok name v ds :
  index_conflict name (var_dims v) = false ->
  setitem name v ds = (ds_insert name v ds, Ok tt).
Proof. intros Hc. unfold setitem. now rewrite Hc. Qed.

Lemma setattrs_ok name attrs ds v :
  variables ds !! name = Some v ->
  setattrs name attrs ds =
    (with_variables ds (<[name := set_var_attrs attrs v]> (variables ds)), Ok tt).
Proof. intros Hv. unfold setattrs. now rewrite Hv. Qed.

Lemma delitem_ok name ds v :
  variables ds !! name = Some v -> delitem name ds = (ds_delete name ds, Ok tt).
Proof. intros Hv. unfold delitem. now rewrite Hv. Qed.

Lemma checked_ok name ds v :
  variables ds !! name = Some v -> checked name ds = (ds, Ok true).
Proof.
  intros Hv. unfold checked.
  erewrite bind_ok by (apply getitem_ok; eassumption). reflexivity.
Qed.

Lemma checked_missing name ds :
  variables ds !! name = None -> in_dims name ds = false ->
  checked name ds = (ds, Raise (KeyError name)).
Proof.
  intros Hv Hd. unfold checked.
  erewrite bind_raise by (apply getitem_missing; eassumption). reflexivity.
Qed.

Lemma checked_both_ok a b ds va vb :
  variables ds !! a = Some va -> variables ds !! b = Some vb ->
  py_and (checked a) (checked b) ds = (ds, Ok true).
Proof.
  intros Ha Hb. unfold py_and.
  erewrite bind_ok by (eapply checked_ok; eassumption).
  eapply checked_ok; eassumption.
Qed.

Lemma py_and_first_missing a b ds :
  variables ds !! a = None -> in_dims a ds = false ->
  py_and (checked a) (checked b) ds = (ds, Raise (KeyError a)).
Proof.
  intros Ha Hd. unfold py_and.
  eapply raise_here; [now apply checked_missing | reflexivity].
Qed.

Lemma py_and_second_missing a b ds va :
  variables ds !! a = Some va -> variables ds !! b = None -> in_dims b ds = false ->
  py_and (checked a) (checked b) ds = (ds, Raise (KeyError b)).
Proof.
  intros Ha Hb Hd. unfold py_and. erewrite bind_ok by (eapply checked_ok; eassumption).
  now apply checked_missing.
Qed.

Lemma insert_then_setattrs name attrs v ds :
  with_variables (ds_insert name v ds)
    (<[name := set_var_attrs attrs v]> (variables (ds_insert name v ds)))
  = ds_insert name (set_var_attrs attrs v) ds.
Proof.
  unfold with_variables, ds_insert. cbn. f_equal. apply insert_insert_eq.
Qed.

Ltac ds_simpl :=
  cbn [variables coord_names ds_attrs sizes ds_insert ds_delete with_variables].

Ltac ds_lookup := ds_simpl; simplify_map_eq; reflexivity.

Ltac exec :=
  lazymatch goal with
  | |- mbind' (getitem _) _ _ = _ =>
      erewrite bind_ok; [| apply getitem_ok; ds_lookup]
  | |- mbind' (setitem _ _) _ _ = _ =>
      erewrite bind_ok; [| apply setitem_ok; eassumption]
  | |- mbind' (setattrs _ _) _ _ = _ =>
      erewrite bind_ok; [| eapply setattrs_ok; ds_lookup]
  | |- mbind' (delitem _) _ _ = _ =>
      erewrite bind_ok; [| eapply delitem_ok; ds_lookup]
  | |- mbind' (mlift _) _ _ = _ =>
      erewrite bind_ok; [| unfold mlift; apply f_equal; eassumption]
  | |- mbind' (checked _) _ _ = _ =>
      erewrite bind_ok; [| eapply checked_ok; ds_lookup]
  | |- mbind' (py_and _ _) _ _ = _ =>
      erewrite bind_ok; [| eapply checked_both_ok; ds_lookup]
  | |- delitem _ _ = _ => eapply delitem_ok; ds_lookup
  | |- setattrs _ _ _ = _ => eapply setattrs_ok; ds_lookup
  | |- mret _ _ = _ => reflexivity
  end.

(** ** Dimensions *)

Lemma in_dims_inv d ds :
  in_dims d ds = true <-> exists name v, variables ds !! name = Some v /\ d ∈ var_dims v.
Proof.
  unfold in_dims. rewrite bool_decide_eq_true. apply map_Exists_lookup.
Qed.

Lemma not_dim_of_variable ds name v d :
  variables ds !! name = Some v -> in_dims d ds = false -> d ∉ var_dims v.
Proof.
  intros Hv Hd Hin. assert (in_dims d ds = true) as Ht; [|congruence].
  apply in_dims_inv. eauto.
Qed.

Lemma in_dims_ds_insert d name v ds :
  in_dims d (ds_insert name v ds) = true -> d ∈ var_dims v \/ in_dims d ds = true.
Proof.
  rewrite !in_dims_inv. intros (n & w & Hw & Hin). cbn [variables ds_insert] in Hw.
  apply lookup_insert_Some in Hw as [[_ <-]|[_ Hw]]; eauto.
Qed.

Lemma in_dims_ds_delete d name ds :
  in_dims d (ds_delete name ds) = true -> in_dims d ds = true.
Proof.
  rewrite !in_dims_inv. intros (n & w & Hw & Hin). cbn [variables ds_delete] in Hw.
  apply lookup_delete_Some in Hw as [_ Hw]. eauto.
Qed.

Lemma no_index_conflict name dims :
  name ∉ dims -> index_conflict name dims = false.
Proof. intros Hn. unfold index_conflict. now rewrite bool_decide_eq_false_2. Qed.

Lemma var_scalar_op_dims (f : num -> num -> num) (a r : @XVariable num CRS) c :
  var_scalar_op f a c = Ok r -> var_dims r = var_dims a.
Proof. unfold var_scalar_op. destruct (var_elems a); now intros [= <-]. Qed.

Lemma var_binop_dims (f : num -> num -> num) (a b r : @XVariable num CRS) d :
  var_binop f a b = Ok r -> d ∈ var_dims r -> d ∈ var_dims a \/ d ∈ var_dims b.
Proof.
  unfold var_binop. destruct (var_elems a); try discriminate.
  destruct (var_elems b); try discriminate. intros [= <-]. cbn. unfold broadcast_dims.
  rewrite elem_of_app, list_elem_of_filter. tauto.
Qed.

(** ** The three blocks *)

Lemma calc_potential_temperature_ok drop ds t theta :
  variables ds !! "T" = Some t ->
  var_scalar_op num_add t (num_of_Z 300) = Ok theta ->
  index_conflict "air_potential_temperature" (var_dims theta) = false ->
  calc_potential_temperature drop ds = (after_potential_temperature drop theta ds, Ok tt).
Proof.
  intros HT Htheta Hc. unfold calc_potential_temperature, after_potential_temperature.
  exec. unfold when at 1.
  repeat exec.
  rewrite (insert_then_setattrs "air_potential_temperature" potential_temperature_attrs theta ds).
  destruct drop; unfold when; [eapply delitem_ok; ds_lookup | reflexivity].
Qed.

Lemma calc_pressure_ok drop ds p pb pres :
  variables ds !! "P" = Some p ->
  variables ds !! "PB" = Some pb ->
  var_binop num_add p pb = Ok pres ->
  index_conflict "air_pressure" (var_dims pres) = false ->
  calc_pressure drop ds = (after_pressure drop p pres ds, Ok tt).
Proof.
  intros HP HPB Hpres Hc. unfold calc_pressure, after_pressure.
  exec. unfold when at 1.
  repeat exec.
  rewrite (insert_then_setattrs "air_pressure"
             (pressure_attrs (attrs_get (var_attrs p) "units" (AStr "Pa"))) pres ds).
  destruct drop; unfold when; [| reflexivity].
  repeat exec.
Qed.

Lemma calc_geopotential_ok drop ds ph phb geo z :
  variables ds !! "PH" = Some ph ->
  variables ds !! "PHB" = Some phb ->
  var_binop num_add ph phb = Ok geo ->
  var_scalar_op num_div (set_var_attrs geopotential_attrs geo) (num_lit (981 # 100)) = Ok z ->
  index_conflict "geopotential" (var_dims geo) = false ->
  index_conflict "geopotential_height" (var_dims z) = false ->
  calc_geopotential drop ds = (after_geopotential drop geo z ds, Ok tt).
Proof.
  intros HPH HPHB Hgeo Hz Hc1 Hc2. unfold calc_geopotential, after_geopotential.
  exec. unfold when at 1.
  do 5 exec.
  rewrite (insert_then_setattrs "geopotential" geopotential_attrs geo ds).
  repeat exec.
  rewrite (insert_then_setattrs "geopotential_height" geopotential_height_attrs z).
  destruct drop; unfold when; [| reflexivity].
  repeat exec.
Qed.

(** ** The dataset between the blocks *)

Lemma after_potential_temperature_lookup drop theta ds name :
  name <> "T" -> name <> "air_potential_temperature" ->
  variables (after_potential_temperature drop theta ds) !! name = variables ds !! name.
Proof.
  intros. unfold after_potential_temperature. destruct drop; ds_lookup.
Qed.

Lemma after_pressure_lookup drop p pres ds name :
  name <> "P" -> name <> "PB" -> name <> "air_pressure" ->
  variables (after_pressure drop p pres ds) !! name = variables ds !! name.
Proof.
  intros. unfold after_pressure. destruct drop; ds_lookup.
Qed.

Lemma in_dims_after_potential_temperature drop ds t theta d :
  variables ds !! "T" = Some t ->
  var_scalar_op num_add t (num_of_Z 300) = Ok theta ->
  in_dims d ds = false ->
  in_dims d (after_potential_temperature drop theta ds) = false.
Proof.
  intros HT Hth Hd.
  destruct (in_dims d (after_potential_temperature drop theta ds)) eqn:Hin; [|reflexivity].
  exfalso. unfold after_potential_temperature in Hin.
  assert (in_dims d (ds_insert "air_potential_temperature"
                       (set_var_attrs potential_temperature_attrs theta) ds) = true) as Hins.
  { destruct drop; [now apply in_dims_ds_delete in Hin | exact Hin]. }
  apply in_dims_ds_insert in Hins as [Hins|Hins]; [|congruence].
  cbn in Hins. rewrite (var_scalar_op_dims _ _ _ _ Hth) in Hins.
  now apply (not_dim_of_variable ds "T" t d).
Qed.

Lemma in_dims_after_pressure drop ds p pb pres d :
  variables ds !! "P" = Some p ->
  variables ds !! "PB" = Some pb ->
  var_binop num_add p pb = Ok pres ->
  in_dims d ds = false ->
  in_dims d (after_pressure drop p pres ds) = false.
Proof.
  intros HP HPB Hpres Hd.
  destruct (in_dims d (after_pressure drop p pres ds)) eqn:Hin; [|reflexivity].
  exfalso. unfold after_pressure in Hin.
  assert (in_dims d (ds_insert "air_pressure"
            (set_var_attrs (pressure_attrs (attrs_get (var_attrs p) "units" (AStr "Pa"))) pres)
            ds) = true) as Hins.
  { destruct drop; [do 2 apply in_dims_ds_delete in Hin|]; exact Hin. }
  apply in_dims_ds_insert in Hins as [Hins|Hins]; [|congruence].
  cbn in Hins. apply (var_binop_dims _ _ _ _ _ Hpres) in Hins as [Hins|Hins].
  - now apply (not_dim_of_variable ds "P" p d).
  - now apply (not_dim_of_variable ds "PB" pb d).
Qed.

Lemma reserved_input name : name ∈ diagnostic_inputs ->
  name ∈ (diagnostic_inputs ++ derived_fields)%list.
Proof. intros Hn. apply elem_of_app. now left. Qed.

Lemma reserved_derived name : name ∈ derived_fields ->
  name ∈ (diagnostic_inputs ++ derived_fields)%list.
Proof. intros Hn. apply elem_of_app. now right. Qed.

Lemma in_list (name : string) (l : list string) :
  bool_decide (name ∈ l) = true -> name ∈ l.
Proof. apply bool_decide_eq_true_1. Qed.

Ltac derived := apply in_list; reflexivity.

Ltac reserved :=
  first [ apply reserved_input; apply in_list; reflexivity
        | apply reserved_derived; apply in_list; reflexivity ].

Lemma no_reserved_dims_after_potential_temperature drop ds t theta :
  variables ds !! "T" = Some t ->
  var_scalar_op num_add t (num_of_Z 300) = Ok theta ->
  no_reserved_dims ds ->
  no_reserved_dims (after_potential_temperature drop theta ds).
Proof.
  intros HT Hth Hno name Hname.
  eapply in_dims_after_potential_temperature; eauto.
Qed.

Lemma no_reserved_dims_after_pressure drop ds p pb pres :
  variables ds !! "P" = Some p ->
  variables ds !! "PB" = Some pb ->
  var_binop num_add p pb = Ok pres ->
  no_reserved_dims ds ->
  no_reserved_dims (after_pressure drop p pres ds).
Proof.
  intros HP HPB Hpres Hno name Hname.
  eapply in_dims_after_pressure; eauto.
Qed.

(** With no derived name among the dimensions, nothing derived is named
    as one of its dimensions. *)
Lemma theta_no_conflict ds t theta :
  no_derived_dims ds ->
  variables ds !! "T" = Some t ->
  var_scalar_op num_add t (num_of_Z 300) = Ok theta ->
  index_conflict "air_potential_temperature" (var_dims theta) = false.
Proof.
  intros Hno HT Hth. apply no_index_conflict.
  rewrite (var_scalar_op_dims _ _ _ _ Hth).
  apply (not_dim_of_variable ds "T" t); [assumption|]. apply Hno. derived.
Qed.

Lemma binop_no_conflict ds na nb (a b r : @XVariable num CRS) name :
  no_derived_dims ds ->
  name ∈ derived_fields ->
  variables ds !! na = Some a ->
  variables ds !! nb = Some b ->
  var_binop num_add a b = Ok r ->
  index_conflict name (var_dims r) = false.
Proof.
  intros Hno Hname Ha Hb Hr. apply no_index_conflict. intros Hin.
  apply (var_binop_dims _ _ _ _ _ Hr) in Hin as [Hin|Hin].
  - now apply (not_dim_of_variable ds na a name Ha (Hno name Hname)).
  - now apply (not_dim_of_variable ds nb b name Hb (Hno name Hname)).
Qed.

Lemma height_no_conflict ds ph phb geo z :
  no_derived_dims ds ->
  variables ds !! "PH" = Some ph ->
  variables ds !! "PHB" = Some phb ->
  var_binop num_add ph phb = Ok geo ->
  var_scalar_op num_div (set_var_attrs geopotential_attrs geo) (num_lit (981 # 100)) = Ok z ->
  index_conflict "geopotential_height" (var_dims z) = false.
Proof.
  intros Hno HPH HPHB Hgeo Hz. apply no_index_conflict.
  rewrite (var_scalar_op_dims _ _ _ _ Hz). cbn. intros Hin.
  apply (var_binop_dims _ _ _ _ _ Hgeo) in Hin as [Hin|Hin].
  - apply (not_dim_of_variable ds "PH" ph _ HPH) in Hin; [assumption|]. apply Hno. derived.
  - apply (not_dim_of_variable ds "PHB" phb _ HPHB) in Hin; [assumption|]. apply Hno. derived.
Qed.

(** ** Each block, case by case *)

Lemma calc_potential_temperature_cases drop ds :
  in_dims "T" ds = false -> in_dims "air_potential_temperature" ds = false ->
  calc_potential_temperature drop ds =
    match variables ds !! "T" with
    | None => (ds, Raise (KeyError "T"))
    | Some t =>
        match var_scalar_op num_add t (num_of_Z 300) with
        | Ok theta => (after_potential_temperature drop theta ds, Ok tt)
        | Raise e => (ds, Raise e)
        end
    end.
Proof.
  intros Hd Hd'. destruct (variables ds !! "T") as [t|] eqn:HT.
  - destruct (var_scalar_op num_add t (num_of_Z 300)) as [theta|e] eqn:Hth.
    + apply calc_potential_temperature_ok with t; try assumption.
      apply no_index_conflict. rewrite (var_scalar_op_dims _ _ _ _ Hth).
      now apply (not_dim_of_variable ds "T" t).
    + unfold calc_potential_temperature. exec. unfold when at 1. exec.
      eapply raise_here; [unfold mlift; rewrite Hth|]; reflexivity.
  - unfold calc_potential_temperature.
    eapply raise_here; [now apply checked_missing | reflexivity].
Qed.

Lemma calc_pressure_cases drop ds :
  in_dims "P" ds = false -> in_dims "PB" ds = false ->
  in_dims "air_pressure" ds = false ->
  calc_pressure drop ds =
    match variables ds !! "P", variables ds !! "PB" with
    | None, _ => (ds, Raise (KeyError "P"))
    | Some _, None => (ds, Raise (KeyError "PB"))
    | Some p, Some pb =>
        match var_binop num_add p pb with
        | Ok pres => (after_pressure drop p pres ds, Ok tt)
        | Raise e => (ds, Raise e)
        end
    end.
Proof.
  intros Hd1 Hd2 Hd'. destruct (variables ds !! "P") as [p|] eqn:HP.
  - destruct (variables ds !! "PB") as [pb|] eqn:HPB.
    + destruct (var_binop num_add p pb) as [pres|e] eqn:Hpres.
      * apply calc_pressure_ok with pb; try assumption.
        apply no_index_conflict. intros Hin.
        apply (var_binop_dims _ _ _ _ _ Hpres) in Hin as [Hin|Hin].
        -- now apply (not_dim_of_variable ds "P" p _ HP Hd').
        -- now apply (not_dim_of_variable ds "PB" pb _ HPB Hd').
      * unfold calc_pressure. exec. unfold when at 1. do 2 exec.
        eapply raise_here; [unfold mlift; rewrite Hpres|]; reflexivity.
    + unfold calc_pressure.
      eapply raise_here; [eapply py_and_second_missing; eassumption | reflexivity].
  - unfold calc_pressure.
    eapply raise_here; [now apply py_and_first_missing | reflexivity].
Qed.

Lemma binop_result_numeric (f g : num -> num -> num) (a b r : @XVariable num CRS) c attrs :
  var_binop f a b = Ok r ->
  exists z, var_scalar_op g (set_var_attrs attrs r) c = Ok z.
Proof.
  unfold var_binop, var_scalar_op. intros Hr.
  destruct (var_elems a); try discriminate.
  destruct (var_elems b); try discriminate.
  injection Hr as <-. cbn. eauto.
Qed.

Lemma calc_geopotential_cases drop ds :
  in_dims "PH" ds = false -> in_dims "PHB" ds = false ->
  in_dims "geopotential" ds = false -> in_dims "geopotential_height" ds = false ->
  calc_geopotential drop ds =
    match variables ds !! "PH", variables ds !! "PHB" with
    | None, _ => (ds, Raise (KeyError "PH"))
    | Some _, None => (ds, Raise (KeyError "PHB"))
    | Some ph, Some phb =>
        match var_binop num_add ph phb with
        | Ok geo =>
            match var_scalar_op num_div (set_var_attrs geopotential_attrs geo)
                    (num_lit (981 # 100)) with
            | Ok z => (after_geopotential drop geo z ds, Ok tt)
            | Raise e => (ds, Raise e)
            end
        | Raise e => (ds, Raise e)
        end
    end.
Proof.
  intros Hd1 Hd2 Hd' Hd''. destruct (variables ds !! "PH") as [ph|] eqn:HPH.
  - destruct (variables ds !! "PHB") as [phb|] eqn:HPHB.
    + destruct (var_binop num_add ph phb) as [geo|e] eqn:Hgeo.
      * destruct (binop_result_numeric num_add num_div ph phb geo
                    (num_lit (981 # 100)) geopotential_attrs Hgeo) as [z Hz].
        rewrite Hz. apply calc_geopotential_ok with ph phb; try assumption.
        -- apply no_index_conflict. intros Hin.
           apply (var_binop_dims _ _ _ _ _ Hgeo) in Hin as [Hin|Hin].
           ++ now apply (not_dim_of_variable ds "PH" ph _ HPH Hd').
           ++ now apply (not_dim_of_variable ds "PHB" phb _ HPHB Hd').
        -- apply no_index_conflict. rewrite (var_scalar_op_dims _ _ _ _ Hz). cbn.
           intros Hin. apply (var_binop_dims _ _ _ _ _ Hgeo) in Hin as [Hin|Hin].
           ++ now apply (not_dim_of_variable ds "PH" ph _ HPH Hd'').
           ++ now apply (not_dim_of_variable ds "PHB" phb _ HPHB Hd'').
      * unfold calc_geopotential. exec. unfold when at 1. do 2 exec.
        eapply raise_here; [unfold mlift; rewrite Hgeo|]; reflexivity.
    + unfold calc_geopotential.
      eapply raise_here; [eapply py_and_second_missing; eassumption | reflexivity].
  - unfold calc_geopotential.
    eapply raise_here; [now apply py_and_first_missing | reflexivity].
Qed.

Ltac after_simpl :=
  unfold after_diagnostics, after_geopotential, after_pressure,
    after_potential_temperature.

Lemma calc_base_diagnostics_ok drop ds t p pb ph phb theta pres geo z :
  variables ds !! "T" = Some t ->
  variables ds !! "P" = Some p ->
  variables ds !! "PB" = Some pb ->
  variables ds !! "PH" = Some ph ->
  variables ds !! "PHB" = Some phb ->
  var_scalar_op num_add t (num_of_Z 300) = Ok theta ->
  var_binop num_add p pb = Ok pres ->
  var_binop num_add ph phb = Ok geo ->
  var_scalar_op num_div (set_var_attrs geopotential_attrs geo) (num_lit (981 # 100)) = Ok z ->
  no_derived_dims ds ->
  calc_base_diagnostics drop ds = (after_diagnostics drop p theta pres geo z ds, Ok tt).
Proof.
  intros HT HP HPB HPH HPHB Hth Hpres Hgeo Hz Hno.
  unfold calc_base_diagnostics, after_diagnostics.
  erewrite bind_ok.
  2:{ eapply calc_potential_temperature_ok; try eassumption.
      eapply theta_no_conflict; eassumption. }
  erewrite bind_ok.
  2:{ eapply calc_pressure_ok with (pb := pb); [| | eassumption |].
      - unfold after_potential_temperature; destruct drop; ds_lookup.
      - unfold after_potential_temperature; destruct drop; ds_lookup.
      - eapply (binop_no_conflict ds "P" "PB"); try eassumption. derived. }
  eapply calc_geopotential_ok with (ph := ph) (phb := phb); try eassumption.
  - unfold after_pressure, after_potential_temperature; destruct drop; ds_lookup.
  - unfold after_pressure, after_potential_temperature; destruct drop; ds_lookup.
  - eapply (binop_no_conflict ds "PH" "PHB"); try eassumption. derived.
  - eapply height_no_conflict; eassumption.
Qed.

Lemma numeric_scalar_op (f : num -> num -> num) v c :
  is_numeric v = true -> exists r, var_scalar_op f v c = Ok r.
Proof.
  unfold is_numeric, var_scalar_op. destruct (var_elems v); try discriminate. eauto.
Qed.

Lemma numeric_binop (f : num -> num -> num) (a b : @XVariable num CRS) :
  is_numeric a = true -> is_numeric b = true -> exists r, var_binop f a b = Ok r.
Proof.
  unfold is_numeric, var_binop.
  destruct (var_elems a); try discriminate.
  destruct (var_elems b); try discriminate. eauto.
Qed.

(** On numeric inputs the call returns, in the state [after_diagnostics]. *)
Lemma calc_base_diagnostics_returns drop ds t p pb ph phb :
  variables ds !! "T" = Some t ->
  variables ds !! "P" = Some p ->
  variables ds !! "PB" = Some pb ->
  variables ds !! "PH" = Some ph ->
  variables ds !! "PHB" = Some phb ->
  is_numeric t = true -> is_numeric p = true -> is_numeric pb = true ->
  is_numeric ph = true -> is_numeric phb = true ->
  no_derived_dims ds ->
  exists theta pres geo z,
    var_scalar_op num_add t (num_of_Z 300) = Ok theta /\
    var_binop num_add p pb = Ok pres /\
    var_binop num_add ph phb = Ok geo /\
    var_scalar_op num_div (set_var_attrs geopotential_attrs geo) (num_lit (981 # 100)) = Ok z /\
    calc_base_diagnostics drop ds = (after_diagnostics drop p theta pres geo z ds, Ok tt).
Proof.
  intros HT HP HPB HPH HPHB Nt Np Npb Nph Nphb Hno.
  destruct (numeric_scalar_op num_add t (num_of_Z 300) Nt) as [theta Hth].
  destruct (numeric_binop num_add p pb Np Npb) as [pres Hpres].
  destruct (numeric_binop num_add ph phb Nph Nphb) as [geo Hgeo].
  destruct (binop_result_numeric num_add num_div ph phb geo
              (num_lit (981 # 100)) geopotential_attrs Hgeo) as [z Hz].
  exists theta, pres, geo, z. repeat split; try assumption.
  now apply calc_base_diagnostics_ok with t pb ph phb.
Qed.

Ltac names_neq :=
  repeat match goal with
  | H : _ ∉ _ :: _ |- _ => apply not_elem_of_cons in H; destruct H
  end.

(** C7.  With all five inputs there (numeric, and none of the four
    derived names naming a dimension), [drop=True] leaves none
    of the inputs in the dataset returned and [drop=False] leaves each
    with the variable it had. *)
Theorem drop_semantics ds t p pb ph phb :
  variables ds !! "T" = Some t ->
  variables ds !! "P" = Some p ->
  variables ds !! "PB" = Some pb ->
  variables ds !! "PH" = Some ph ->
  variables ds !! "PHB" = Some phb ->
  is_numeric t = true -> is_numeric p = true -> is_numeric pb = true ->
  is_numeric ph = true -> is_numeric phb = true ->
  no_derived_dims ds ->
  (exists ds', calc_base_diagnostics true ds = (ds', Ok tt) /\
     Forall (fun name => variables ds' !! name = None) diagnostic_inputs) /\
  (exists ds', calc_base_diagnostics false ds = (ds', Ok tt) /\
     Forall (fun name => variables ds' !! name = variables ds !! name) diagnostic_inputs).
Proof.
  intros HT HP HPB HPH HPHB Nt Np Npb Nph Nphb Hno. split.
  - destruct (calc_base_diagnostics_returns true ds t p pb ph phb)
      as (theta & pres & geo & z & _ & _ & _ & _ & Hrun); try assumption.
    eexists. split; [exact Hrun|].
    after_simpl. repeat constructor; ds_lookup.
  - destruct (calc_base_diagnostics_returns false ds t p pb ph phb)
      as (theta & pres & geo & z & _ & _ & _ & _ & Hrun); try assumption.
    eexists. split; [exact Hrun|].
    after_simpl. repeat constructor; ds_simpl; simplify_map_eq; congruence.
Qed.

(** C10.  With all five inputs there (numeric, and none of the four
    derived names naming a dimension), the call changes the
    five inputs (removed exactly when [drop]) and the four derived names
    and nothing else: every other variable and its coordinate role, the
    global attributes and the sizes are as before. *)
Theorem diagnostics_frame drop ds t p pb ph phb :
  variables ds !! "T" = Some t ->
  variables ds !! "P" = Some p ->
  variables ds !! "PB" = Some pb ->
  variables ds !! "PH" = Some ph ->
  variables ds !! "PHB" = Some phb ->
  is_numeric t = true -> is_numeric p = true -> is_numeric pb = true ->
  is_numeric ph = true -> is_numeric phb = true ->
  no_derived_dims ds ->
  exists ds', calc_base_diagnostics drop ds = (ds', Ok tt) /\
    (forall name, name ∉ diagnostic_inputs -> name ∉ derived_fields ->
       variables ds' !! name = variables ds !! name /\
       (name ∈ coord_names ds' <-> name ∈ coord_names ds)) /\
    ds_attrs ds' = ds_attrs ds /\
    sizes ds' = sizes ds /\
    Forall (fun name => variables ds' !! name =
                        if drop then None else variables ds !! name) diagnostic_inputs.
Proof.
  intros HT HP HPB HPH HPHB Nt Np Npb Nph Nphb Hno.
  destruct (calc_base_diagnostics_returns drop ds t p pb ph phb)
    as (theta & pres & geo & z & _ & _ & _ & _ & Hrun); try assumption.
  eexists. split; [exact Hrun|].
  after_simpl. repeat split.
  - unfold diagnostic_inputs, derived_fields in *. names_neq.
    destruct drop; ds_simpl; simplify_map_eq; reflexivity.
  - unfold diagnostic_inputs, derived_fields in *. names_neq.
    destruct drop; ds_simpl; repeat case_bool_decide;
      repeat (first [rewrite elem_of_difference | rewrite elem_of_union
                    | rewrite elem_of_singleton]); tauto.
  - unfold diagnostic_inputs, derived_fields in *. names_neq.
    destruct drop; ds_simpl; repeat case_bool_decide;
      repeat (first [rewrite elem_of_difference | rewrite elem_of_union
                    | rewrite elem_of_singleton]); tauto.
  - destruct drop; reflexivity.
  - destruct drop; reflexivity.
  - destruct drop; repeat constructor; ds_simpl; simplify_map_eq; congruence.
Qed.


(** Broadcasting two variables over the same dimensions is element-wise. *)
Lemma project_index_same (dims : list string) (idx : list nat) :
  NoDup dims -> length idx = length dims ->
  project_index dims idx dims = idx.
Proof.
  unfold project_index. intros Hnd. revert idx.
  induction Hnd as [|d dims Hd Hnd IH]; intros [|i idx] Hlen; try discriminate.
  - reflexivity.
  - cbn [map index_of]. rewrite bool_decide_eq_true_2 by reflexivity. cbn [nth].
    f_equal.
    transitivity (map (fun d0 => nth (index_of d0 dims) idx 0%nat) dims);
      [| apply IH; cbn in Hlen; lia].
    apply map_ext_in. intros x Hx.
    rewrite bool_decide_eq_false_2; [reflexivity|].
    intros ->. apply Hd. now apply list_elem_of_In.
Qed.

Lemma filter_none {A} (P : A -> Prop) `{!forall x, Decision (P x)} (l : list A) :
  (forall x, x ∈ l -> ~ P x) -> filter P l = [].
Proof.
  induction l as [|a l IH]; intros Hl; [reflexivity|].
  rewrite filter_cons_False by (apply Hl; left).
  apply IH. intros x Hx. apply Hl. now right.
Qed.

Lemma broadcast_dims_same (dims : list string) : broadcast_dims dims dims = dims.
Proof.
  unfold broadcast_dims. rewrite filter_none; [apply app_nil_r|].
  intros x Hx Hn. now apply Hn.
Qed.

Lemma var_binop_same_dims (f : num -> num -> num) (a b r : @XVariable num CRS) fa fb :
  var_elems a = PNum fa -> var_elems b = PNum fb ->
  var_dims a = var_dims b -> NoDup (var_dims a) ->
  var_binop f a b = Ok r ->
  var_dims r = var_dims a /\
  forall idx, length idx = length (var_dims a) ->
    elem_at r idx = Some (f (fa idx) (fb idx)).
Proof.
  intros Ha Hb Hdims Hnd. unfold var_binop. rewrite Ha, Hb, <- Hdims.
  intros [= <-]. rewrite broadcast_dims_same. split; [reflexivity|].
  intros idx Hlen. unfold elem_at. cbn.
  now rewrite project_index_same.
Qed.

Lemma var_scalar_op_elem (f : num -> num -> num) (a r : @XVariable num CRS) c fa :
  var_elems a = PNum fa ->
  var_scalar_op f a c = Ok r ->
  var_dims r = var_dims a /\ forall idx, elem_at r idx = Some (f (fa idx) c).
Proof.
  intros Ha. unfold var_scalar_op. rewrite Ha. intros [= <-]. now split.
Qed.

Lemma numeric_of_elems v f : var_elems v = PNum f -> is_numeric v = true.
Proof. unfold is_numeric. now intros ->. Qed.

Lemma elem_at_set_var_attrs attrs v idx :
  elem_at (set_var_attrs attrs v) idx = elem_at v idx.
Proof. reflexivity. Qed.

(** C3.  With the five inputs numeric, both members of a pair over the
    same dimensions, and none of the four derived names naming
    a dimension, the derived fields are, element by element,
    [T + 300], [P + PB], [PH + PHB] and [geopotential / 9.81], whatever
    the arithmetic of the dtype is. *)
Theorem diagnostics_elementwise drop ds t p pb ph phb ft fp fpb fph fphb :
  variables ds !! "T" = Some t ->
  variables ds !! "P" = Some p ->
  variables ds !! "PB" = Some pb ->
  variables ds !! "PH" = Some ph ->
  variables ds !! "PHB" = Some phb ->
  var_elems t = PNum ft -> var_elems p = PNum fp -> var_elems pb = PNum fpb ->
  var_elems ph = PNum fph -> var_elems phb = PNum fphb ->
  var_dims p = var_dims pb -> NoDup (var_dims p) ->
  var_dims ph = var_dims phb -> NoDup (var_dims ph) ->
  no_derived_dims ds ->
  exists ds' theta pres geo z,
    calc_base_diagnostics drop ds = (ds', Ok tt) /\
    variables ds' !! "air_potential_temperature" = Some theta /\
    variables ds' !! "air_pressure" = Some pres /\
    variables ds' !! "geopotential" = Some geo /\
    variables ds' !! "geopotential_height" = Some z /\
    var_dims theta = var_dims t /\ var_dims pres = var_dims p /\
    var_dims geo = var_dims ph /\ var_dims z = var_dims ph /\
    (forall idx, elem_at theta idx = Some (num_add (ft idx) (num_of_Z 300))) /\
    (forall idx, length idx = length (var_dims p) ->
       elem_at pres idx = Some (num_add (fp idx) (fpb idx))) /\
    (forall idx, length idx = length (var_dims ph) ->
       elem_at geo idx = Some (num_add (fph idx) (fphb idx))) /\
    (forall idx, length idx = length (var_dims ph) ->
       exists g, elem_at geo idx = Some g /\
                 elem_at z idx = Some (num_div g (num_lit (981 # 100)))).
Proof.
  intros HT HP HPB HPH HPHB Et Ep Epb Eph Ephb Dp NDp Dph NDph Hno.
  destruct (calc_base_diagnostics_returns drop ds t p pb ph phb)
    as (theta & pres & geo & z & Hth & Hpres & Hgeo & Hz & Hrun);
    eauto using numeric_of_elems.
  destruct (var_scalar_op_elem _ _ _ _ _ Et Hth) as [Dth Eth].
  destruct (var_binop_same_dims _ _ _ _ _ _ Ep Epb Dp NDp Hpres) as [Dpres Epres].
  destruct (var_binop_same_dims _ _ _ _ _ _ Eph Ephb Dph NDph Hgeo) as [Dgeo Egeo].
  assert (exists fg, var_elems (set_var_attrs geopotential_attrs geo) = PNum fg) as [fg Efg].
  { unfold var_binop in Hgeo. rewrite Eph, Ephb in Hgeo. injection Hgeo as <-. cbn. eauto. }
  destruct (var_scalar_op_elem _ _ _ _ _ Efg Hz) as [Dz Ez].
  exists (after_diagnostics drop p theta pres geo z ds),
    (set_var_attrs potential_temperature_attrs theta),
    (set_var_attrs (pressure_attrs (attrs_get (var_attrs p) "units" (AStr "Pa"))) pres),
    (set_var_attrs geopotential_attrs geo),
    (set_var_attrs geopotential_height_attrs z).
  split; [exact Hrun|].
  repeat match goal with |- _ /\ _ => split end;
    try (after_simpl; destruct drop; ds_lookup); try assumption.
  - cbn in Dz |- *. congruence.
  - intros idx Hlen. exists (num_add (fph idx) (fphb idx)). split.
    + now apply Egeo.
    + rewrite elem_at_set_var_attrs, Ez.
      cbn in Efg. specialize (Egeo idx Hlen). unfold elem_at in Egeo.
      rewrite Efg in Egeo. congruence.
Qed.


Lemma calc_base_diagnostics_unfold drop ds :
  calc_base_diagnostics drop ds =
    match calc_potential_temperature drop ds with
    | (ds1, Ok _) =>
        match calc_pressure drop ds1 with
        | (ds2, Ok _) => calc_geopotential drop ds2
        | (ds2, Raise e) => (ds2, Raise e)
        end
    | (ds1, Raise e) => (ds1, Raise e)
    end.
Proof. reflexivity. Qed.

(** The whole call, case by case, on a dataset none of whose dimensions
    has one of the nine names. *)
Lemma calc_base_diagnostics_cases drop ds :
  no_reserved_dims ds ->
  calc_base_diagnostics drop ds =
    match variables ds !! "T" with
    | None => (ds, Raise (KeyError "T"))
    | Some t =>
    match var_scalar_op num_add t (num_of_Z 300) with
    | Raise e => (ds, Raise e)
    | Ok theta =>
    let ds1 := after_potential_temperature drop theta ds in
    match variables ds !! "P", variables ds !! "PB" with
    | None, _ => (ds1, Raise (KeyError "P"))
    | Some _, None => (ds1, Raise (KeyError "PB"))
    | Some p, Some pb =>
    match var_binop num_add p pb with
    | Raise e => (ds1, Raise e)
    | Ok pres =>
    let ds2 := after_pressure drop p pres ds1 in
    match variables ds !! "PH", variables ds !! "PHB" with
    | None, _ => (ds2, Raise (KeyError "PH"))
    | Some _, None => (ds2, Raise (KeyError "PHB"))
    | Some ph, Some phb =>
    match var_binop num_add ph phb with
    | Raise e => (ds2, Raise e)
    | Ok geo =>
    match var_scalar_op num_div (set_var_attrs geopotential_attrs geo)
            (num_lit (981 # 100)) with
    | Raise e => (ds2, Raise e)
    | Ok z => (after_geopotential drop geo z ds2, Ok tt)
    end end end end end end end.
Proof.
  intros Hno. rewrite calc_base_diagnostics_unfold.
  rewrite calc_potential_temperature_cases by (apply Hno; reserved).
  destruct (variables ds !! "T") as [t|] eqn:HT; [|reflexivity].
  destruct (var_scalar_op num_add t (num_of_Z 300)) as [theta|] eqn:Hth; [|reflexivity].
  pose proof (no_reserved_dims_after_potential_temperature drop ds t theta HT Hth Hno) as Hno1.
  cbv zeta.
  rewrite calc_pressure_cases by (apply Hno1; reserved).
  rewrite !after_potential_temperature_lookup by discriminate.
  destruct (variables ds !! "P") as [p|] eqn:HP; [|reflexivity].
  destruct (variables ds !! "PB") as [pb|] eqn:HPB; [|reflexivity].
  destruct (var_binop num_add p pb) as [pres|] eqn:Hpres; [|reflexivity].
  assert (no_reserved_dims
            (after_pressure drop p pres (after_potential_temperature drop theta ds))) as Hno2.
  { apply no_reserved_dims_after_pressure with pb; try assumption;
      rewrite after_potential_temperature_lookup by discriminate; assumption. }
  rewrite calc_geopotential_cases by (apply Hno2; reserved).
  rewrite !after_pressure_lookup, !after_potential_temperature_lookup by discriminate.
  reflexivity.
Qed.

(** C1, amended.  A dataset that lacks one of the five inputs (none of
    the nine names of the diagnostics naming a dimension) makes the call
    raise: no dataset is returned.  With the inputs that are there
    numeric, the exception is the [KeyError] of the first one missing in
    the order T, P, PB, PH, PHB.  In particular, with T, P and PB and
    without PH the call raises [KeyError('PH')], the dataset object then
    holding the potential temperature and the pressure and no new
    geopotential. *)
Theorem missing_input_raises drop ds :
  no_reserved_dims ds ->
  (Exists (fun name => variables ds !! name = None) diagnostic_inputs ->
   exists ds' e, calc_base_diagnostics drop ds = (ds', Raise e)) /\
  (forall name, first_missing ds = Some name -> inputs_numeric ds ->
   exists ds', calc_base_diagnostics drop ds = (ds', Raise (KeyError name))) /\
  (forall t p pb theta pres,
     variables ds !! "T" = Some t ->
     variables ds !! "P" = Some p ->
     variables ds !! "PB" = Some pb ->
     variables ds !! "PH" = None ->
     var_scalar_op num_add t (num_of_Z 300) = Ok theta ->
     var_binop num_add p pb = Ok pres ->
     exists ds',
       calc_base_diagnostics drop ds = (ds', Raise (KeyError "PH")) /\
       variables ds' !! "air_potential_temperature" =
         Some (set_var_attrs potential_temperature_attrs theta) /\
       variables ds' !! "air_pressure" =
         Some (set_var_attrs
                 (pressure_attrs (attrs_get (var_attrs p) "units" (AStr "Pa"))) pres) /\
       variables ds' !! "geopotential" = variables ds !! "geopotential" /\
       variables ds' !! "geopotential_height" = variables ds !! "geopotential_height").
Proof.
  intros Hno. rewrite (calc_base_diagnostics_cases drop ds Hno). cbv zeta.
  split; [|split].
  - intros Hex.
    destruct (variables ds !! "T") as [t|] eqn:HT; [|eauto].
    destruct (var_scalar_op num_add t (num_of_Z 300)) as [theta|] eqn:Hth; [|eauto].
    destruct (variables ds !! "P") as [p|] eqn:HP; [|eauto].
    destruct (variables ds !! "PB") as [pb|] eqn:HPB; [|eauto].
    destruct (var_binop num_add p pb) as [pres|] eqn:Hpres; [|eauto].
    destruct (variables ds !! "PH") as [ph|] eqn:HPH; [|eauto].
    destruct (variables ds !! "PHB") as [phb|] eqn:HPHB; [|eauto].
    exfalso. unfold diagnostic_inputs in Hex.
    repeat (apply Exists_cons in Hex; destruct Hex as [Hex|Hex]; [congruence|]).
    now apply Exists_nil in Hex.
  - intros name Hfirst Hnum.
    unfold first_missing, diagnostic_inputs in Hfirst. cbn in Hfirst.
    assert (forall n v, n ∈ diagnostic_inputs -> variables ds !! n = Some v ->
              is_numeric v = true) as Hnum' by exact Hnum.
    destruct (variables ds !! "T") as [t|] eqn:HT.
    2:{ rewrite bool_decide_eq_true_2 in Hfirst by reflexivity.
        injection Hfirst as <-. eauto. }
    rewrite bool_decide_eq_false_2 in Hfirst by discriminate.
    destruct (numeric_scalar_op num_add t (num_of_Z 300)) as [theta ->].
    { apply (Hnum' "T"); [apply in_list; reflexivity | assumption]. }
    destruct (variables ds !! "P") as [p|] eqn:HP.
    2:{ rewrite bool_decide_eq_true_2 in Hfirst by reflexivity.
        injection Hfirst as <-. eauto. }
    rewrite bool_decide_eq_false_2 in Hfirst by discriminate.
    destruct (variables ds !! "PB") as [pb|] eqn:HPB.
    2:{ rewrite bool_decide_eq_true_2 in Hfirst by reflexivity.
        injection Hfirst as <-. eauto. }
    rewrite bool_decide_eq_false_2 in Hfirst by discriminate.
    destruct (numeric_binop num_add p pb) as [pres ->].
    { apply (Hnum' "P"); [apply in_list; reflexivity | assumption]. }
    { apply (Hnum' "PB"); [apply in_list; reflexivity | assumption]. }
    destruct (variables ds !! "PH") as [ph|] eqn:HPH.
    2:{ rewrite bool_decide_eq_true_2 in Hfirst by reflexivity.
        injection Hfirst as <-. eauto. }
    rewrite bool_decide_eq_false_2 in Hfirst by discriminate.
    destruct (variables ds !! "PHB") as [phb|] eqn:HPHB.
    2:{ rewrite bool_decide_eq_true_2 in Hfirst by reflexivity.
        injection Hfirst as <-. eauto. }
    rewrite bool_decide_eq_false_2 in Hfirst by discriminate. discriminate.
  - intros t p pb theta pres HT HP HPB HPH Hth Hpres.
    exists (after_pressure drop p pres (after_potential_temperature drop theta ds)).
    split.
    + now rewrite HT, Hth, HP, HPB, Hpres, HPH.
    + unfold after_pressure, after_potential_temperature.
      repeat split; destruct drop; ds_lookup.
Qed.

(** ** What the diagnostics can raise *)

Lemma raises_only_bind {A B} (P : exn -> Prop) (c : @M num CRS A) (k : A -> @M num CRS B) :
  raises_only P c -> (forall a, raises_only P (k a)) -> raises_only P (mbind' c k).
Proof.
  intros Hc Hk ds ds' e. unfold mbind'.
  destruct (c ds) as [ds1 [a|e1]] eqn:Hrun.
  - apply Hk.
  - intros [= _ <-]. eapply Hc, Hrun.
Qed.

Lemma raises_only_ret {A} (P : exn -> Prop) (a : A) : raises_only P (@mret num CRS A a).
Proof. intros ds ds' e. discriminate. Qed.

Lemma raises_only_lift {A} (P : exn -> Prop) (r : result A) :
  (forall e, r = Raise e -> P e) -> raises_only P (@mlift num CRS A r).
Proof. intros Hr ds ds' e [= _ ->]. now apply Hr. Qed.

Lemma raises_only_when (P : exn -> Prop) b (c : @M num CRS unit) :
  raises_only P c -> raises_only P (when b c).
Proof. destruct b; [trivial | intros _; apply raises_only_ret]. Qed.

Lemma getitem_errors name : raises_only diagnostics_error (getitem name : @M num CRS _).
Proof.
  intros ds ds' e. unfold getitem. destruct (item ds name); [discriminate|].
  intros [= _ <-]. left. eauto.
Qed.

Lemma setitem_errors name v : raises_only diagnostics_error (setitem name v : @M num CRS _).
Proof.
  intros ds ds' e. unfold setitem. destruct (index_conflict _ _); [|discriminate].
  intros [= _ <-]. right. now right.
Qed.

Lemma setattrs_errors name attrs :
  raises_only diagnostics_error (setattrs name attrs : @M num CRS _).
Proof.
  intros ds ds' e. unfold setattrs.
  destruct (variables ds !! name); [discriminate|].
  destruct (in_dims name ds); [discriminate|]. intros [= _ <-]. left. eauto.
Qed.

Lemma delitem_errors name : raises_only diagnostics_error (delitem name : @M num CRS _).
Proof.
  intros ds ds' e. unfold delitem.
  destruct (variables ds !! name); [discriminate|]. intros [= _ <-]. left. eauto.
Qed.

Lemma var_scalar_op_errors (f : num -> num -> num) v c :
  raises_only diagnostics_error (mlift (var_scalar_op f v c) : @M num CRS _).
Proof.
  apply raises_only_lift. intros e. unfold var_scalar_op.
  destruct (var_elems v); intros [= <-]; right; left; eauto.
Qed.

Lemma var_binop_errors (f : num -> num -> num) (a b : @XVariable num CRS) :
  raises_only diagnostics_error (mlift (var_binop f a b) : @M num CRS _).
Proof.
  apply raises_only_lift. intros e. unfold var_binop.
  destruct (var_elems a), (var_elems b); intros [= <-]; right; left; eauto.
Qed.

Lemma checked_errors name : raises_only diagnostics_error (checked name : @M num CRS _).
Proof.
  apply raises_only_bind; [apply getitem_errors | intros; apply raises_only_ret].
Qed.

Lemma py_and_errors (a b : @M num CRS bool) :
  raises_only diagnostics_error a -> raises_only diagnostics_error b ->
  raises_only diagnostics_error (py_and a b).
Proof.
  intros Ha Hb. apply raises_only_bind; [assumption|].
  intros [|]; [assumption | apply raises_only_ret].
Qed.

Ltac errors :=
  repeat first
    [ apply py_and_errors
    | apply checked_errors
    | apply raises_only_when
    | apply raises_only_bind; [|intros ?]
    | apply getitem_errors
    | apply setitem_errors
    | apply setattrs_errors
    | apply delitem_errors
    | apply var_scalar_op_errors
    | apply var_binop_errors
    | apply raises_only_ret ].

(** The diagnostics raise a [KeyError], a [TypeError] or the
    [ValueError] of an assignment, nothing else. *)
Lemma calc_base_diagnostics_errors drop :
  raises_only diagnostics_error (calc_base_diagnostics drop : @M num CRS _).
Proof.
  unfold calc_base_diagnostics, calc_potential_temperature, calc_pressure,
    calc_geopotential.
  errors.
Qed.

End DiagnosticsProperties.
(** * Properties of the grid *)

Section GridProperties.
Context {num : Type} `{PyNum num} {CRS : Type}.
Implicit Types (ds : @Dataset num CRS).

Ltac split_let :=
  match goal with
  | H : rbind ?r _ = Ok _ |- _ =>
      let E := fresh "E" in destruct r eqn:E; cbn [rbind] in H; [|discriminate H]
  end.

Lemma getattr_Ok ds name a : getattr ds name = Ok a -> ds_attrs ds !! name = Some a.
Proof. unfold getattr. destruct (ds_attrs ds !! name); now intros [= ->]. Qed.

Lemma read_projection_inputs_pargs ds inp :
  read_projection_inputs ds = Ok inp ->
  exists lat_1 lat_2 lat_0 lon_0 center_lon,
    pi_pargs inp =
      <["center_lon" := center_lon]> (<["lon_0" := lon_0]> (<["lat_0" := lat_0]>
      (<["lat_2" := lat_2]> (<["lat_1" := lat_1]> initial_pargs)))).
Proof.
  unfold read_projection_inputs. intros Hread.
  destruct (hasattr ds "PROJ_ENVI_STRING"); repeat split_let;
    injection Hread as <-; cbn; eauto 10.
Qed.


Ltac run_select Hread Hp :=
  unfold projection_pargs; rewrite Hread; cbn [rbind];
  unfold select_projection; rewrite Hp;
  unfold dict_del, dict_get, initial_pargs.

(** C5.  The projection arguments by discriminant: 1 gives [lcc] without
    [center_lon]; 2 gives [stere] with [lat_ts] the former [lat_1],
    [lat_0] 90 and neither [lat_1], [lat_2] nor [center_lon]; 3 gives
    [merc] with [lat_ts] the former [lat_1], [lon_0] the former
    [center_lon] and none of [lat_0], [lat_1], [lat_2], [center_lon]; any
    other value (4, say) raises [NotImplementedError]. *)
Theorem projection_by_discriminant ds inp :
  read_projection_inputs ds = Ok inp ->
  (py_eq_int (pi_proj_id inp) 1 = true ->
   exists pargs, projection_pargs ds = Ok pargs /\
     pargs !! "proj" = Some (AStr "lcc") /\
     pargs !! "center_lon" = None /\
     (forall key, key <> "proj" -> key <> "center_lon" ->
        pargs !! key = pi_pargs inp !! key)) /\
  (py_eq_int (pi_proj_id inp) 1 = false ->
   py_eq_int (pi_proj_id inp) 2 = true ->
   exists pargs lat_1, projection_pargs ds = Ok pargs /\
     pargs !! "proj" = Some (AStr "stere") /\
     pi_pargs inp !! "lat_1" = Some lat_1 /\
     pargs !! "lat_ts" = Some lat_1 /\
     pargs !! "lat_0" = Some (ANum (num_lit 90)) /\
     pargs !! "lat_1" = None /\ pargs !! "lat_2" = None /\
     pargs !! "center_lon" = None) /\
  (py_eq_int (pi_proj_id inp) 1 = false ->
   py_eq_int (pi_proj_id inp) 2 = false ->
   py_eq_int (pi_proj_id inp) 3 = true ->
   exists pargs lat_1 center_lon, projection_pargs ds = Ok pargs /\
     pargs !! "proj" = Some (AStr "merc") /\
     pi_pargs inp !! "lat_1" = Some lat_1 /\
     pi_pargs inp !! "center_lon" = Some center_lon /\
     pargs !! "lat_ts" = Some lat_1 /\
     pargs !! "lon_0" = Some center_lon /\
     pargs !! "lat_0" = None /\ pargs !! "lat_1" = None /\
     pargs !! "lat_2" = None /\ pargs !! "center_lon" = None) /\
  (py_eq_int (pi_proj_id inp) 1 = false ->
   py_eq_int (pi_proj_id inp) 2 = false ->
   py_eq_int (pi_proj_id inp) 3 = false ->
   projection_pargs ds = Raise (NotImplementedError "WRF proj not implemented yet")) /\
  (pi_proj_id inp = AInt 4 ->
   projection_pargs ds = Raise (NotImplementedError "WRF proj not implemented yet")).
Proof.
  intros Hread.
  destruct (read_projection_inputs_pargs ds inp Hread)
    as (lat_1 & lat_2 & lat_0 & lon_0 & center_lon & Hp).
  repeat match goal with |- _ /\ _ => split end.
  - intros H1. run_select Hread Hp. rewrite H1. simplify_map_eq.
    eexists. split; [reflexivity|]. repeat split; try (simplify_map_eq; reflexivity).
    intros key Hk1 Hk2. simplify_map_eq. reflexivity.
  - intros H1 H2. run_select Hread Hp. rewrite H1, H2. simplify_map_eq.
    eexists _, lat_1. split; [reflexivity|].
    repeat split; simplify_map_eq; reflexivity.
  - intros H1 H2 H3. run_select Hread Hp. rewrite H1, H2, H3. simplify_map_eq.
    eexists _, lat_1, center_lon. split; [reflexivity|].
    repeat split; simplify_map_eq; reflexivity.
  - intros H1 H2 H3. unfold projection_pargs. rewrite Hread. cbn [rbind].
    unfold select_projection. now rewrite H1, H2, H3.
  - intros Hid. unfold projection_pargs. rewrite Hread. cbn [rbind].
    unfold select_projection. now rewrite Hid.
Qed.


Variable pyproj_CRS : gmap string (@attrval num) -> result CRS.
Variable crs_to_cf : CRS -> gmap string (@attrval num).
Variable pyproj_transform : CRS -> num -> num -> result (num * num).
Variable dataarray_add_ndarray : @XVariable num CRS -> list num -> result (@pyval num CRS).

Local Abbreviation grid_of := (_wrf_grid_from_dataset pyproj_CRS pyproj_transform dataarray_add_ndarray).
Local Abbreviation add_coords :=
  (add_horizontal_projection_coordinates pyproj_CRS crs_to_cf pyproj_transform
     dataarray_add_ndarray).

Lemma grid_keys_of ds g : grid_of ds = Ok g -> map fst g = grid_keys.
Proof.
  unfold _wrf_grid_from_dataset. intros Hg.
  repeat split_let.
  destruct (pi_center _) as [[cen_lon cen_lat]|].
  - repeat split_let.
    match goal with p : (num * num)%type |- _ => destruct p end.
    repeat split_let. now injection Hg as <-.
  - repeat split_let. now injection Hg as <-.
Qed.

(** C2 (the code departs from it).  [add_horizontal_projection_coordinates]
    returns for no dataset: unpacking the dict of the grid binds its keys,
    so that when the grid has been derived the first assignment is of a
    string where a 1-D array is due, which xarray refuses; the dataset is
    left as it was. *)
Theorem add_horizontal_projection_coordinates_raises ds :
  (exists e, add_coords ds = (ds, Raise e)) /\
  (forall g, grid_of ds = Ok g -> add_coords ds = (ds, Raise tuple_error)).
Proof.
  assert (forall g, grid_of ds = Ok g -> add_coords ds = (ds, Raise tuple_error)) as Hok.
  { intros g Hg. unfold add_horizontal_projection_coordinates, mbind'.
    rewrite Hg. unfold mlift, unpack5. rewrite (grid_keys_of ds g Hg). reflexivity. }
  split; [|exact Hok].
  destruct (grid_of ds) as [g|e] eqn:Hg.
  - eauto.
  - exists e. unfold add_horizontal_projection_coordinates, mbind'. now rewrite Hg.
Qed.


(** The axes of a normal WRF file *)
Lemma length_steps n (d : num) : length (steps n d) = n.
Proof. unfold steps, arange. now rewrite !length_map, length_seq. Qed.

Lemma length_steps_stag n (d : num) : length (steps_stag n d) = (n + 1)%nat.
Proof. unfold steps_stag, arange. now rewrite !length_map, length_seq. Qed.

Lemma length_offset (x0 : num) l : length (offset x0 l) = length l.
Proof. unfold offset. apply length_map. Qed.

Lemma nth_arange i n : (i < n)%nat -> nth i (arange n) 0%Z = Z.of_nat i.
Proof.
  intros Hi. unfold arange.
  change 0%Z with (Z.of_nat 0). rewrite map_nth. now rewrite seq_nth.
Qed.

Lemma nth_axis i n (x0 d dflt : num) :
  (i < n)%nat ->
  nth i (offset x0 (steps n d)) dflt = num_add x0 (num_mul (num_of_Z (Z.of_nat i)) d).
Proof.
  intros Hi. unfold offset, steps.
  rewrite (nth_indep _ dflt (num_add x0 (num_mul (num_of_Z 0) d)))
    by now rewrite !length_map; unfold arange; rewrite !length_map, length_seq.
  rewrite (map_nth (num_add x0)), (map_nth (fun i => num_mul (num_of_Z i) d)).
  now rewrite nth_arange.
Qed.

Lemma nth_axis_stag i n (x0 d dflt : num) :
  (i < n + 1)%nat ->
  nth i (offset x0 (steps_stag n d)) dflt =
    num_add x0 (num_mul (num_sub (num_of_Z (Z.of_nat i)) (num_lit (1 # 2))) d).
Proof.
  intros Hi. unfold offset, steps_stag.
  rewrite (nth_indep _ dflt
             (num_add x0 (num_mul (num_sub (num_of_Z 0) (num_lit (1 # 2))) d)))
    by now rewrite !length_map; unfold arange; rewrite !length_map, length_seq.
  rewrite (map_nth (num_add x0)),
    (map_nth (fun i => num_mul (num_sub (num_of_Z i) (num_lit (1 # 2))) d)).
  now rewrite nth_arange.
Qed.

Lemma read_projection_inputs_wrf ds inp :
  hasattr ds "PROJ_ENVI_STRING" = false ->
  read_projection_inputs ds = Ok inp ->
  getattr ds "DX" = Ok (pi_dx inp) /\ getattr ds "DY" = Ok (pi_dy inp) /\
  exists cen_lon cen_lat, pi_center inp = Some (cen_lon, cen_lat).
Proof.
  unfold read_projection_inputs. intros -> Hread.
  repeat split_let. injection Hread as <-. cbn. eauto.
Qed.

(** What a normal WRF file gives: the five entries of the grid, the axes
    being the offsets of the steps from the lower left corner. *)
Lemma wrf_grid_axes ds g :
  hasattr ds "PROJ_ENVI_STRING" = false ->
  grid_of ds = Ok g ->
  exists crs nx ny adx ady dx dy x0 y0,
    dims_getitem ds "west_east" = Ok nx /\
    dims_getitem ds "south_north" = Ok ny /\
    getattr ds "DX" = Ok adx /\ as_num adx = Ok dx /\
    getattr ds "DY" = Ok ady /\ as_num ady = Ok dy /\
    g = [("crs", VCrs crs);
         ("south_north", VArr (offset y0 (steps ny dy)));
         ("west_east", VArr (offset x0 (steps nx dx)));
         ("south_north_stag", VArr (offset y0 (steps_stag ny dy)));
         ("west_east_stag", VArr (offset x0 (steps_stag nx dx)))].
Proof.
  intros Hhar Hg. unfold _wrf_grid_from_dataset in Hg.
  split_let.
  destruct (read_projection_inputs_wrf ds _ Hhar E) as (Hdx & Hdy & cen_lon & cen_lat & Hc).
  repeat split_let. rewrite Hc in Hg.
  repeat split_let.
  match goal with p : (num * num)%type |- _ => destruct p end.
  repeat split_let. injection Hg as <-.
  eauto 20.
Qed.

End GridProperties.

Section GridAxes.

Context {CRS : Type}.
Variable pyproj_CRS : gmap string (@attrval Q) -> result CRS.
Variable pyproj_transform : CRS -> Q -> Q -> result (Q * Q).
Variable dataarray_add_ndarray : @XVariable Q CRS -> list Q -> result (@pyval Q CRS).

Local Abbreviation grid_of := (_wrf_grid_from_dataset pyproj_CRS pyproj_transform dataarray_add_ndarray).

Lemma stag_offset i n (x0 d : Q) :
  (i < n)%nat ->
  (nth i (offset x0 (steps_stag n d)) 0 == nth i (offset x0 (steps n d)) 0 - (1 # 2) * d)%Q.
Proof.
  intros Hi. rewrite nth_axis by assumption. rewrite nth_axis_stag by lia.
  cbn [num_add num_mul num_sub num_of_Z num_lit PyNum_Q]. ring.
Qed.


End GridAxes.

(** * Properties of the coordinate clean-up and of the entry point *)

Module StrptimeFacts.
Import Strptime.
Local Open Scope Z_scope.

Lemma parse_of_matches s f rest t :
  matches s = (f, "") :: rest -> parse s = Some t -> t = epoch_ns f.
Proof.
  intros Hm. unfold parse.
  destruct (bool_decide (s = "") || bool_decide (s ∈ nat_strings)) eqn:Hnat.
  - exfalso. apply orb_true_iff in Hnat as [Hs|Hs]; apply bool_decide_eq_true in Hs.
    + subst s. discriminate Hm.
    + unfold nat_strings in Hs.
      repeat (apply elem_of_cons in Hs as [->|Hs]; [discriminate Hm|]).
      now apply elem_of_nil in Hs.
  - rewrite Hm. destruct (_ && _); [|discriminate].
    destruct (_ && _); [|discriminate]. now intros [= <-].
Qed.

Lemma epoch_ns_next_hour f1 f2 :
  year f2 = year f1 -> month f2 = month f1 -> day f2 = day f1 ->
  hour f2 = hour f1 + 1 -> minute f2 = minute f1 -> second f2 = second f1 ->
  epoch_ns f2 - epoch_ns f1 = 3600 * 1000000000.
Proof. unfold epoch_ns. intros -> -> -> -> -> ->. lia. Qed.

End StrptimeFacts.


Section TimeProperties.
Context {num : Type} `{PyNum num} {CRS : Type}.
Implicit Types (ds : @Dataset num CRS) (v : @XVariable num CRS).

Lemma with_variables_id ds : with_variables ds (variables ds) = ds.
Proof. now destruct ds. Qed.

Lemma restore_meta_id v : restore_meta (var_attrs v) (var_encoding v) v = v.
Proof. now destruct v. Qed.

Lemma fix_coord_time ds warnings coord v :
  variables ds !! coord = Some v ->
  coord ∈ _TIME_COORD_VARS ->
  fix_coord coord (ds, warnings) =
    match parse_time_coord ds coord v with
    | Ok v' => Ok (with_variables ds (<[coord := v']> (variables ds)), warnings)
    | Raise _ => Ok (ds, (warnings ++ [parse_warning coord])%list)
    end.
Proof.
  intros Hv Ht. unfold fix_coord. rewrite Hv.
  rewrite bool_decide_eq_true_2 by assumption.
  destruct (parse_time_coord ds coord v) as [v'|e] eqn:Hp; cbn [rbind].
  - cbn [variables with_variables]. rewrite lookup_insert_eq.
    unfold with_variables. cbn. rewrite insert_insert_eq.
    unfold parse_time_coord in Hp.
    destruct (var_elems v); try discriminate.
    destruct (var_dims v) as [|d [|]]; try discriminate.
    destruct (decode_all _); try discriminate. cbn [rbind] in Hp.
    destruct (Strptime.to_datetime _); try discriminate.
    case_bool_decide; try discriminate. injection Hp as <-. reflexivity.
  - rewrite Hv. rewrite restore_meta_id, insert_id by assumption.
    now rewrite with_variables_id.
Qed.

Lemma decode_all_ascii l strs :
  decode_all l = Ok strs -> strs = l /\ Forall (fun s => is_ascii s = true) l.
Proof.
  revert strs. induction l as [|b l IH]; intros strs; cbn.
  - intros [= <-]. now split.
  - unfold decode_utf8. destruct (is_ascii b) eqn:Hb; [|discriminate]. cbn [rbind].
    destruct (decode_all l) as [ss|]; [|discriminate]. cbn [rbind].
    intros [= <-]. destruct (IH ss eq_refl) as [-> Hall]. split; [reflexivity|].
    now constructor.
Qed.

Lemma decode_all_fails l s :
  s ∈ l -> is_ascii s = false -> exists e, decode_all l = Raise e.
Proof.
  induction l as [|b l IH]; intros Hin Hs; [now apply elem_of_nil in Hin|].
  cbn. unfold decode_utf8. apply elem_of_cons in Hin as [<-|Hin].
  - rewrite Hs. cbn. eauto.
  - destruct (is_ascii b); cbn; [|eauto].
    destruct (IH Hin Hs) as [e ->]. cbn. eauto.
Qed.

Lemma to_datetime_fails l s :
  s ∈ l -> Strptime.parse s = None -> Strptime.to_datetime l = None.
Proof.
  induction l as [|b l IH]; intros Hin Hs; [now apply elem_of_nil in Hin|].
  cbn. apply elem_of_cons in Hin as [<-|Hin].
  - now rewrite Hs.
  - destruct (Strptime.parse b); [|reflexivity]. now rewrite (IH Hin Hs).
Qed.

Lemma to_datetime_length l ts :
  Strptime.to_datetime l = Some ts -> length ts = length l.
Proof.
  revert ts. induction l as [|b l IH]; intros ts; cbn.
  - now intros [= <-].
  - destruct (Strptime.parse b); [|discriminate].
    destruct (Strptime.to_datetime l) as [ts'|]; [|discriminate].
    intros [= <-]. cbn. now rewrite (IH ts' eq_refl).
Qed.

Lemma to_datetime_lookup l ts i s :
  Strptime.to_datetime l = Some ts -> l !! i = Some s ->
  exists t, Strptime.parse s = Some t /\ ts !! i = Some t.
Proof.
  revert ts i. induction l as [|b l IH]; intros ts i; cbn; [now intros _ ?|].
  destruct (Strptime.parse b) as [t|] eqn:Hb; [|discriminate].
  destruct (Strptime.to_datetime l) as [ts'|]; [|discriminate].
  intros [= <-]. destruct i as [|i]; cbn.
  - intros [= <-]. eauto.
  - intros Hs. now apply (IH ts' i eq_refl).
Qed.


Lemma decode_all_of_ascii l :
  Forall (fun s => is_ascii s = true) l -> decode_all l = Ok l.
Proof.
  induction 1 as [|b l Hb _ IH]; [reflexivity|].
  cbn. unfold decode_utf8. rewrite Hb. cbn. now rewrite IH.
Qed.

Lemma parse_time_coord_ok ds coord v d f ts :
  var_elems v = PBytes f -> var_dims v = [d] -> d <> coord ->
  Forall (fun s => is_ascii s = true) (tolist1 (size_of ds d) f) ->
  Strptime.to_datetime (tolist1 (size_of ds d) f) = Some ts ->
  parse_time_coord ds coord v = Ok (decoded v ts).
Proof.
  intros Hf Hd Hne Hascii Hts. unfold parse_time_coord. rewrite Hf, Hd.
  rewrite (decode_all_of_ascii _ Hascii). cbn [rbind]. rewrite Hts. rewrite bool_decide_eq_false_2 by assumption.
  unfold decoded. now rewrite Hd.
Qed.

Lemma parse_time_coord_malformed ds coord v d f s :
  var_elems v = PBytes f -> var_dims v = [d] ->
  s ∈ tolist1 (size_of ds d) f -> Strptime.parse s = None ->
  exists e, parse_time_coord ds coord v = Raise e.
Proof.
  intros Hf Hd Hin Hs. unfold parse_time_coord. rewrite Hf, Hd.
  destruct (decode_all _) as [strs|e] eqn:Hdec; cbn [rbind]; [|eauto].
  apply decode_all_ascii in Hdec as [-> _].
  rewrite (to_datetime_fails _ s Hin Hs). eauto.
Qed.

Lemma parse_time_coord_index ds coord v f :
  var_elems v = PBytes f -> var_dims v = [coord] ->
  exists e, parse_time_coord ds coord v = Raise e.
Proof.
  intros Hf Hd. unfold parse_time_coord. rewrite Hf, Hd.
  destruct (decode_all _) as [strs|e]; cbn [rbind]; [|eauto].
  destruct (Strptime.to_datetime strs); [|eauto].
  rewrite bool_decide_eq_true_2 by reflexivity. eauto.
Qed.

(** A turn of the loop touches the variable of its coordinate only. *)
Lemma drop_leading_frame coord v ds ds' :
  drop_leading coord v ds = Ok ds' ->
  sizes ds' = sizes ds /\
  (forall name, name <> coord -> variables ds' !! name = variables ds !! name) /\
  is_Some (variables ds' !! coord).
Proof.
  unfold drop_leading. destruct (take_first ds v) as [v0|]; [|discriminate].
  cbn [rbind]. destruct (index_conflict coord (var_dims v0)); [discriminate|].
  intros [= <-]. cbn. repeat split.
  - intros name Hne. now rewrite lookup_insert_ne.
  - rewrite lookup_insert_eq. eauto.
Qed.

Lemma fix_coord_frame coord ds w ds' w' :
  fix_coord coord (ds, w) = Ok (ds', w') ->
  sizes ds' = sizes ds /\
  (forall name, name <> coord -> variables ds' !! name = variables ds !! name) /\
  (forall m, m ∈ w -> m ∈ w').
Proof.
  unfold fix_coord. destruct (variables ds !! coord) as [v|] eqn:Hv; [|discriminate].
  set (step := if bool_decide (coord ∈ _TIME_COORD_VARS) then _ else _).
  destruct step as [[ds1 w1]|] eqn:Hstep; [|discriminate]. cbn [rbind].
  destruct (variables ds1 !! coord) as [v1|] eqn:Hv1; [|discriminate].
  intros [= <- <-].
  assert (sizes ds1 = sizes ds /\
          (forall name, name <> coord -> variables ds1 !! name = variables ds !! name) /\
          (forall m, m ∈ w -> m ∈ w1)) as (Hs & Hf & Hw).
  { subst step. case_bool_decide.
    - destruct (parse_time_coord ds coord v); injection Hstep as <- <-.
      + cbn. repeat split; trivial. intros name Hne. now rewrite lookup_insert_ne.
      + repeat split; trivial. intros m Hm. apply elem_of_app. now left.
    - repeat match type of Hstep with
             | context [if ?b then _ else _] => destruct b
             end;
        first [ injection Hstep as <- <-; now repeat split
              | destruct (drop_leading coord v ds) as [ds2|] eqn:Hd; [|discriminate];
                cbn [rbind] in Hstep; injection Hstep as <- <-;
                destruct (drop_leading_frame _ _ _ _ Hd) as (? & ? & _);
                now repeat split ]. }
  cbn. repeat split; trivial.
  intros name Hne. rewrite lookup_insert_ne by congruence. now apply Hf.
Qed.


Lemma fix_coords_frame l coord ds w ds' w' :
  coord ∉ l ->
  fix_coords l (ds, w) = (w', Ok ds') ->
  sizes ds' = sizes ds /\ variables ds' !! coord = variables ds !! coord /\
  (forall m, m ∈ w -> m ∈ w').
Proof.
  revert ds w. induction l as [|c l IH]; intros ds w Hnin; cbn [fix_coords].
  - now intros [= <- <-].
  - apply not_elem_of_cons in Hnin as [Hne Hnin].
    destruct (fix_coord c (ds, w)) as [[ds1 w1]|] eqn:Hstep; cbn [rbind]; [|intros [=]].
    intros Hrest.
    destruct (fix_coord_frame _ _ _ _ _ Hstep) as (Hs1 & Hf1 & Hw1).
    destruct (IH ds1 w1 Hnin Hrest) as (Hs & Hf & Hw).
    repeat split; [congruence | rewrite Hf; now apply Hf1 | auto].
Qed.

(** In the loop, the turn of a coordinate starts from its variable and the
    sizes of the dataset the loop started from, and what it leaves is what
    the loop ends with. *)
Lemma fix_coords_at l coord ds w ds' w' :
  NoDup l -> coord ∈ l ->
  fix_coords l (ds, w) = (w', Ok ds') ->
  exists ds0 w0 ds1 w1,
    sizes ds0 = sizes ds /\ variables ds0 !! coord = variables ds !! coord /\
    fix_coord coord (ds0, w0) = Ok (ds1, w1) /\
    variables ds' !! coord = variables ds1 !! coord /\
    (forall m, m ∈ w1 -> m ∈ w').
Proof.
  intros Hnd. revert ds w. induction Hnd as [|c l Hc Hnd IH]; intros ds w Hin; cbn [fix_coords].
  - now apply elem_of_nil in Hin.
  - destruct (fix_coord c (ds, w)) as [[ds1 w1]|] eqn:Hstep; cbn [rbind]; [|intros [=]].
    intros Hrest.
    apply elem_of_cons in Hin as [->|Hin].
    + destruct (fix_coords_frame _ _ _ _ _ _ Hc Hrest) as (_ & Hf & Hw).
      exists ds, w, ds1, w1. now repeat split.
    + destruct (fix_coord_frame _ _ _ _ _ Hstep) as (Hs1 & Hf1 & _).
      destruct (IH ds1 w1 Hin Hrest) as (ds0 & w0 & ds2 & w2 & Hs & Hv & Hrun & Hend & Hw).
      exists ds0, w0, ds2, w2. repeat split; trivial; [congruence|].
      rewrite Hv. apply Hf1. intros ->. contradiction.
Qed.



End TimeProperties.


Section PromotionProperties.
Context {num : Type} `{PyNum num} {CRS : Type}.
Implicit Types (ds : @Dataset num CRS).

Lemma promote_skip name dim ds :
  promotable name dim ds = false -> promote name dim ds = ds.
Proof.
  unfold promotable, promote. destruct (variables ds !! name); [|reflexivity].
  now intros ->.
Qed.

Lemma promote_act name dim ds :
  promotable name dim ds = true ->
  exists v, variables ds !! name = Some v /\
            promote name dim ds = ds_delete name (ds_insert dim v ds).
Proof.
  unfold promotable, promote. destruct (variables ds !! name) as [v|]; [|discriminate].
  intros ->. eauto.
Qed.

Lemma promotable_after_own name dim ds :
  name <> dim -> promotable name dim (promote name dim ds) = false.
Proof.
  intros Hne. destruct (promotable name dim ds) eqn:Hc.
  - destruct (promote_act name dim ds Hc) as (v & Hv & ->).
    unfold promotable. cbn. now rewrite lookup_delete_eq.
  - now rewrite promote_skip.
Qed.

Lemma promotable_after_other name dim name' dim' ds :
  name <> name' -> name <> dim' ->
  promotable name dim (promote name' dim' ds) = true ->
  promotable name dim ds = true.
Proof.
  intros Hn Hd. destruct (promotable name' dim' ds) eqn:Hc.
  2:{ now rewrite promote_skip. }
  destruct (promote_act name' dim' ds Hc) as (v' & Hv' & ->).
  unfold promotable. cbn [variables ds_delete ds_insert].
  rewrite lookup_delete_ne, lookup_insert_ne by congruence.
  destruct (variables ds !! name) as [v|] eqn:Hv; [|discriminate].
  rewrite !andb_true_iff. intros [[Hco Hdim] Hnd]. repeat split; [| |exact Hnd].
  - unfold in_coords in *. cbn [variables coord_names ds_delete ds_insert] in Hco.
    rewrite andb_true_iff, !bool_decide_eq_true in *. destruct Hco as [Hco _].
    split; [|rewrite Hv; eauto].
    apply elem_of_difference in Hco as [Hco _].
    case_bool_decide; [|assumption].
    apply elem_of_union in Hco as [Hco|Hco]; [|assumption].
    apply elem_of_singleton in Hco. congruence.
  - apply in_dims_inv in Hdim. apply in_dims_inv.
    destruct Hdim as (n & w & Hw & Hin). cbn [variables ds_delete ds_insert] in Hw.
    apply lookup_delete_Some in Hw as [_ Hw].
    apply lookup_insert_Some in Hw as [[_ <-]|[_ Hw]]; eauto.
Qed.

Lemma not_promotable_after_other name dim name' dim' ds :
  name <> name' -> name <> dim' ->
  promotable name dim ds = false ->
  promotable name dim (promote name' dim' ds) = false.
Proof.
  intros Hn Hd Hc. destruct (promotable name dim (promote name' dim' ds)) eqn:Hc'; [|reflexivity].
  apply promotable_after_other in Hc'; congruence.
Qed.

(** C9. The promotion of ZNU, ZNW and XTIME to dimension coordinates is
    idempotent: run on its own result it changes nothing.  A promotion
    acts when its coordinate exists, has one dimension and the dimension
    is one of the dataset; it then puts the variable under the name of the
    dimension and removes it under its own; otherwise it is skipped. *)
Theorem promotion_idempotent ds :
  promote_dimension_coords (promote_dimension_coords ds) = promote_dimension_coords ds /\
  (forall name dim, promotable name dim ds = false -> promote name dim ds = ds) /\
  (forall name dim v, name <> dim ->
     variables ds !! name = Some v ->
     in_coords name ds = true -> in_dims dim ds = true -> var_ndim v = 1%nat ->
     variables (promote name dim ds) !! dim = Some v /\
     variables (promote name dim ds) !! name = None /\
     (var_dims v = [dim] -> dim ∈ coord_names (promote name dim ds))).
Proof.
  split; [|split].
  - unfold promote_dimension_coords.
    set (ds1 := promote "ZNU" "bottom_top" ds).
    set (ds2 := promote "ZNW" "bottom_top_stag" ds1).
    set (ds3 := promote "XTIME" "Time" ds2).
    assert (promotable "ZNU" "bottom_top" ds3 = false) as H1.
    { subst ds3 ds2. do 2 (apply not_promotable_after_other; [discriminate..|]).
      subst ds1. now apply promotable_after_own. }
    assert (promotable "ZNW" "bottom_top_stag" ds3 = false) as H2.
    { subst ds3. apply not_promotable_after_other; [discriminate..|].
      subst ds2. now apply promotable_after_own. }
    assert (promotable "XTIME" "Time" ds3 = false) as H3.
    { subst ds3. now apply promotable_after_own. }
    rewrite (promote_skip _ _ _ H1), (promote_skip _ _ _ H2).
    now apply promote_skip.
  - intros name dim. apply promote_skip.
  - intros name dim v Hne Hv Hco Hdim Hnd.
    unfold promote. rewrite Hv, Hco, Hdim, Hnd. cbn [andb Nat.eqb].
    cbn [variables coord_names ds_delete ds_insert].
    rewrite lookup_delete_eq, lookup_delete_ne, lookup_insert_eq by congruence.
    repeat split. intros Hd. rewrite bool_decide_eq_true_2 by assumption.
    apply elem_of_difference. split; [apply elem_of_union; left; now apply elem_of_singleton|].
    intros Hs. apply elem_of_singleton in Hs. congruence.
Qed.

End PromotionProperties.

Section OpenProperties.
Context {num : Type} `{PyNum num} {CRS : Type}.
Implicit Types (ds : @Dataset num CRS).
Implicit Types (v t p pb ph phb theta pres geo z : @XVariable num CRS).

Variable pyproj_CRS : gmap string (@attrval num) -> result CRS.
Variable crs_to_cf : CRS -> gmap string (@attrval num).
Variable pyproj_transform : CRS -> num -> num -> result (num * num).
Variable dataarray_add_ndarray : @XVariable num CRS -> list num -> result (@pyval num CRS).
Variable abspath_expanduser : string -> string.
Variable decode_options : Type.
Variable open_store : string -> decode_options -> result (@Dataset num CRS).

Local Abbreviation open_wrf :=
  (open_dataset pyproj_CRS crs_to_cf pyproj_transform dataarray_add_ndarray
     abspath_expanduser decode_options open_store).

(** C4 (the code departs from it).  With [destagger] set, and the file
    read, [open_dataset] never raises [NotImplementedError]: when the
    diagnostics succeed it returns, as its value, the exception object. *)
Theorem destagger_returns_the_exception filename options drop ds :
  open_store (_normalize_path abspath_expanduser filename) options = Ok ds ->
  (forall msg, snd (open_wrf filename options true drop) <> Raise (NotImplementedError msg)) /\
  (forall ds', calc_base_diagnostics drop ds = (ds', Ok tt) ->
     open_wrf filename options true drop = ([], Ok (RetException destagger_error))).
Proof.
  intros Hopen. unfold open_dataset. rewrite Hopen. split.
  - intros msg.
    destruct (calc_base_diagnostics drop ds) as [ds' [[]|e]] eqn:Hcalc; cbn.
    + discriminate.
    + intros [= ->].
      destruct (calc_base_diagnostics_errors drop _ _ _ Hcalc) as [[? ?]|[[? ?]|?]];
        discriminate.
  - intros ds' ->. reflexivity.
Qed.

End OpenProperties.

(** * The examples, run

    The theorems above at the example datasets, and the inputs at which
    three statements of the specification fail. *)

Module Witnesses.

Import Examples.

Ltac no_reserved :=
  let name := fresh "name" in
  let Hin := fresh "Hin" in
  intros name Hin; apply list_elem_of_In in Hin; cbn in Hin;
  repeat (destruct Hin as [<-|Hin]; [vm_compute; reflexivity|]);
  contradiction.

Lemma wrfout_no_derived_dims : no_derived_dims wrfout.
Proof. no_reserved. Qed.

Lemma wrfout_no_geopotential_no_reserved_dims : no_reserved_dims wrfout_no_geopotential.
Proof. no_reserved. Qed.

Lemma drop_semantics_witness :
  (exists ds', calc_base_diagnostics true wrfout = (ds', Ok tt) /\
     Forall (fun name => variables ds' !! name = None) diagnostic_inputs) /\
  (exists ds', calc_base_diagnostics false wrfout = (ds', Ok tt) /\
     Forall (fun name => variables ds' !! name = variables wrfout !! name) diagnostic_inputs).
Proof.
  apply (drop_semantics wrfout var_T var_P var_PB var_PH var_PHB);
    first [reflexivity | exact wrfout_no_derived_dims].
Defined.

Lemma diagnostics_frame_witness :
  exists ds', calc_base_diagnostics true wrfout = (ds', Ok tt) /\
    variables ds' !! "HGT" = Some var_HGT /\ ds_attrs ds' = wrf_attrs.
Proof.
  destruct (diagnostics_frame true wrfout var_T var_P var_PB var_PH var_PHB)
    as (ds' & Hrun & Hother & Hattrs & _);
    try first [reflexivity | exact wrfout_no_derived_dims].
  exists ds'. split; [exact Hrun|]. split; [|exact Hattrs].
  destruct (Hother "HGT") as [Hv _].
  - unfold diagnostic_inputs. intros Hin. apply list_elem_of_In in Hin. cbn in Hin.
    intuition discriminate.
  - unfold derived_fields. intros Hin. apply list_elem_of_In in Hin. cbn in Hin.
    intuition discriminate.
  - rewrite Hv. reflexivity.
Defined.

Lemma diagnostics_elementwise_witness :
  exists ds' theta pres geo z,
    calc_base_diagnostics true wrfout = (ds', Ok tt) /\
    variables ds' !! "air_potential_temperature" = Some theta /\
    variables ds' !! "air_pressure" = Some pres /\
    variables ds' !! "geopotential" = Some geo /\
    variables ds' !! "geopotential_height" = Some z /\
    elem_at theta [0; 1; 2; 3]%nat = Some (5 + 300)%Q /\
    elem_at pres [0; 1; 2; 3]%nat = Some (120 + 90000)%Q /\
    elem_at geo [0; 1; 2; 3]%nat = Some (40 + 9810)%Q /\
    elem_at z [0; 1; 2; 3]%nat = Some ((40 + 9810) / (981 # 100))%Q.
Proof.
  destruct (diagnostics_elementwise true wrfout var_T var_P var_PB var_PH var_PHB
              (fun _ => 5%Q) (fun _ => 120%Q) (fun _ => 90000%Q)
              (fun _ => 40%Q) (fun _ => 9810%Q))
    as (ds' & theta & pres & geo & z & Hrun & H1 & H2 & H3 & H4 & _ & _ & _ & _ &
        E1 & E2 & E3 & E4); try first [reflexivity | exact wrfout_no_derived_dims].
  - apply NoDup_ListNoDup. repeat constructor; cbn; intuition discriminate.
  - apply NoDup_ListNoDup. repeat constructor; cbn; intuition discriminate.
  - exists ds', theta, pres, geo, z.
    repeat match goal with |- _ /\ _ => split end; try assumption.
    + apply E1.
    + apply E2. reflexivity.
    + apply E3. reflexivity.
    + destruct (E4 [0; 1; 2; 3]%nat eq_refl) as (g & Hg & Hz).
      rewrite (E3 [0; 1; 2; 3]%nat eq_refl) in Hg. injection Hg as <-. exact Hz.
Defined.


(** C1: the claim fails on a file without the geopotential *)
Lemma partial_input_raises :
  is_Some (variables wrfout_no_geopotential !! "T") /\
  variables wrfout_no_geopotential !! "PH" = None /\
  variables wrfout_no_geopotential !! "PHB" = None /\
  snd (calc_base_diagnostics true wrfout_no_geopotential) = Raise (KeyError "PH") /\
  snd (calc_base_diagnostics false wrfout_no_geopotential) = Raise (KeyError "PH").
Proof.
  repeat split; try reflexivity. exists var_T. reflexivity.
Qed.

Lemma missing_input_raises_witness :
  exists ds', calc_base_diagnostics true wrfout_no_geopotential =
                (ds', Raise (KeyError "PH")).
Proof.
  destruct (missing_input_raises true wrfout_no_geopotential
              wrfout_no_geopotential_no_reserved_dims) as (_ & Hfirst & _).
  apply (Hfirst "PH").
  - reflexivity.
  - intros name v Hin Hv.
    unfold diagnostic_inputs in Hin. apply list_elem_of_In in Hin. cbn in Hin.
    destruct Hin as [<-|[<-|[<-|[<-|[<-|[]]]]]]; vm_compute in Hv;
      try discriminate; injection Hv as <-; reflexivity.
Defined.

Lemma projection_by_discriminant_witness :
  exists pargs, projection_pargs wrfout = Ok pargs /\
    pargs !! "proj" = Some (AStr "lcc") /\ pargs !! "center_lon" = None.
Proof.
  destruct (read_projection_inputs wrfout) as [inp|] eqn:Hread; [|discriminate].
  destruct (projection_by_discriminant wrfout inp Hread) as (Hlcc & _).
  destruct Hlcc as (pargs & Hp & Hproj & Hcen & _).
  - vm_compute in Hread. injection Hread as <-. reflexivity.
  - exists pargs. now repeat split.
Defined.



Lemma grid_of_wrfout : grid_of wrfout = Ok wrfout_grid.
Proof. vm_compute. reflexivity. Qed.


Lemma add_horizontal_projection_coordinates_raises_witness :
  add_coords wrfout = (wrfout, Raise tuple_error).
Proof.
  destruct (add_horizontal_projection_coordinates_raises
              pyproj_CRS crs_to_cf pyproj_transform dataarray_add_ndarray wrfout)
    as [_ Hraise].
  exact (Hraise wrfout_grid grid_of_wrfout).
Defined.

Lemma calc_wrfout_returns :
  exists ds', calc_base_diagnostics true wrfout = (ds', Ok tt).
Proof.
  destruct (calc_base_diagnostics_returns true wrfout var_T var_P var_PB var_PH var_PHB)
    as (? & ? & ? & ? & _ & _ & _ & _ & Hrun);
    try first [reflexivity | exact wrfout_no_derived_dims].
  eauto.
Qed.

Lemma destagger_returns_the_exception_witness :
  open_wrf "/data/wrfout_d01" true true = ([], Ok (RetException destagger_error)).
Proof.
  destruct calc_wrfout_returns as [ds' Hcalc].
  destruct (destagger_returns_the_exception
              pyproj_CRS crs_to_cf pyproj_transform dataarray_add_ndarray
              abspath_expanduser unit open_store "/data/wrfout_d01" tt true wrfout)
    as [_ Hret].
  - reflexivity.
  - exact (Hret ds' Hcalc).
Defined.



Lemma promotion_idempotent_witness :
  variables (promote "ZNU" "bottom_top" levels) !! "bottom_top" = Some var_ZNU /\
  variables (promote "ZNU" "bottom_top" levels) !! "ZNU" = None /\
  ("bottom_top" ∈ coord_names (promote "ZNU" "bottom_top" levels)).
Proof.
  pose proof (promotion_idempotent levels) as (_ & _ & Hact).
  pose proof (Hact "ZNU" "bottom_top" var_ZNU ltac:(discriminate)
                eq_refl eq_refl eq_refl eq_refl) as (H1 & H2 & H3).
  split; [exact H1 | split; [exact H2 | apply H3; reflexivity]].
Defined.

End Witnesses.
(** * More on the diagnostics *)

Section DiagnosticsMore.

Context {num : Type} `{PyNum num} {CRS : Type}.
Implicit Types (ds : @Dataset num CRS).
Implicit Types (v t p pb ph phb theta pres geo z : @XVariable num CRS).

Ltac ds_simpl :=
  cbn [variables coord_names ds_attrs sizes ds_insert ds_delete with_variables].

Ltac ds_lookup := ds_simpl; simplify_map_eq; reflexivity.

Ltac after_simpl :=
  unfold after_diagnostics, after_geopotential, after_pressure,
    after_potential_temperature.

Lemma var_scalar_op_meta (f : num -> num -> num) (a r : @XVariable num CRS) c :
  var_scalar_op f a c = Ok r -> var_attrs r = ∅ /\ var_encoding r = ∅.
Proof. unfold var_scalar_op. destruct (var_elems a); intros [= <-]; now split. Qed.

Lemma var_binop_meta (f : num -> num -> num) (a b r : @XVariable num CRS) :
  var_binop f a b = Ok r -> var_attrs r = ∅ /\ var_encoding r = ∅.
Proof.
  unfold var_binop. destruct (var_elems a); try discriminate.
  destruct (var_elems b); intros [= <-]; now split.
Qed.

(** X1.  With the five inputs numeric (and none of the four derived
    names naming a dimension), each derived field carries the two
    attributes the code gives it and nothing of its inputs' attributes
    or encoding; the units of the pressure are those of [P], and [Pa]
    when [P] has none. *)
Theorem derived_fields_metadata drop ds t p pb ph phb :
  variables ds !! "T" = Some t ->
  variables ds !! "P" = Some p ->
  variables ds !! "PB" = Some pb ->
  variables ds !! "PH" = Some ph ->
  variables ds !! "PHB" = Some phb ->
  is_numeric t = true -> is_numeric p = true -> is_numeric pb = true ->
  is_numeric ph = true -> is_numeric phb = true ->
  no_derived_dims ds ->
  exists ds' theta pres geo z,
    calc_base_diagnostics drop ds = (ds', Ok tt) /\
    variables ds' !! "air_potential_temperature" = Some theta /\
    variables ds' !! "air_pressure" = Some pres /\
    variables ds' !! "geopotential" = Some geo /\
    variables ds' !! "geopotential_height" = Some z /\
    var_attrs theta =
      <["units" := AStr "K"]>
        (<["standard_name" := AStr "air_potential_temperature"]> ∅) /\
    var_attrs pres =
      <["units" := default (AStr "Pa") (var_attrs p !! "units")]>
        (<["standard_name" := AStr "air_pressure"]> ∅) /\
    var_attrs geo =
      <["units" := AStr "m**2 s**-2"]> (<["standard_name" := AStr "geopotential"]> ∅) /\
    var_attrs z =
      <["units" := AStr "m"]> (<["standard_name" := AStr "geopotential_height"]> ∅) /\
    var_encoding theta = ∅ /\ var_encoding pres = ∅ /\
    var_encoding geo = ∅ /\ var_encoding z = ∅.
Proof.
  intros HT HP HPB HPH HPHB Nt Np Npb Nph Nphb Hno.
  destruct (calc_base_diagnostics_returns drop ds t p pb ph phb)
    as (theta & pres & geo & z & Hth & Hpres & Hgeo & Hz & Hrun); try assumption.
  destruct (var_scalar_op_meta _ _ _ _ Hth) as [_ Eth].
  destruct (var_binop_meta _ _ _ _ Hpres) as [_ Epres].
  destruct (var_binop_meta _ _ _ _ Hgeo) as [_ Egeo].
  destruct (var_scalar_op_meta _ _ _ _ Hz) as [_ Ez].
  exists (after_diagnostics drop p theta pres geo z ds),
    (set_var_attrs potential_temperature_attrs theta),
    (set_var_attrs (pressure_attrs (attrs_get (var_attrs p) "units" (AStr "Pa"))) pres),
    (set_var_attrs geopotential_attrs geo),
    (set_var_attrs geopotential_height_attrs z).
  split; [exact Hrun|].
  repeat match goal with |- _ /\ _ => split end;
    try (after_simpl; destruct drop; ds_lookup); try assumption; try reflexivity.
Qed.

Lemma in_dims_after_geopotential drop ds ph phb geo z d :
  variables ds !! "PH" = Some ph ->
  variables ds !! "PHB" = Some phb ->
  var_binop num_add ph phb = Ok geo ->
  var_scalar_op num_div (set_var_attrs geopotential_attrs geo) (num_lit (981 # 100)) = Ok z ->
  in_dims d ds = false ->
  in_dims d (after_geopotential drop geo z ds) = false.
Proof.
  intros HPH HPHB Hgeo Hz Hd.
  assert (d ∉ var_dims geo) as Hdg.
  { intros Hin. apply (var_binop_dims _ _ _ _ _ Hgeo) in Hin as [Hin|Hin].
    - now apply (not_dim_of_variable ds "PH" ph d).
    - now apply (not_dim_of_variable ds "PHB" phb d). }
  destruct (in_dims d (after_geopotential drop geo z ds)) eqn:Hin; [|reflexivity].
  exfalso. unfold after_geopotential in Hin.
  assert (in_dims d (ds_insert "geopotential_height"
            (set_var_attrs geopotential_height_attrs z)
            (ds_insert "geopotential" (set_var_attrs geopotential_attrs geo) ds)) = true)
    as Hins.
  { destruct drop; [do 2 apply in_dims_ds_delete in Hin|]; exact Hin. }
  apply in_dims_ds_insert in Hins as [Hins|Hins].
  - cbn in Hins. rewrite (var_scalar_op_dims _ _ _ _ Hz) in Hins. now apply Hdg.
  - apply in_dims_ds_insert in Hins as [Hins|Hins]; [now apply Hdg | congruence].
Qed.

(** No name outside the dimensions of the dataset becomes one by the call. *)
Lemma in_dims_after_diagnostics drop ds t p pb ph phb theta pres geo z d :
  variables ds !! "T" = Some t ->
  variables ds !! "P" = Some p ->
  variables ds !! "PB" = Some pb ->
  variables ds !! "PH" = Some ph ->
  variables ds !! "PHB" = Some phb ->
  var_scalar_op num_add t (num_of_Z 300) = Ok theta ->
  var_binop num_add p pb = Ok pres ->
  var_binop num_add ph phb = Ok geo ->
  var_scalar_op num_div (set_var_attrs geopotential_attrs geo) (num_lit (981 # 100)) = Ok z ->
  in_dims d ds = false ->
  in_dims d (after_diagnostics drop p theta pres geo z ds) = false.
Proof.
  intros HT HP HPB HPH HPHB Hth Hpres Hgeo Hz Hd. unfold after_diagnostics.
  apply in_dims_after_geopotential with ph phb; try assumption.
  - now rewrite after_pressure_lookup, after_potential_temperature_lookup.
  - now rewrite after_pressure_lookup, after_potential_temperature_lookup.
  - apply in_dims_after_pressure with pb; try assumption.
    + now rewrite after_potential_temperature_lookup.
    + now rewrite after_potential_temperature_lookup.
    + now apply in_dims_after_potential_temperature with t.
Qed.

(** X2.  The call with [drop=True] cannot be repeated: on the dataset it
    has returned, the inputs being gone, it raises [KeyError('T')] and
    changes nothing. *)
Theorem second_run_after_drop_raises ds t p pb ph phb :
  variables ds !! "T" = Some t ->
  variables ds !! "P" = Some p ->
  variables ds !! "PB" = Some pb ->
  variables ds !! "PH" = Some ph ->
  variables ds !! "PHB" = Some phb ->
  is_numeric t = true -> is_numeric p = true -> is_numeric pb = true ->
  is_numeric ph = true -> is_numeric phb = true ->
  no_reserved_dims ds ->
  exists ds', calc_base_diagnostics true ds = (ds', Ok tt) /\
             calc_base_diagnostics true ds' = (ds', Raise (KeyError "T")).
Proof.
  intros HT HP HPB HPH HPHB Nt Np Npb Nph Nphb Hno.
  assert (no_derived_dims ds) as Hnod.
  { intros name Hname. apply Hno. apply elem_of_app. now right. }
  destruct (calc_base_diagnostics_returns true ds t p pb ph phb)
    as (theta & pres & geo & z & Hth & Hpres & Hgeo & Hz & Hrun); try assumption.
  eexists. split; [exact Hrun|].
  rewrite calc_base_diagnostics_cases.
  - assert (variables (after_diagnostics true p theta pres geo z ds) !! "T" = None)
      as -> by (after_simpl; ds_lookup).
    reflexivity.
  - intros name Hname.
    apply in_dims_after_diagnostics with t pb ph phb; try assumption. now apply Hno.
Qed.

Lemma ds_insert_same name v ds :
  variables ds !! name = Some v -> name ∉ var_dims v -> ds_insert name v ds = ds.
Proof.
  intros Hv Hn. unfold ds_insert. destruct ds as [vars coords sz attrs]. cbn in *.
  rewrite insert_id by assumption.
  rewrite bool_decide_eq_false_2; [reflexivity|].
  intros Hd. apply Hn. rewrite Hd. now left.
Qed.

(** X3.  With [drop=False] the call can be repeated: run on the dataset
    it has returned, it returns that dataset again. *)
Theorem second_run_without_drop_is_identity ds t p pb ph phb :
  variables ds !! "T" = Some t ->
  variables ds !! "P" = Some p ->
  variables ds !! "PB" = Some pb ->
  variables ds !! "PH" = Some ph ->
  variables ds !! "PHB" = Some phb ->
  is_numeric t = true -> is_numeric p = true -> is_numeric pb = true ->
  is_numeric ph = true -> is_numeric phb = true ->
  no_derived_dims ds ->
  exists ds', calc_base_diagnostics false ds = (ds', Ok tt) /\
             calc_base_diagnostics false ds' = (ds', Ok tt).
Proof.
  intros HT HP HPB HPH HPHB Nt Np Npb Nph Nphb Hno.
  destruct (calc_base_diagnostics_returns false ds t p pb ph phb)
    as (theta & pres & geo & z & Hth & Hpres & Hgeo & Hz & Hrun); try assumption.
  set (ds' := after_diagnostics false p theta pres geo z ds) in *.
  exists ds'. split; [exact Hrun|].
  assert (forall d, in_dims d ds = false -> in_dims d ds' = false) as Hdims.
  { intros d Hd. now apply in_dims_after_diagnostics with t pb ph phb. }
  assert (no_derived_dims ds') as Hno'.
  { intros name Hname. apply Hdims. now apply Hno. }
  assert (forall name, name ∈ derived_fields ->
            forall v, variables ds' !! name = Some v -> name ∉ var_dims v) as Hfree.
  { intros name Hname v Hv. apply (not_dim_of_variable ds' name v name Hv).
    now apply Hno'. }
  rewrite (calc_base_diagnostics_ok false ds' t p pb ph phb theta pres geo z);
    try assumption; try (subst ds'; after_simpl; ds_lookup).
  f_equal. unfold after_diagnostics, after_geopotential, after_pressure,
    after_potential_temperature.
  assert (forall name, bool_decide (name ∈ derived_fields) = true ->
            name ∈ derived_fields) as Hin by (intros name; apply bool_decide_eq_true_1).
  rewrite (ds_insert_same "air_potential_temperature").
  2:{ subst ds'; after_simpl; ds_lookup. }
  2:{ eapply Hfree; [apply Hin; reflexivity | subst ds'; after_simpl; ds_lookup]. }
  rewrite (ds_insert_same "air_pressure").
  2:{ subst ds'; after_simpl; ds_lookup. }
  2:{ eapply Hfree; [apply Hin; reflexivity | subst ds'; after_simpl; ds_lookup]. }
  rewrite (ds_insert_same "geopotential").
  2:{ subst ds'; after_simpl; ds_lookup. }
  2:{ eapply Hfree; [apply Hin; reflexivity | subst ds'; after_simpl; ds_lookup]. }
  rewrite (ds_insert_same "geopotential_height").
  2:{ subst ds'; after_simpl; ds_lookup. }
  2:{ eapply Hfree; [apply Hin; reflexivity | subst ds'; after_simpl; ds_lookup]. }
  reflexivity.
Qed.

(** X4.  A failure is not undone.  Without [T] the call raises at once
    and the dataset is as it was; with [T], [P] and [PB] (numeric) and
    without [PH] or [PHB] it raises the [KeyError] of the geopotential
    block after the first two blocks have run: with [drop=True] the
    caller's dataset has then lost [T], [P] and [PB]. *)
Theorem failure_keeps_earlier_blocks drop ds :
  no_reserved_dims ds ->
  (variables ds !! "T" = None ->
   calc_base_diagnostics drop ds = (ds, Raise (KeyError "T"))) /\
  (forall t p pb,
     variables ds !! "T" = Some t ->
     variables ds !! "P" = Some p ->
     variables ds !! "PB" = Some pb ->
     is_numeric t = true -> is_numeric p = true -> is_numeric pb = true ->
     variables ds !! "PH" = None \/ variables ds !! "PHB" = None ->
     exists ds' key,
       calc_base_diagnostics drop ds = (ds', Raise (KeyError key)) /\
       (key = "PH" \/ key = "PHB") /\
       variables ds !! key = None /\
       Forall (fun name => variables ds' !! name =
                           if drop then None else variables ds !! name)
         ["T"; "P"; "PB"] /\
       is_Some (variables ds' !! "air_potential_temperature") /\
       is_Some (variables ds' !! "air_pressure") /\
       variables ds' !! "PH" = variables ds !! "PH" /\
       variables ds' !! "PHB" = variables ds !! "PHB").
Proof.
  intros Hno. rewrite (calc_base_diagnostics_cases drop ds Hno). cbv zeta. split.
  - now intros ->.
  - intros t p pb HT HP HPB Nt Np Npb Hmiss. rewrite HT, HP, HPB.
    destruct (numeric_scalar_op num_add t (num_of_Z 300) Nt) as [theta ->].
    destruct (numeric_binop num_add p pb Np Npb) as [pres ->].
    assert (exists key, (key = "PH" \/ key = "PHB") /\ variables ds !! key = None /\
              forall (ds2 : @Dataset num CRS) (k : @XVariable num CRS -> @XVariable num CRS ->
                                       @Dataset num CRS * result unit),
                match variables ds !! "PH", variables ds !! "PHB" with
                | None, _ => (ds2, Raise (KeyError "PH"))
                | Some _, None => (ds2, Raise (KeyError "PHB"))
                | Some ph, Some phb => k ph phb
                end = (ds2, Raise (KeyError key))) as (key & Hkey & Hnone & Hrun).
    { destruct (variables ds !! "PH") as [ph|] eqn:HPH.
      - destruct (variables ds !! "PHB") as [phb|] eqn:HPHB.
        + destruct Hmiss; discriminate.
        + exists "PHB". repeat split; auto.
      - exists "PH". repeat split; auto. }
    eexists _, key. split; [apply Hrun|].
    split; [exact Hkey|]. split; [exact Hnone|].
    after_simpl. repeat split.
    + destruct drop; repeat constructor; ds_simpl; simplify_map_eq; congruence.
    + destruct drop; ds_simpl; simplify_map_eq; eauto.
    + destruct drop; ds_simpl; simplify_map_eq; eauto.
    + destruct drop; ds_lookup.
    + destruct drop; ds_lookup.
Qed.

End DiagnosticsMore.
(** * More on the grid *)

Section GridMore.

Context {num : Type} `{PyNum num} {CRS : Type}.
Implicit Types (ds : @Dataset num CRS).

Variable pyproj_CRS : gmap string (@attrval num) -> result CRS.
Variable crs_to_cf : CRS -> gmap string (@attrval num).
Variable pyproj_transform : CRS -> num -> num -> result (num * num).
Variable dataarray_add_ndarray : @XVariable num CRS -> list num -> result (@pyval num CRS).

Local Abbreviation grid_of :=
  (_wrf_grid_from_dataset pyproj_CRS pyproj_transform dataarray_add_ndarray).
Local Abbreviation add_coords :=
  (add_horizontal_projection_coordinates pyproj_CRS crs_to_cf pyproj_transform
     dataarray_add_ndarray).

Lemma grid_of_read_error ds e :
  read_projection_inputs ds = Raise e -> grid_of ds = Raise e.
Proof. intros Hr. unfold _wrf_grid_from_dataset. now rewrite Hr. Qed.

Lemma add_coords_grid_error ds e :
  grid_of ds = Raise e -> add_coords ds = (ds, Raise e).
Proof.
  intros Hg. unfold add_horizontal_projection_coordinates, mbind'. now rewrite Hg.
Qed.

Ltac by_attribute Hfirst :=
  repeat match goal with
  | |- context [ds_attrs ?ds !! ?k] =>
      let E := fresh "E" in
      destruct (ds_attrs ds !! k) eqn:E; cbn in Hfirst |- *;
      [| now injection Hfirst as <-]
  end.

(** X5.  A file that lacks one of the global attributes of its dialect
    has no grid: the derivation raises [AttributeError] for the first
    one missing in the order of reading, and so does
    [add_horizontal_projection_coordinates], which leaves the dataset as
    it was. *)
Theorem missing_attribute_raises ds name :
  first_absent ds
    (if hasattr ds "PROJ_ENVI_STRING" then har_attributes else normal_attributes)
    = Some name ->
  grid_of ds = Raise (AttributeError name) /\
  add_coords ds = (ds, Raise (AttributeError name)).
Proof.
  intros Hfirst.
  assert (read_projection_inputs ds = Raise (AttributeError name)) as Hread.
  { unfold read_projection_inputs.
    destruct (hasattr ds "PROJ_ENVI_STRING");
      unfold first_absent, har_attributes, normal_attributes in Hfirst;
      cbn [find] in Hfirst; unfold hasattr, getattr in *;
      by_attribute Hfirst; discriminate Hfirst. }
  split; [|apply add_coords_grid_error]; now apply grid_of_read_error.
Qed.

(** X6.  A HAR file (one with [PROJ_ENVI_STRING]) is Lambert or
    nothing: when [PROJ_NAME] is one of the two Lambert names the
    projection arguments are the [lcc] set built from the [PROJ_*]
    attributes, and any other name, the one of a projection the normal
    dialect supports included, raises [NotImplementedError]. *)
Theorem har_projection ds dx dy par1 par2 lat0 lon0 pname :
  hasattr ds "PROJ_ENVI_STRING" = true ->
  ds_attrs ds !! "GRID_DX" = Some dx ->
  ds_attrs ds !! "GRID_DY" = Some dy ->
  ds_attrs ds !! "PROJ_STANDARD_PAR1" = Some par1 ->
  ds_attrs ds !! "PROJ_STANDARD_PAR2" = Some par2 ->
  ds_attrs ds !! "PROJ_CENTRAL_LAT" = Some lat0 ->
  ds_attrs ds !! "PROJ_CENTRAL_LON" = Some lon0 ->
  ds_attrs ds !! "PROJ_NAME" = Some pname ->
  projection_pargs ds =
    if py_in_strs pname lambert_names
    then Ok (<["proj" := AStr "lcc"]> (<["lon_0" := lon0]> (<["lat_0" := lat0]>
            (<["lat_2" := par2]> (<["lat_1" := par1]> initial_pargs)))))
    else Raise unsupported_projection.
Proof.
  intros Hhar Hdx Hdy H1 H2 Hlat Hlon Hname.
  unfold projection_pargs, read_projection_inputs, getattr.
  rewrite Hhar, Hdx, Hdy, H1, H2, Hlat, Hlon, Hname. cbn [rbind pi_proj_id pi_pargs].
  unfold lambert_names. destruct (py_in_strs pname _).
  - unfold select_projection. cbn [py_eq_int Z.eqb Pos.eqb].
    unfold dict_del. rewrite lookup_insert_ne, lookup_insert_eq by discriminate.
    reflexivity.
  - reflexivity.
Qed.

(** X7.  What a normal WRF file hands to [pyproj.CRS]: a sphere of
    radius 6370000 m without false easting or northing, with the
    parallels [TRUELAT1] and [TRUELAT2], the latitude of origin
    [MOAD_CEN_LAT] and the central meridian [STAND_LON] for Lambert
    ([MAP_PROJ] 1); the latitude of true scale [TRUELAT1], the pole and
    [STAND_LON] for polar stereographic (2); [TRUELAT1] and the meridian
    [CEN_LON] for Mercator (3); and nothing for another [MAP_PROJ]. *)
Theorem normal_projection ds cen_lon cen_lat dx dy lat1 lat2 lat0 lon0 proj :
  hasattr ds "PROJ_ENVI_STRING" = false ->
  ds_attrs ds !! "CEN_LON" = Some cen_lon ->
  ds_attrs ds !! "CEN_LAT" = Some cen_lat ->
  ds_attrs ds !! "DX" = Some dx ->
  ds_attrs ds !! "DY" = Some dy ->
  ds_attrs ds !! "TRUELAT1" = Some lat1 ->
  ds_attrs ds !! "TRUELAT2" = Some lat2 ->
  ds_attrs ds !! "MOAD_CEN_LAT" = Some lat0 ->
  ds_attrs ds !! "STAND_LON" = Some lon0 ->
  ds_attrs ds !! "MAP_PROJ" = Some proj ->
  projection_pargs ds =
    if py_eq_int proj 1 then
      Ok (<["proj" := AStr "lcc"]> (<["lat_1" := lat1]> (<["lat_2" := lat2]>
         (<["lat_0" := lat0]> (<["lon_0" := lon0]> initial_pargs)))))
    else if py_eq_int proj 2 then
      Ok (<["proj" := AStr "stere"]> (<["lat_ts" := lat1]>
         (<["lat_0" := ANum (num_lit 90)]> (<["lon_0" := lon0]> initial_pargs))))
    else if py_eq_int proj 3 then
      Ok (<["proj" := AStr "merc"]> (<["lat_ts" := lat1]>
         (<["lon_0" := cen_lon]> initial_pargs)))
    else Raise unsupported_projection.
Proof.
  intros Hhar Hcl Hcla Hdx Hdy H1 H2 Hlat Hlon Hproj.
  unfold projection_pargs, read_projection_inputs, getattr.
  rewrite Hhar, Hcl, Hcla, Hdx, Hdy, H1, H2, Hlat, Hlon, Hproj.
  cbn [rbind pi_proj_id pi_pargs]. unfold select_projection.
  destruct (py_eq_int proj 1); [reflexivity|].
  destruct (py_eq_int proj 2); [reflexivity|].
  destruct (py_eq_int proj 3); reflexivity.
Qed.

Lemma read_projection_inputs_center ds inp :
  hasattr ds "PROJ_ENVI_STRING" = false ->
  read_projection_inputs ds = Ok inp ->
  exists cen_lon cen_lat,
    getattr ds "CEN_LON" = Ok cen_lon /\ getattr ds "CEN_LAT" = Ok cen_lat /\
    pi_center inp = Some (cen_lon, cen_lat).
Proof.
  unfold read_projection_inputs. intros -> Hread.
  repeat match goal with
  | H : rbind ?r _ = Ok _ |- _ =>
      let E := fresh "E" in destruct r eqn:E; cbn [rbind] in H; [|discriminate H]
  end.
  injection Hread as <-. cbn. eauto.
Qed.

(** What a normal WRF file gives, with the corner spelled out. *)
Lemma wrf_grid_corner ds g :
  hasattr ds "PROJ_ENVI_STRING" = false ->
  grid_of ds = Ok g ->
  exists pargs crs nx ny acl acla lon lat e n adx ady dx dy,
    projection_pargs ds = Ok pargs /\ pyproj_CRS pargs = Ok crs /\
    dims_getitem ds "west_east" = Ok nx /\
    dims_getitem ds "south_north" = Ok ny /\
    getattr ds "CEN_LON" = Ok acl /\ as_num acl = Ok lon /\
    getattr ds "CEN_LAT" = Ok acla /\ as_num acla = Ok lat /\
    pyproj_transform crs lon lat = Ok (e, n) /\
    getattr ds "DX" = Ok adx /\ as_num adx = Ok dx /\
    getattr ds "DY" = Ok ady /\ as_num ady = Ok dy /\
    g = [("crs", VCrs crs);
         ("south_north", VArr (offset (corner ny dy n) (steps ny dy)));
         ("west_east", VArr (offset (corner nx dx e) (steps nx dx)));
         ("south_north_stag", VArr (offset (corner ny dy n) (steps_stag ny dy)));
         ("west_east_stag", VArr (offset (corner nx dx e) (steps_stag nx dx)))].
Proof.
  intros Hhar Hg. unfold _wrf_grid_from_dataset in Hg.
  destruct (read_projection_inputs ds) as [inp|] eqn:Hread; [|discriminate Hg].
  cbn [rbind] in Hg.
  destruct (read_projection_inputs_wrf ds _ Hhar Hread) as (Hdx & Hdy & _).
  destruct (read_projection_inputs_center ds _ Hhar Hread)
    as (cen_lon & cen_lat & Hcl & Hcla & Hc).
  assert (projection_pargs ds = select_projection (pi_proj_id inp) (pi_pargs inp)) as Hp.
  { unfold projection_pargs. now rewrite Hread. }
  rewrite <- Hp in Hg.
  repeat match goal with
  | H : rbind ?r _ = Ok _ |- _ =>
      let E := fresh "E" in destruct r eqn:E; cbn [rbind] in H; [|discriminate H]
  end.
  rewrite Hc in Hg.
  repeat match goal with
  | H : rbind ?r _ = Ok _ |- _ =>
      let E := fresh "E" in destruct r eqn:E; cbn [rbind] in H; [|discriminate H]
  end.
  match goal with p : (num * num)%type |- _ => destruct p as [e n] end.
  repeat match goal with
  | H : rbind ?r _ = Ok _ |- _ =>
      let E := fresh "E" in destruct r eqn:E; cbn [rbind] in H; [|discriminate H]
  end.
  injection Hg as <-.
  eauto 30.
Qed.

Lemma projection_pargs_inputs ds pargs :
  projection_pargs ds = Ok pargs ->
  exists inp, read_projection_inputs ds = Ok inp /\
              select_projection (pi_proj_id inp) (pi_pargs inp) = Ok pargs.
Proof.
  unfold projection_pargs.
  destruct (read_projection_inputs ds) as [inp|]; [|discriminate]. eauto.
Qed.

(** X8.  After the projection arguments, the derivation fails with the
    error of [pyproj.CRS] if that raises, then with [KeyError] for a
    horizontal dimension that the dataset does not have, [west_east]
    before [south_north]. *)
Theorem grid_lookup_failures ds pargs :
  projection_pargs ds = Ok pargs ->
  (forall e, pyproj_CRS pargs = Raise e -> grid_of ds = Raise e) /\
  (forall crs, pyproj_CRS pargs = Ok crs ->
     in_dims "west_east" ds = false ->
     grid_of ds = Raise (KeyError "west_east")) /\
  (forall crs nx, pyproj_CRS pargs = Ok crs ->
     dims_getitem ds "west_east" = Ok nx ->
     in_dims "south_north" ds = false ->
     grid_of ds = Raise (KeyError "south_north")).
Proof.
  intros Hp. destruct (projection_pargs_inputs ds pargs Hp) as (inp & Hread & Hsel).
  unfold _wrf_grid_from_dataset. rewrite Hread. cbn [rbind]. rewrite Hsel. cbn [rbind].
  repeat split.
  - now intros e ->.
  - intros crs -> Hwe. cbn [rbind]. unfold dims_getitem at 1. now rewrite Hwe.
  - intros crs nx -> Hnx Hsn. cbn [rbind]. rewrite Hnx. cbn [rbind].
    unfold dims_getitem. now rewrite Hsn.
Qed.

Lemma read_projection_inputs_har ds inp :
  hasattr ds "PROJ_ENVI_STRING" = true ->
  read_projection_inputs ds = Ok inp ->
  getattr ds "GRID_DX" = Ok (pi_dx inp) /\ getattr ds "GRID_DY" = Ok (pi_dy inp) /\
  pi_center inp = None.
Proof.
  unfold read_projection_inputs. intros -> Hread.
  repeat match goal with
  | H : rbind ?r _ = Ok _ |- _ =>
      let E := fresh "E" in destruct r eqn:E; cbn [rbind] in H; [|discriminate H]
  end.
  injection Hread as <-. cbn. eauto.
Qed.

(** X9.  The grid of a HAR file cannot be derived when its
    [south_north] axis is one-dimensional (a coordinate along one
    dimension, or the default index of the dimension): the first
    element of the axis is a 0-d array, which cannot hold its sum with
    the 1-D array of the steps, and the derivation raises [ValueError]
    whatever xarray does for other ranks. *)
Theorem har_grid_fails ds pargs crs nx ny x y ady dy d k x0 :
  hasattr ds "PROJ_ENVI_STRING" = true ->
  projection_pargs ds = Ok pargs ->
  pyproj_CRS pargs = Ok crs ->
  dims_getitem ds "west_east" = Ok nx ->
  dims_getitem ds "south_north" = Ok ny ->
  item ds "west_east" = Some x -> take_first ds x = Ok x0 ->
  item ds "south_north" = Some y ->
  var_dims y = [d] -> sizes ds !! d = Some (S k) ->
  getattr ds "GRID_DY" = Ok ady -> as_num ady = Ok dy ->
  grid_of ds = Raise scalar_sum_error.
Proof.
  intros Hhar Hp Hcrs Hnx Hny Hx Hx0 Hy Hd Hk Hdy Hnum.
  destruct (projection_pargs_inputs ds pargs Hp) as (inp & Hread & Hsel).
  destruct (read_projection_inputs_har ds inp Hhar Hread) as (_ & Hdy' & Hc).
  assert (pi_dy inp = ady) as Hpdy by congruence.
  unfold _wrf_grid_from_dataset. rewrite Hread. cbn [rbind]. rewrite Hsel. cbn [rbind].
  rewrite Hcrs. cbn [rbind]. rewrite Hnx. cbn [rbind]. rewrite Hny. cbn [rbind].
  rewrite Hc. unfold first_of. rewrite Hx, Hx0. cbn [rbind]. rewrite Hy.
  unfold take_first. rewrite Hd, Hk. cbn [rbind]. rewrite Hpdy, Hnum. cbn [rbind].
  reflexivity.
Qed.

End GridMore.

Section GridGeometry.

Context {CRS : Type}.
Variable pyproj_CRS : gmap string (@attrval Q) -> result CRS.
Variable pyproj_transform : CRS -> Q -> Q -> result (Q * Q).
Variable dataarray_add_ndarray : @XVariable Q CRS -> list Q -> result (@pyval Q CRS).

Local Abbreviation grid_of :=
  (_wrf_grid_from_dataset pyproj_CRS pyproj_transform dataarray_add_ndarray).

Local Open Scope Q_scope.

Lemma axis_spacing i n (x0 d : Q) :
  (S i < n)%nat ->
  nth (S i) (offset x0 (steps n d)) 0 - nth i (offset x0 (steps n d)) 0 == d.
Proof.
  intros Hi. rewrite !nth_axis by lia.
  cbn [num_add num_mul num_of_Z PyNum_Q].
  rewrite Nat2Z.inj_succ. unfold Z.succ. rewrite inject_Z_plus. ring.
Qed.

Lemma axis_midpoint i n (x0 d : Q) :
  (i < n)%nat ->
  nth i (offset x0 (steps n d)) 0 ==
    (nth i (offset x0 (steps_stag n d)) 0 + nth (S i) (offset x0 (steps_stag n d)) 0) / 2.
Proof.
  intros Hi. rewrite nth_axis by lia. rewrite !nth_axis_stag by lia.
  cbn [num_add num_mul num_sub num_of_Z num_lit PyNum_Q].
  rewrite Nat2Z.inj_succ. unfold Z.succ. rewrite inject_Z_plus. field.
Qed.

Lemma axis_centre n (d e : Q) :
  (0 < n)%nat ->
  nth 0 (offset (corner n d e) (steps n d)) 0 +
  nth (n - 1) (offset (corner n d e) (steps n d)) 0 == 2 * e.
Proof.
  intros Hn. rewrite !nth_axis by lia. unfold corner.
  cbn [num_add num_mul num_div num_of_Z num_lit PyNum_Q].
  rewrite Nat2Z.inj_sub by lia. change (Z.of_nat 1) with 1%Z. change (Z.of_nat 0) with 0%Z.
  rewrite inject_Z_opp. field.
Qed.


End GridGeometry.
(** * More on the entry point and the coordinate clean-up *)

Section PathProperties.

Lemma string_prefix_app p s :
  String.prefix p s = true <-> exists rest, s = p ++ rest.
Proof.
  revert s. induction p as [|a p IH]; intros s.
  - split; [intros _; now exists s | intros _; now destruct s].
  - destruct s as [|b s]; cbn.
    + split; [discriminate | intros [rest [=]]].
    + destruct (ascii_dec a b) as [->|Hne].
      * rewrite IH. split; intros [rest Hr]; exists rest; [now rewrite Hr | now injection Hr].
      * split; [discriminate | intros [rest [= ? _]]; congruence].
Qed.

Lemma scheme_rest_spec s :
  scheme_rest s = true <->
  exists body rest,
    forallb is_lower_or_digit (list_ascii_of_string body) = true /\
    (s = body ++ "://" ++ rest \/ s = body ++ "::" ++ rest).
Proof.
  split.
  - induction s as [|c s IH]; [discriminate|]. cbn [scheme_rest].
    destruct (is_lower_or_digit c) eqn:Hc.
    + intros Hs. destruct (IH Hs) as (body & rest & Hb & Hr).
      exists (String c body), rest. split; [cbn; now rewrite Hc|].
      destruct Hr as [->| ->]; [left | right]; reflexivity.
    + intros Hp. apply orb_true_iff in Hp as [Hp|Hp];
        apply string_prefix_app in Hp as [rest Hr]; exists "", rest;
        (split; [reflexivity|]); rewrite Hr; [left | right]; reflexivity.
  - intros (body & rest & Hb & Hr). revert s Hr.
    induction body as [|c body IH]; intros s Hr.
    + destruct Hr as [->| ->]; destruct rest; reflexivity.
    + cbn in Hb. apply andb_true_iff in Hb as [Hc Hb].
      destruct Hr as [->| ->].
      * change (scheme_rest (String c (body ++ "://" ++ rest)) = true).
        cbn [scheme_rest]. rewrite Hc. apply (IH Hb). now left.
      * change (scheme_rest (String c (body ++ "::" ++ rest)) = true).
        cbn [scheme_rest]. rewrite Hc. apply (IH Hb). now right.
Qed.

(** X11.  [is_remote_uri] holds of exactly the strings that begin with
    a scheme, a lower-case letter followed by lower-case letters and
    digits, and then [://] or [::]. *)
Theorem is_remote_uri_spec path :
  is_remote_uri path = true <->
  exists scheme rest,
    is_scheme scheme = true /\
    (path = scheme ++ "://" ++ rest \/ path = scheme ++ "::" ++ rest).
Proof.
  split.
  - destruct path as [|c s]; [discriminate|]. cbn [is_remote_uri].
    intros Hp. apply andb_true_iff in Hp as [Hc Hs].
    apply scheme_rest_spec in Hs as (body & rest & Hb & Hr).
    exists (String c body), rest. split; [cbn; now rewrite Hc|].
    destruct Hr as [->| ->]; [left | right]; reflexivity.
  - intros (scheme & rest & Hs & Hr).
    destruct scheme as [|c body]; [discriminate|]. cbn in Hs.
    apply andb_true_iff in Hs as [Hc Hb].
    assert (exists s, path = String c s /\ scheme_rest s = true) as (s & -> & Hrest).
    { destruct Hr as [->| ->]; eexists; (split; [reflexivity|]);
        apply scheme_rest_spec; exists body, rest; auto. }
    cbn. now rewrite Hc, Hrest.
Qed.

Variable abspath_expanduser : string -> string.


End PathProperties.

Section CoordinateLoop.

Context {num : Type} `{PyNum num} {CRS : Type}.
Implicit Types (ds : @Dataset num CRS) (v : @XVariable num CRS).

(** X13.  The first step of [fixup_coords] changes no variable; after
    it the loop goes once through every variable that was a coordinate
    already or bears one of the recognised names, and through nothing
    else. *)
Theorem loop_coordinates ds :
  let ds0 := set_coords (dom (variables ds) ∩ _ALL_COORDS) ds in
  variables ds0 = variables ds /\ sizes ds0 = sizes ds /\ ds_attrs ds0 = ds_attrs ds /\
  NoDup (coords_of ds0) /\
  forall name,
    name ∈ coords_of ds0 <->
    is_Some (variables ds !! name) /\
    (name ∈ coord_names ds \/
     name ∈ (_LAT_COORDS ++ _LON_COORDS ++ _VERTICAL_COORDS ++ _TIME_COORD_VARS)%list).
Proof.
  cbv zeta. repeat match goal with |- _ /\ _ => split end; try reflexivity.
  - unfold coords_of. apply NoDup_filter, NoDup_elements.
  - intros name. unfold coords_of. rewrite list_elem_of_filter, elem_of_elements.
    cbn [set_coords coord_names variables].
    rewrite elem_of_union, elem_of_intersection, elem_of_dom.
    unfold _ALL_COORDS. rewrite elem_of_list_to_set. tauto.
Qed.

Lemma not_time_role coord :
  coord ∈ (_LON_COORDS ++ _LAT_COORDS)%list \/ coord ∈ _VERTICAL_COORDS ->
  bool_decide (coord ∈ _TIME_COORD_VARS) = false.
Proof.
  intros [Hin|Hin]; apply list_elem_of_In in Hin; cbn in Hin;
    repeat (destruct Hin as [<-|Hin]; [reflexivity|]); contradiction.
Qed.

Lemma vertical_not_horizontal coord :
  coord ∈ _VERTICAL_COORDS ->
  bool_decide (coord ∈ (_LON_COORDS ++ _LAT_COORDS)%list) = false.
Proof.
  intros Hin; apply list_elem_of_In in Hin; cbn in Hin;
    repeat (destruct Hin as [<-|Hin]; [reflexivity|]); contradiction.
Qed.

Lemma fix_coord_reduces ds w coord v :
  variables ds !! coord = Some v -> reduces coord v ->
  fix_coord coord (ds, w) =
    match drop_leading coord v ds with
    | Ok ds1 =>
        match variables ds1 !! coord with
        | Some v1 =>
            Ok (with_variables ds1
                  (<[coord := restore_meta (var_attrs v) (var_encoding v) v1]>
                     (variables ds1)), w)
        | None => Raise (KeyError coord)
        end
    | Raise e => Raise e
    end.
Proof.
  intros Hv Hred. unfold fix_coord. rewrite Hv.
  rewrite not_time_role by (destruct Hred as [[? _]|[? _]]; auto).
  destruct Hred as [[Hin Hn]|[Hin Hn]].
  - rewrite bool_decide_eq_true_2 by assumption. rewrite Hn. cbn [Nat.eqb andb].
    destruct (drop_leading coord v ds); reflexivity.
  - rewrite vertical_not_horizontal by assumption. cbn [andb].
    rewrite bool_decide_eq_true_2 by assumption. rewrite Hn. cbn [Nat.eqb andb].
    destruct (drop_leading coord v ds); reflexivity.
Qed.

(** X14.  A latitude or longitude of three dimensions, and a vertical
    coordinate of two, is cut down to its first time step: its turn of
    the loop leaves it over the dimensions that follow the leading one,
    with the elements at index 0 of that one and with the attributes
    and the encoding it had, and makes it a coordinate. *)
Theorem leading_dimension_dropped ds w coord v d rest k :
  variables ds !! coord = Some v ->
  reduces coord v ->
  var_dims v = d :: rest ->
  sizes ds !! d = Some (S k) ->
  index_conflict coord rest = false ->
  fix_coord coord (ds, w) =
    Ok ({| variables := <[coord := first_step v rest]> (variables ds);
           coord_names := {[coord]} ∪ coord_names ds;
           sizes := sizes ds;
           ds_attrs := ds_attrs ds |}, w).
Proof.
  intros Hv Hred Hd Hk Hc. rewrite (fix_coord_reduces ds w coord v Hv Hred).
  unfold drop_leading, take_first. rewrite Hd, Hk. cbn [rbind var_dims]. rewrite Hc.
  cbn [variables]. rewrite lookup_insert_eq.
  unfold with_variables, restore_meta, first_step. cbn.
  now rewrite insert_insert_eq.
Qed.

Lemma fix_coord_empty_axis ds w coord v d rest :
  variables ds !! coord = Some v ->
  reduces coord v ->
  var_dims v = d :: rest ->
  size_of ds d = 0%nat ->
  fix_coord coord (ds, w) = Raise empty_axis_error.
Proof.
  intros Hv Hred Hd Hk. rewrite (fix_coord_reduces ds w coord v Hv Hred).
  unfold drop_leading, take_first. rewrite Hd. unfold size_of in Hk.
  destruct (sizes ds !! d) as [[|n]|]; try discriminate Hk; reflexivity.
Qed.

(** X15.  A file without a time step cannot be cleaned up: where the
    leading dimension of such a coordinate has size 0, its turn raises
    [IndexError], outside any [try], and so the loop over any
    coordinates that include it raises. *)
Theorem empty_leading_dimension_raises ds coord v d rest :
  variables ds !! coord = Some v ->
  reduces coord v ->
  var_dims v = d :: rest ->
  size_of ds d = 0%nat ->
  (forall w, fix_coord coord (ds, w) = Raise empty_axis_error) /\
  (forall l w, NoDup l -> coord ∈ l ->
     exists w' e, fix_coords l (ds, w) = (w', Raise e)).
Proof.
  intros Hv Hred Hd Hk. split.
  - intros w. now apply fix_coord_empty_axis with v d rest.
  - intros l w Hnd Hin.
    destruct (fix_coords l (ds, w)) as [w' [ds'|e]] eqn:Hrun; [|eauto].
    exfalso.
    destruct (fix_coords_at l coord ds w ds' w' Hnd Hin Hrun)
      as (ds0 & w0 & ds1 & w1 & Hs0 & Hv0 & Hstep & _).
    rewrite (fix_coord_empty_axis ds0 w0 coord v d rest) in Hstep; try assumption.
    + discriminate.
    + congruence.
    + unfold size_of in *. now rewrite Hs0.
Qed.

(** X16.  A coordinate that is neither of the time role, nor a latitude
    or longitude of three dimensions, nor a vertical coordinate of two,
    is left alone: its turn changes nothing and warns of nothing. *)
Theorem other_coordinates_untouched ds w coord v :
  variables ds !! coord = Some v ->
  coord ∉ _TIME_COORD_VARS ->
  (coord ∈ (_LON_COORDS ++ _LAT_COORDS)%list -> var_ndim v <> 3%nat) ->
  (coord ∈ _VERTICAL_COORDS -> var_ndim v <> 2%nat) ->
  fix_coord coord (ds, w) = Ok (ds, w).
Proof.
  intros Hv Ht Hh Hz. unfold fix_coord. rewrite Hv.
  rewrite bool_decide_eq_false_2 by assumption.
  assert (bool_decide (coord ∈ (_LON_COORDS ++ _LAT_COORDS)%list)
          && Nat.eqb (var_ndim v) 3 = false) as ->.
  { case_bool_decide; [|reflexivity]. cbn. apply Nat.eqb_neq. auto. }
  assert (bool_decide (coord ∈ _VERTICAL_COORDS) && Nat.eqb (var_ndim v) 2 = false) as ->.
  { case_bool_decide; [|reflexivity]. cbn. apply Nat.eqb_neq. auto. }
  cbn [rbind]. rewrite Hv.
  now rewrite restore_meta_id, insert_id, with_variables_id.
Qed.

(** What a turn of the loop does, whichever branch it takes. *)
Lemma fix_coord_step ds w coord ds' w' :
  fix_coord coord (ds, w) = Ok (ds', w') ->
  exists v v1,
    variables ds !! coord = Some v /\
    variables ds' =
      <[coord := restore_meta (var_attrs v) (var_encoding v) v1]> (variables ds) /\
    sizes ds' = sizes ds /\ ds_attrs ds' = ds_attrs ds /\
    (coord_names ds' = coord_names ds \/ coord_names ds' = {[coord]} ∪ coord_names ds) /\
    (w' = w \/ w' = (w ++ [parse_warning coord])%list).
Proof.
  unfold fix_coord. destruct (variables ds !! coord) as [v|] eqn:Hv; [|discriminate].
  set (step := if bool_decide (coord ∈ _TIME_COORD_VARS) then _ else _).
  destruct step as [[ds1 w1]|] eqn:Hstep; [|discriminate]. cbn [rbind].
  destruct (variables ds1 !! coord) as [v1|] eqn:Hv1; [|discriminate].
  intros [= <- <-]. exists v, v1. split; [reflexivity|].
  assert (variables ds1 = variables ds \/
          variables ds1 = <[coord := v1]> (variables ds)) as Hvars.
  { subst step. case_bool_decide.
    - destruct (parse_time_coord ds coord v); injection Hstep as <- <-.
      + right. cbn in Hv1 |- *. rewrite lookup_insert_eq in Hv1. congruence.
      + now left.
    - repeat match type of Hstep with
             | context [if ?b then _ else _] => destruct b
             end;
        first [ injection Hstep as <- <-; now left
              | unfold drop_leading in Hstep;
                destruct (take_first ds v) as [v0|]; [|discriminate];
                cbn [rbind] in Hstep;
                destruct (index_conflict coord (var_dims v0)); [discriminate|];
                injection Hstep as <- <-; right;
                cbn in Hv1 |- *; rewrite lookup_insert_eq in Hv1; congruence ]. }
  assert (sizes ds1 = sizes ds /\ ds_attrs ds1 = ds_attrs ds /\
          (coord_names ds1 = coord_names ds \/ coord_names ds1 = {[coord]} ∪ coord_names ds) /\
          (w1 = w \/ w1 = (w ++ [parse_warning coord])%list)) as (Hs & Ha & Hc & Hw).
  { subst step. case_bool_decide.
    - destruct (parse_time_coord ds coord v); injection Hstep as <- <-; cbn; auto.
    - repeat match type of Hstep with
             | context [if ?b then _ else _] => destruct b
             end;
        first [ injection Hstep as <- <-; now auto
              | unfold drop_leading in Hstep;
                destruct (take_first ds v) as [v0|]; [|discriminate];
                cbn [rbind] in Hstep;
                destruct (index_conflict coord (var_dims v0)); [discriminate|];
                injection Hstep as <- <-; cbn; auto ]. }
  cbn. repeat split; try assumption.
  destruct Hvars as [->| ->]; [reflexivity | now rewrite insert_insert_eq].
Qed.

(** X17.  The loop keeps what it is not there to change: when it ends,
    the dataset has the variables it had, each with the attributes and
    the encoding it had, the same sizes and global attributes, every
    coordinate is still one, and the warnings given before are still
    there. *)
Theorem loop_preserves l ds w ds' w' :
  fix_coords l (ds, w) = (w', Ok ds') ->
  sizes ds' = sizes ds /\ ds_attrs ds' = ds_attrs ds /\
  (forall name v, variables ds !! name = Some v ->
     exists v', variables ds' !! name = Some v' /\
       var_attrs v' = var_attrs v /\ var_encoding v' = var_encoding v) /\
  (forall name, variables ds !! name = None -> variables ds' !! name = None) /\
  (forall name, name ∈ coord_names ds -> name ∈ coord_names ds') /\
  (exists more, w' = (w ++ more)%list).
Proof.
  revert ds w. induction l as [|c l IH]; intros ds w; cbn [fix_coords].
  - intros [= <- <-]. repeat split; eauto. exists []. now rewrite app_nil_r.
  - destruct (fix_coord c (ds, w)) as [[ds1 w1]|] eqn:Hstep; [|intros [=]].
    intros Hrest.
    destruct (fix_coord_step ds w c ds1 w1 Hstep)
      as (v & v1 & Hv & Hvars & Hs1 & Ha1 & Hc1 & Hw1).
    destruct (IH ds1 w1 Hrest) as (Hs & Ha & Hkeep & Hnone & Hco & more & Hw).
    repeat split; try congruence.
    + intros name u Hu. destruct (decide (name = c)) as [->|Hne].
      * destruct (Hkeep c (restore_meta (var_attrs v) (var_encoding v) v1))
          as (v' & Hv' & Hat & Hen).
        { rewrite Hvars. apply lookup_insert_eq. }
        exists v'. split; [assumption|]. cbn in Hat, Hen. split; congruence.
      * apply Hkeep. rewrite Hvars, lookup_insert_ne by congruence. assumption.
    + intros name Hn. apply Hnone. rewrite Hvars.
      rewrite lookup_insert_ne; [assumption|]. intros ->. congruence.
    + intros name Hn. apply Hco.
      destruct Hc1 as [->| ->]; [assumption|]. apply elem_of_union. now right.
    + destruct Hw1 as [->| ->]; [eauto|].
      exists (parse_warning c :: more). rewrite Hw. now rewrite <- app_assoc.
Qed.


End CoordinateLoop.

Section Pipeline.

Context {num : Type} `{PyNum num} {CRS : Type}.
Implicit Types (ds : @Dataset num CRS).

Variable pyproj_CRS : gmap string (@attrval num) -> result CRS.
Variable crs_to_cf : CRS -> gmap string (@attrval num).
Variable pyproj_transform : CRS -> num -> num -> result (num * num).
Variable dataarray_add_ndarray : @XVariable num CRS -> list num -> result (@pyval num CRS).
Variable abspath_expanduser : string -> string.
Variable decode_options : Type.
Variable open_store : string -> decode_options -> result (@Dataset num CRS).

Local Abbreviation grid_of :=
  (_wrf_grid_from_dataset pyproj_CRS pyproj_transform dataarray_add_ndarray).
Local Abbreviation add_coords :=
  (add_horizontal_projection_coordinates pyproj_CRS crs_to_cf pyproj_transform
     dataarray_add_ndarray).
Local Abbreviation fixup :=
  (fixup_coords pyproj_CRS crs_to_cf pyproj_transform dataarray_add_ndarray).
Local Abbreviation open_wrf :=
  (open_dataset pyproj_CRS crs_to_cf pyproj_transform dataarray_add_ndarray
     abspath_expanduser decode_options open_store).

Lemma add_coords_outcome ds :
  add_coords ds =
    (ds, Raise match grid_of ds with Ok _ => tuple_error | Raise e => e end).
Proof.
  unfold add_horizontal_projection_coordinates, mbind'.
  destruct (grid_of ds) as [g|e] eqn:Hg; [|reflexivity].
  unfold mlift, unpack5.
  rewrite (grid_keys_of pyproj_CRS pyproj_transform dataarray_add_ndarray ds g Hg).
  reflexivity.
Qed.

Lemma fixup_outcome ds :
  fixup ds =
    match fix_coords (coords_of (set_coords (dom (variables ds) ∩ _ALL_COORDS) ds))
            (set_coords (dom (variables ds) ∩ _ALL_COORDS) ds, []) with
    | (warnings, Raise e) => (warnings, Raise e)
    | (warnings, Ok ds1) =>
        (warnings, Raise match grid_of ds1 with Ok _ => tuple_error | Raise e => e end)
    end.
Proof.
  unfold fixup_coords.
  destruct (fix_coords _ _) as [warnings [ds1|e]]; [|reflexivity].
  now rewrite add_coords_outcome.
Qed.

(** X19.  [fixup_coords] returns for no dataset.  When the loop over
    the coordinates has not raised, the call ends in the failure of
    [add_horizontal_projection_coordinates] on the dataset the loop
    ends with: the error of the grid derivation or, the grid derived,
    the [ValueError] of the first assignment; the promotion to
    dimension coordinates is never reached. *)
Theorem fixup_coords_never_returns ds :
  (exists warnings e, fixup ds = (warnings, Raise e)) /\
  (forall warnings ds1,
     fix_coords (coords_of (set_coords (dom (variables ds) ∩ _ALL_COORDS) ds))
       (set_coords (dom (variables ds) ∩ _ALL_COORDS) ds, []) = (warnings, Ok ds1) ->
     (forall g, grid_of ds1 = Ok g -> fixup ds = (warnings, Raise tuple_error)) /\
     (forall e, grid_of ds1 = Raise e -> fixup ds = (warnings, Raise e))).
Proof.
  rewrite fixup_outcome. split.
  - destruct (fix_coords _ _) as [warnings [ds1|e]]; eauto.
  - intros warnings ds1 ->. split.
    + now intros g ->.
    + now intros e ->.
Qed.

(** X20.  [open_dataset] hands back a dataset for no file and no
    options: it raises or, with [destagger], returns the exception
    object. *)
Theorem open_dataset_never_returns_dataset filename options destagger drop :
  exists warnings,
    (exists e, open_wrf filename options destagger drop = (warnings, Raise e)) \/
    (destagger = true /\
     open_wrf filename options destagger drop =
       (warnings, Ok (RetException destagger_error))).
Proof.
  unfold open_dataset.
  destruct (open_store _ _) as [ds0|]; [|eauto].
  destruct (calc_base_diagnostics drop ds0) as [ds1 [[]|]]; [|eauto].
  destruct destagger; [exists []; now right|].
  change (fixup_coords pyproj_CRS crs_to_cf pyproj_transform dataarray_add_ndarray ds1)
    with (fixup ds1).
  rewrite fixup_outcome.
  destruct (fix_coords _ _) as [w [ds2|e]]; eauto.
Qed.

Lemma first_missing_key_error drop ds name :
  no_reserved_dims ds -> inputs_numeric ds -> first_missing ds = Some name ->
  exists ds', calc_base_diagnostics drop ds = (ds', Raise (KeyError name)).
Proof.
  intros Hno Hnum Hfirst. rewrite (calc_base_diagnostics_cases drop ds Hno). cbv zeta.
  unfold first_missing, diagnostic_inputs in Hfirst. cbn in Hfirst.
  assert (forall n, bool_decide (n ∈ diagnostic_inputs) = true ->
            forall v, variables ds !! n = Some v -> is_numeric v = true) as Hnum'.
  { intros n Hn v Hv. apply (Hnum n v); [now apply in_list | assumption]. }
  destruct (variables ds !! "T") as [t|] eqn:HT.
  2:{ rewrite bool_decide_eq_true_2 in Hfirst by reflexivity.
      injection Hfirst as <-. eauto. }
  rewrite bool_decide_eq_false_2 in Hfirst by discriminate.
  destruct (numeric_scalar_op num_add t (num_of_Z 300)) as [theta ->].
  { now apply (Hnum' "T"). }
  destruct (variables ds !! "P") as [p|] eqn:HP.
  2:{ rewrite bool_decide_eq_true_2 in Hfirst by reflexivity.
      injection Hfirst as <-. eauto. }
  rewrite bool_decide_eq_false_2 in Hfirst by discriminate.
  destruct (variables ds !! "PB") as [pb|] eqn:HPB.
  2:{ rewrite bool_decide_eq_true_2 in Hfirst by reflexivity.
      injection Hfirst as <-. eauto. }
  rewrite bool_decide_eq_false_2 in Hfirst by discriminate.
  destruct (numeric_binop num_add p pb) as [pres ->].
  { now apply (Hnum' "P"). }
  { now apply (Hnum' "PB"). }
  destruct (variables ds !! "PH") as [ph|] eqn:HPH.
  2:{ rewrite bool_decide_eq_true_2 in Hfirst by reflexivity.
      injection Hfirst as <-. eauto. }
  rewrite bool_decide_eq_false_2 in Hfirst by discriminate.
  destruct (variables ds !! "PHB") as [phb|] eqn:HPHB.
  2:{ rewrite bool_decide_eq_true_2 in Hfirst by reflexivity.
      injection Hfirst as <-. eauto. }
  rewrite bool_decide_eq_false_2 in Hfirst by discriminate. discriminate.
Qed.

(** X21.  A file that lacks an input of the diagnostics cannot be
    opened, with [destagger] or without: the [KeyError] of the first
    input missing comes before the branch on [destagger]; and an error
    of the reader is the error of [open_dataset]. *)
Theorem open_dataset_fails_first filename options destagger drop :
  (forall e, open_store (_normalize_path abspath_expanduser filename) options = Raise e ->
     open_wrf filename options destagger drop = ([], Raise e)) /\
  (forall ds name,
     open_store (_normalize_path abspath_expanduser filename) options = Ok ds ->
     no_reserved_dims ds -> inputs_numeric ds -> first_missing ds = Some name ->
     open_wrf filename options destagger drop = ([], Raise (KeyError name))).
Proof.
  unfold open_dataset. split.
  - now intros e ->.
  - intros ds name -> Hno Hnum Hfirst.
    destruct (first_missing_key_error drop ds name Hno Hnum Hfirst) as [ds' ->].
    reflexivity.
Qed.

Lemma promote_frame name dim ds :
  sizes (promote name dim ds) = sizes ds /\
  ds_attrs (promote name dim ds) = ds_attrs ds /\
  forall other, other <> name -> other <> dim ->
    variables (promote name dim ds) !! other = variables ds !! other /\
    (other ∈ coord_names (promote name dim ds) <-> other ∈ coord_names ds).
Proof.
  unfold promote. destruct (variables ds !! name) as [v|]; [|now repeat split].
  destruct (_ && _); [|now repeat split].
  cbn [variables coord_names sizes ds_attrs ds_delete ds_insert].
  split; [reflexivity|]. split; [reflexivity|]. intros other Hn Hd. split.
  - now rewrite lookup_delete_ne, lookup_insert_ne by congruence.
  - rewrite elem_of_difference, elem_of_singleton. case_bool_decide.
    + rewrite elem_of_union, elem_of_singleton. tauto.
    + tauto.
Qed.

(** X22.  The promotion to dimension coordinates touches six names and
    nothing else: every variable other than [ZNU], [ZNW], [XTIME],
    [bottom_top], [bottom_top_stag] and [Time] is as it was, a
    coordinate if it was one, and the sizes and the global attributes
    are unchanged. *)
Theorem promotion_frame ds :
  sizes (promote_dimension_coords ds) = sizes ds /\
  ds_attrs (promote_dimension_coords ds) = ds_attrs ds /\
  forall name,
    name ∉ ["ZNU"; "ZNW"; "XTIME"; "bottom_top"; "bottom_top_stag"; "Time"] ->
    variables (promote_dimension_coords ds) !! name = variables ds !! name /\
    (name ∈ coord_names (promote_dimension_coords ds) <-> name ∈ coord_names ds).
Proof.
  unfold promote_dimension_coords.
  set (ds1 := promote "ZNU" "bottom_top" ds).
  set (ds2 := promote "ZNW" "bottom_top_stag" ds1).
  destruct (promote_frame "ZNU" "bottom_top" ds) as (S1 & A1 & F1).
  destruct (promote_frame "ZNW" "bottom_top_stag" ds1) as (S2 & A2 & F2).
  destruct (promote_frame "XTIME" "Time" ds2) as (S3 & A3 & F3).
  fold ds1 in S1, A1, F1. fold ds2 in S2, A2, F2.
  split; [congruence|]. split; [congruence|].
  intros name Hname.
  repeat (apply not_elem_of_cons in Hname as [? Hname]).
  destruct (F1 name) as [V1 C1]; [assumption..|].
  destruct (F2 name) as [V2 C2]; [assumption..|].
  destruct (F3 name) as [V3 C3]; [assumption..|].
  split; [congruence | tauto].
Qed.

End Pipeline.
(** * The further theorems at the examples *)

Module Checks.

Import Examples Cases.

Ltac no_such_dims :=
  let name := fresh "name" in
  let Hin := fresh "Hin" in
  intros name Hin; apply list_elem_of_In in Hin; cbn in Hin;
  repeat (destruct Hin as [<-|Hin]; [vm_compute; reflexivity|]);
  contradiction.

Ltac not_listed :=
  let Hin := fresh "Hin" in
  intros Hin; apply list_elem_of_In in Hin; cbn in Hin; intuition discriminate.

Lemma wrfout_derived_free : no_derived_dims wrfout.
Proof. no_such_dims. Qed.

Lemma wrfout_reserved_free : no_reserved_dims wrfout.
Proof. no_such_dims. Qed.

Lemma partial_reserved_free : no_reserved_dims wrfout_no_geopotential.
Proof. no_such_dims. Qed.

Lemma partial_numeric : inputs_numeric wrfout_no_geopotential.
Proof.
  intros name v Hin Hv. apply list_elem_of_In in Hin. cbn in Hin.
  destruct Hin as [<-|[<-|[<-|[<-|[<-|[]]]]]]; vm_compute in Hv;
    try discriminate; injection Hv as <-; reflexivity.
Qed.

Lemma derived_fields_metadata_witness :
  exists ds' pres,
    calc_base_diagnostics true wrfout = (ds', Ok tt) /\
    variables ds' !! "air_pressure" = Some pres /\
    var_attrs pres !! "units" = Some (AStr "1") /\
    var_attrs pres !! "standard_name" = Some (AStr "air_pressure").
Proof.
  destruct (derived_fields_metadata true wrfout var_T var_P var_PB var_PH var_PHB)
    as (ds' & theta & pres & geo & z & Hrun & _ & Hpres & _ & _ & _ & Hattrs & _);
    try first [reflexivity | exact wrfout_derived_free].
  exists ds', pres. split; [exact Hrun|]. split; [exact Hpres|].
  rewrite Hattrs. split; reflexivity.
Defined.

Lemma failure_keeps_earlier_blocks_witness :
  exists ds' key,
    calc_base_diagnostics true wrfout_no_geopotential = (ds', Raise (KeyError key)) /\
    variables ds' !! "T" = None /\ variables ds' !! "P" = None /\
    variables ds' !! "PB" = None.
Proof.
  destruct (failure_keeps_earlier_blocks true wrfout_no_geopotential partial_reserved_free)
    as [_ Hlater].
  destruct (Hlater var_T var_P var_PB eq_refl eq_refl eq_refl eq_refl eq_refl eq_refl
              (or_introl eq_refl))
    as (ds' & key & Hrun & _ & _ & Hgone & _).
  exists ds', key. split; [exact Hrun|].
  inversion Hgone as [|? ? HT Hrest]; subst.
  inversion Hrest as [|? ? HP Hrest']; subst.
  inversion Hrest' as [|? ? HPB _]; subst.
  now repeat split.
Defined.

Lemma second_run_without_drop_is_identity_witness :
  exists ds', calc_base_diagnostics false wrfout = (ds', Ok tt) /\
              calc_base_diagnostics false ds' = (ds', Ok tt).
Proof.
  apply (second_run_without_drop_is_identity wrfout var_T var_P var_PB var_PH var_PHB);
    first [reflexivity | exact wrfout_derived_free].
Defined.

Lemma second_run_after_drop_raises_witness :
  exists ds', calc_base_diagnostics true wrfout = (ds', Ok tt) /\
              calc_base_diagnostics true ds' = (ds', Raise (KeyError "T")).
Proof.
  apply (second_run_after_drop_raises wrfout var_T var_P var_PB var_PH var_PHB);
    first [reflexivity | exact wrfout_reserved_free].
Defined.

Lemma missing_attribute_raises_witness :
  grid_of wrfout_no_dx = Raise (AttributeError "DX") /\
  add_coords wrfout_no_dx = (wrfout_no_dx, Raise (AttributeError "DX")).
Proof.
  apply (missing_attribute_raises pyproj_CRS crs_to_cf pyproj_transform
           dataarray_add_ndarray wrfout_no_dx "DX").
  vm_compute. reflexivity.
Defined.

Lemma har_projection_witness :
  projection_pargs har_file =
    Ok (<["proj" := AStr "lcc"]> (<["lon_0" := ANum 87%Q]> (<["lat_0" := ANum 30%Q]>
       (<["lat_2" := ANum 35%Q]> (<["lat_1" := ANum 30%Q]> initial_pargs))))).
Proof.
  exact (har_projection har_file (ANum 10000%Q) (ANum 10000%Q) (ANum 30%Q) (ANum 35%Q)
           (ANum 30%Q) (ANum 87%Q) (AStr "Lambert Conformal Conic")
           eq_refl eq_refl eq_refl eq_refl eq_refl eq_refl eq_refl eq_refl).
Defined.

Lemma normal_projection_witness :
  projection_pargs wrfout =
    Ok (<["proj" := AStr "lcc"]> (<["lat_1" := ANum 30%Q]> (<["lat_2" := ANum 60%Q]>
       (<["lat_0" := ANum 50%Q]> (<["lon_0" := ANum 10%Q]> initial_pargs))))).
Proof.
  exact (normal_projection wrfout (ANum 10%Q) (ANum 50%Q) (ANum 3000%Q) (ANum 3000%Q)
           (ANum 30%Q) (ANum 60%Q) (ANum 50%Q) (ANum 10%Q) (AInt 1)
           eq_refl eq_refl eq_refl eq_refl eq_refl eq_refl eq_refl eq_refl eq_refl eq_refl).
Defined.

Lemma wrfout_grid_derived : grid_of wrfout = Ok wrfout_grid.
Proof. vm_compute. reflexivity. Qed.


Lemma grid_lookup_failures_witness :
  grid_of no_horizontal = Raise (KeyError "west_east").
Proof.
  destruct (grid_lookup_failures pyproj_CRS pyproj_transform dataarray_add_ndarray
              no_horizontal
              (<["proj" := AStr "lcc"]> (<["lat_1" := ANum 30%Q]> (<["lat_2" := ANum 60%Q]>
                 (<["lat_0" := ANum 50%Q]> (<["lon_0" := ANum 10%Q]> initial_pargs))))))
    as (_ & Hwe & _).
  - vm_compute. reflexivity.
  - eapply Hwe; reflexivity.
Defined.

Lemma har_grid_fails_witness : grid_of har_file = Raise scalar_sum_error.
Proof.
  eapply (har_grid_fails pyproj_CRS pyproj_transform dataarray_add_ndarray har_file
            _ _ 10 8 (har_axis "west_east") (har_axis "south_north")
            (ANum 10000%Q) 10000%Q "south_north" 7).
  - reflexivity.
  - vm_compute. reflexivity.
  - reflexivity.
  - vm_compute. reflexivity.
  - vm_compute. reflexivity.
  - reflexivity.
  - vm_compute. reflexivity.
  - reflexivity.
  - reflexivity.
  - reflexivity.
  - reflexivity.
  - reflexivity.
Defined.

Lemma leading_dimension_dropped_witness :
  fix_coord "XLAT" (with_latitude, []) =
    Ok ({| variables :=
             <["XLAT" := first_step var_XLAT ["south_north"; "west_east"]]>
               (variables with_latitude);
           coord_names := {["XLAT"]} ∪ coord_names with_latitude;
           sizes := sizes with_latitude;
           ds_attrs := ds_attrs with_latitude |}, []).
Proof.
  apply (leading_dimension_dropped with_latitude [] "XLAT" var_XLAT "Time"
           ["south_north"; "west_east"] 1).
  - reflexivity.
  - left. split; [apply list_elem_of_In; cbn; tauto | reflexivity].
  - reflexivity.
  - reflexivity.
  - reflexivity.
Defined.

Lemma empty_leading_dimension_raises_witness :
  fix_coord "XLAT" (no_time_steps, []) = Raise empty_axis_error /\
  exists w' e, fix_coords (coords_of no_time_steps) (no_time_steps, []) = (w', Raise e).
Proof.
  destruct (empty_leading_dimension_raises no_time_steps "XLAT" var_XLAT "Time"
              ["south_north"; "west_east"]) as [Hturn Hloop].
  - reflexivity.
  - left. split; [apply list_elem_of_In; cbn; tauto | reflexivity].
  - reflexivity.
  - reflexivity.
  - split; [apply Hturn | apply Hloop].
    + unfold coords_of. apply NoDup_filter, NoDup_elements.
    + apply list_elem_of_In. vm_compute. tauto.
Defined.

Lemma other_coordinates_untouched_witness :
  fix_coord "ZNU" (wrfout, []) = Ok (wrfout, []).
Proof.
  apply (other_coordinates_untouched wrfout [] "ZNU" var_ZNU).
  - reflexivity.
  - not_listed.
  - discriminate.
  - discriminate.
Defined.

Lemma wrfout_loop : fix_coords ["Times"; "ZNU"] (wrfout, []) = ([], Ok wrfout_looped).
Proof. vm_compute. reflexivity. Qed.

Lemma loop_preserves_witness :
  sizes wrfout_looped = sizes wrfout /\
  exists v', variables wrfout_looped !! "ZNU" = Some v' /\
             var_attrs v' = var_attrs var_ZNU /\ var_encoding v' = var_encoding var_ZNU.
Proof.
  destruct (loop_preserves ["Times"; "ZNU"] wrfout [] wrfout_looped [] wrfout_loop)
    as (Hs & _ & Hkeep & _).
  split; [exact Hs|]. apply (Hkeep "ZNU" var_ZNU). reflexivity.
Defined.


Lemma open_dataset_fails_first_witness :
  open_dataset pyproj_CRS crs_to_cf pyproj_transform dataarray_add_ndarray
    abspath_expanduser unit open_partial "/data/wrfout_d02" tt true true =
    ([], Raise (KeyError "PH")).
Proof.
  destruct (open_dataset_fails_first pyproj_CRS crs_to_cf pyproj_transform
              dataarray_add_ndarray abspath_expanduser unit open_partial
              "/data/wrfout_d02" tt true true) as [_ Hmiss].
  apply (Hmiss wrfout_no_geopotential "PH").
  - reflexivity.
  - exact partial_reserved_free.
  - exact partial_numeric.
  - reflexivity.
Defined.

End Checks.
